(** * rdb: object store, HEAD resolution, commit and staging filters

    A shallow embedding of the Go sources of the rdb command line tool
    ([internal/repo] and the [commit] and [add] commands), with the
    properties of its written specification stated against that embedding.

    Go strings and byte slices are both sequences of bytes; they are
    modelled by [string].  Go's [int] is the 64-bit signed integer and is
    modelled by [Z] with its range written out where the code depends on
    it.  The file system is a finite map from path to file contents. *)

From Stdlib Require Import ZArith Ascii String List Lia.
From stdpp Require Import base option list gmap strings.

Local Open Scope Z_scope.

(** ** Outcomes of Go calls

    A Go function of this code base either returns normally, returns a
    non-nil [error], or panics at run time (slice bounds). *)

Inductive error : Type :=
| ErrNew (msg : string)                    (* fmt.Errorf without %w *)
| ErrWrap (msg : string) (cause : error)   (* fmt.Errorf("msg: %w", err) *)
| ErrNotExist (op path : string)           (* *fs.PathError: no such file *)
| ErrSyntax (fn input : string)            (* strconv.ErrSyntax *)
| ErrRange (fn input : string)             (* strconv.ErrRange *)
| ErrScan (msg : string)                   (* error raised inside fmt scanning *)
| ErrEOF.                                  (* io.EOF *)

Inductive outcome (A : Type) : Type :=
| Ok (a : A)
| Err (e : error)
| Panic (msg : string).
Arguments Ok {A} a.
Arguments Err {A} e.
Arguments Panic {A} msg.

(** A library call that returns a value or an error and does not panic. *)
Inductive result (A : Type) : Type :=
| Done (a : A)
| Failed (e : error).
Arguments Done {A} a.
Arguments Failed {A} e.

Definition of_result {A} (x : result A) : outcome A :=
  match x with Done a => Ok a | Failed e => Err e end.

Definition is_Ok {A} (o : outcome A) : bool :=
  match o with Ok _ => true | _ => false end.
Definition is_Err {A} (o : outcome A) : bool :=
  match o with Err _ => true | _ => false end.

(** ** Bytes and strings *)

Module Bytes.

Definition to_Z (c : ascii) : Z := Z.of_N (N_of_ascii c).
Definition of_Z (z : Z) : ascii := ascii_of_N (Z.to_N (z mod 256)).

Definition NUL : ascii := Ascii.zero.
Definition LF : ascii := Ascii.ascii_of_nat 10.
Definition quote : ascii := of_Z 34.
Definition backslash : ascii := of_Z 92.

Definition len (s : string) : Z := Z.of_nat (String.length s).

Fixpoint take (n : nat) (s : string) : string :=
  match n, s with
  | S n', String c s' => String c (take n' s')
  | _, _ => EmptyString
  end.

Fixpoint drop (n : nat) (s : string) : string :=
  match n, s with
  | S n', String _ s' => drop n' s'
  | _, _ => s
  end.

(** Go's [s[:n]] and [s[n:]]: a run-time panic when [n > len(s)]. *)
Definition slice_to (s : string) (n : nat) : outcome string :=
  if (n <=? String.length s)%nat then Ok (take n s)
  else Panic "slice bounds out of range".

Definition slice_from (s : string) (n : nat) : outcome string :=
  if (n <=? String.length s)%nat then Ok (drop n s)
  else Panic "slice bounds out of range".

Fixpoint to_list (s : string) : list Z :=
  match s with
  | EmptyString => []
  | String c s' => to_Z c :: to_list s'
  end.

Fixpoint forallb (p : ascii → bool) (s : string) : bool :=
  match s with
  | EmptyString => true
  | String c s' => p c && forallb p s'
  end.

End Bytes.

(** ** crypto/sha256 and encoding/hex

    SHA-256 as in FIPS 180-4, on 32-bit words held in [Z]. *)

Module SHA256.

Definition mask32 : Z := 4294967295.
Definition w32 (x : Z) : Z := Z.land x mask32.
Definition add32 (x y : Z) : Z := w32 (x + y).
Definition rotr (n x : Z) : Z :=
  Z.lor (Z.shiftr x n) (w32 (Z.shiftl x (32 - n))).
Definition shr (n x : Z) : Z := Z.shiftr x n.
Definition xor3 (x y z : Z) : Z := Z.lxor (Z.lxor x y) z.

Definition Ch (x y z : Z) : Z :=
  Z.lxor (Z.land x y) (Z.land (Z.lxor x mask32) z).
Definition Maj (x y z : Z) : Z :=
  xor3 (Z.land x y) (Z.land x z) (Z.land y z).
Definition Sigma0 (x : Z) : Z := xor3 (rotr 2 x) (rotr 13 x) (rotr 22 x).
Definition Sigma1 (x : Z) : Z := xor3 (rotr 6 x) (rotr 11 x) (rotr 25 x).
Definition sigma0 (x : Z) : Z := xor3 (rotr 7 x) (rotr 18 x) (shr 3 x).
Definition sigma1 (x : Z) : Z := xor3 (rotr 17 x) (rotr 19 x) (shr 10 x).

(** The constants of the standard are derived as it defines them: the
    first 32 bits of the fractional parts of the cube roots (round
    constants) and of the square roots (initial hash value) of the first
    primes. *)
Definition is_prime (n : Z) : bool :=
  (1 <? n) &&
  forallb (λ d, negb (n mod Z.of_nat d =? 0))
          (seq 2 (Z.to_nat (Z.sqrt n) - 1)).

Definition primes_below (bound : nat) : list Z :=
  List.filter is_prime (map Z.of_nat (seq 2 (bound - 2))).

(** Integer cube root, one bit at a time from bit [bits - 1] down. *)
Fixpoint cube_root_bits (bits : nat) (n r : Z) : Z :=
  match bits with
  | O => r
  | S b =>
      let r' := r + 2 ^ Z.of_nat b in
      cube_root_bits b n (if r' * r' * r' <=? n then r' else r)
  end.

Definition frac_cube_root (p : Z) : Z :=
  w32 (cube_root_bits 40 (p * 2 ^ 96) 0).
Definition frac_square_root (p : Z) : Z := w32 (Z.sqrt (p * 2 ^ 64)).

Definition K : list Z :=
  Eval vm_compute in map frac_cube_root (primes_below 312).

(** The eight working variables / chaining values. *)
Record state : Type := State
  { ha : Z; hb : Z; hc : Z; hd : Z; he : Z; hf : Z; hg : Z; hh : Z }.

Definition H0 : state :=
  Eval vm_compute in
    match map frac_square_root (primes_below 20) with
    | [a; b; c; d; e; f; g; h] => State a b c d e f g h
    | _ => State 0 0 0 0 0 0 0 0
    end.

(** One round: [w] is the sliding window of the last sixteen schedule
    words, oldest first; its head is W[t]. *)
Definition round (acc : state * list Z) (k : Z) : state * list Z :=
  let '(s, w) := acc in
  let wt := nth 0 w 0 in
  let t1 := add32 (add32 (add32 (add32 (hh s) (Sigma1 (he s)))
                                (Ch (he s) (hf s) (hg s))) k) wt in
  let t2 := add32 (Sigma0 (ha s)) (Maj (ha s) (hb s) (hc s)) in
  let next := add32 (add32 (add32 (sigma1 (nth 14 w 0)) (nth 9 w 0))
                           (sigma0 (nth 1 w 0))) wt in
  (State (add32 t1 t2) (ha s) (hb s) (hc s)
         (add32 (hd s) t1) (he s) (hf s) (hg s),
   tl w ++ [next]).

Definition compress (h : state) (block : list Z) : state :=
  let s := fst (fold_left round K (h, block)) in
  State (add32 (ha h) (ha s)) (add32 (hb h) (hb s))
        (add32 (hc h) (hc s)) (add32 (hd h) (hd s))
        (add32 (he h) (he s)) (add32 (hf h) (hf s))
        (add32 (hg h) (hg s)) (add32 (hh h) (hh s)).

(** Big-endian packing of bytes into 32-bit words. *)
Fixpoint words (bs : list Z) : list Z :=
  match bs with
  | b0 :: b1 :: b2 :: b3 :: rest =>
      (b0 * 16777216 + b1 * 65536 + b2 * 256 + b3) :: words rest
  | _ => []
  end.

Definition be_bytes (n : nat) (x : Z) : list Z :=
  map (λ i, Z.land (Z.shiftr x (8 * Z.of_nat i)) 255) (rev (seq 0 n)).

Definition pad (msg : list Z) : list Z :=
  let l := Z.of_nat (length msg) in
  let k := Z.to_nat ((55 - l) mod 64) in
  msg ++ [128] ++ List.repeat 0 k ++ be_bytes 8 (8 * l).

(** Consume sixteen words per block; [fuel] bounds the number of blocks. *)
Fixpoint blocks (fuel : nat) (h : state) (ws : list Z) : state :=
  match fuel with
  | O => h
  | S fuel' =>
      match ws with
      | [] => h
      | _ => blocks fuel' (compress h (firstn 16 ws)) (skipn 16 ws)
      end
  end.

Definition digest_words (msg : list Z) : state :=
  let ws := words (pad msg) in
  blocks (length ws) H0 ws.

Definition word_bytes (x : Z) : string :=
  String (Bytes.of_Z (Z.shiftr x 24))
    (String (Bytes.of_Z (Z.shiftr x 16))
       (String (Bytes.of_Z (Z.shiftr x 8))
          (String (Bytes.of_Z x) EmptyString))).

(** [sha256.Sum256]: the 32-byte digest. *)
Definition Sum256 (data : string) : string :=
  let s := digest_words (Bytes.to_list data) in
  word_bytes (ha s) +:+ word_bytes (hb s) +:+ word_bytes (hc s) +:+
  word_bytes (hd s) +:+ word_bytes (he s) +:+ word_bytes (hf s) +:+
  word_bytes (hg s) +:+ word_bytes (hh s).

End SHA256.

Module Hex.

Definition digit (n : Z) : ascii :=
  if n <? 10 then Bytes.of_Z (48 + n) else Bytes.of_Z (87 + n).

(** [hex.EncodeToString]: two lower-case digits per byte. *)
Fixpoint EncodeToString (s : string) : string :=
  match s with
  | EmptyString => EmptyString
  | String c s' =>
      String (digit (Z.shiftr (Bytes.to_Z c) 4))
        (String (digit (Z.land (Bytes.to_Z c) 15)) (EncodeToString s'))
  end.

End Hex.

(** ** strconv: decimal integers *)

Module Strconv.

Definition is_digit (c : ascii) : bool :=
  (48 <=? Bytes.to_Z c) && (Bytes.to_Z c <=? 57).

Definition digit_char (d : Z) : ascii := Bytes.of_Z (48 + d).

(** Decimal digits of a non-negative integer, most significant first. *)
Fixpoint digits (fuel : nat) (n : Z) : string :=
  match fuel with
  | O => String (digit_char (n mod 10)) EmptyString
  | S fuel' =>
      if n <? 10 then String (digit_char n) EmptyString
      else digits fuel' (n / 10) +:+ String (digit_char (n mod 10)) EmptyString
  end.

(** [strconv.Itoa] and the verb [%d] of [fmt.Sprintf]. *)
Definition Itoa (n : Z) : string :=
  if n <? 0 then String "-"%char (digits (Z.to_nat (Z.log2 (- n))) (- n))
  else digits (Z.to_nat (Z.log2 n)) n.

Definition maxUint64 : Z := 18446744073709551615.
Definition minInt64 : Z := -9223372036854775808.
Definition maxInt64 : Z := 9223372036854775807.

(** The digit loop of [strconv.ParseUint] for base 10 and 64 bits: a byte
    that is not a digit is a syntax error, a value above [maxUint64] a
    range error; whichever comes first in the input is reported. *)
Fixpoint parse_uint (fn s0 : string) (acc : Z) (s : string) : outcome Z :=
  match s with
  | EmptyString => Ok acc
  | String c s' =>
      if is_digit c then
        let acc' := acc * 10 + (Bytes.to_Z c - 48) in
        if maxUint64 <? acc' then Err (ErrRange fn s0)
        else parse_uint fn s0 acc' s'
      else Err (ErrSyntax fn s0)
  end.

(** [strconv.ParseInt(s, 10, 64)], reporting errors under the name [fn]. *)
Definition parse_int (fn : string) (s : string) : outcome Z :=
  match s with
  | EmptyString => Err (ErrSyntax fn s)
  | String c rest =>
      let neg := Ascii.eqb c "-" in
      let body := if neg || Ascii.eqb c "+" then rest else s in
      match body with
      | EmptyString => Err (ErrSyntax fn s)
      | _ =>
          match parse_uint fn s 0 body with
          | Ok un =>
              if neg then
                if - minInt64 <? un then Err (ErrRange fn s) else Ok (- un)
              else
                if maxInt64 <? un then Err (ErrRange fn s) else Ok un
          | Err e => Err e
          | Panic m => Panic m
          end
      end
  end.

Definition ParseInt : string → outcome Z := parse_int "ParseInt".

(** [strconv.Atoi]: its fast path for short inputs computes the same
    value and reports the same syntax errors as [ParseInt(s, 10, 0)]. *)
Definition Atoi : string → outcome Z := parse_int "Atoi".

End Strconv.

(** ** unicode/utf8

    A rune is a Unicode code point, held in [Z]. *)

Module Utf8.

Definition RuneError : Z := 65533.     (* U+FFFD *)
Definition RuneSelf : Z := 128.
Definition MaxRune : Z := 1114111.     (* U+10FFFF *)

Definition surrogateMin : Z := 55296.  (* 0xD800 *)
Definition surrogateMax : Z := 57343.  (* 0xDFFF *)

Definition t2 : Z := 192.              (* 1100 0000 *)
Definition t3 : Z := 224.              (* 1110 0000 *)
Definition t4 : Z := 240.              (* 1111 0000 *)
Definition tx : Z := 128.              (* 1000 0000 *)

Definition maskx : Z := 63.            (* 0011 1111 *)
Definition mask2 : Z := 31.            (* 0001 1111 *)
Definition mask3 : Z := 15.            (* 0000 1111 *)
Definition mask4 : Z := 7.             (* 0000 0111 *)

Definition rune1Max : Z := 127.
Definition rune2Max : Z := 2047.
Definition rune3Max : Z := 65535.

Definition locb : Z := 128.            (* 1000 0000 *)
Definition hicb : Z := 191.            (* 1011 1111 *)

(** What the table [first] holds for a first byte: the size of the
    encoding in the low three bits and the index into [acceptRanges]
    in the high four; [xx] marks an invalid first byte, [as_] an ASCII
    one. *)
Definition xx : Z := 241.              (* 0xF1 *)
Definition as_ : Z := 240.             (* 0xF0 *)
Definition s1 : Z := 2.                (* 0x02 *)
Definition s2 : Z := 19.               (* 0x13 *)
Definition s3 : Z := 3.                (* 0x03 *)
Definition s4 : Z := 35.               (* 0x23 *)
Definition s5 : Z := 52.               (* 0x34 *)
Definition s6 : Z := 4.                (* 0x04 *)
Definition s7 : Z := 68.               (* 0x44 *)

Definition first (b : Z) : Z :=
  if b <? 128 then as_                 (* 0x00-0x7F *)
  else if b <? 194 then xx             (* 0x80-0xC1 *)
  else if b <? 224 then s1             (* 0xC2-0xDF *)
  else if b =? 224 then s2             (* 0xE0 *)
  else if b <? 237 then s3             (* 0xE1-0xEC *)
  else if b =? 237 then s4             (* 0xED *)
  else if b <? 240 then s3             (* 0xEE-0xEF *)
  else if b =? 240 then s5             (* 0xF0 *)
  else if b <? 244 then s6             (* 0xF1-0xF3 *)
  else if b =? 244 then s7             (* 0xF4 *)
  else xx.                             (* 0xF5-0xFF *)

(** The range of a valid second byte. *)
Definition acceptRanges (i : Z) : Z * Z :=
  if i =? 0 then (locb, hicb)
  else if i =? 1 then (160, hicb)
  else if i =? 2 then (locb, 159)
  else if i =? 3 then (144, hicb)
  else if i =? 4 then (locb, 143)
  else (0, 0).

(** [utf8.DecodeRuneInString]: the first rune of [s] and the number of
    bytes it takes.  An encoding that is invalid or cut short gives
    [RuneError] and the width 1.  Where the Go code compares the length
    of [s] with the size before it looks at the bytes, the bytes are
    matched one by one here: an input that ends early gives the same
    [(RuneError, 1)]. *)
Definition DecodeRuneInString (s : string) : Z * nat :=
  match s with
  | EmptyString => (RuneError, 0%nat)
  | String c0 t0 =>
      let b0 := Bytes.to_Z c0 in
      let x := first b0 in
      if as_ <=? x then
        (if Z.odd x then RuneError else b0, 1%nat)
      else
        let sz := Z.land x 7 in
        let '(lo, hi) := acceptRanges (Z.shiftr x 4) in
        match t0 with
        | EmptyString => (RuneError, 1%nat)
        | String c1 t1 =>
            let b1 := Bytes.to_Z c1 in
            if (b1 <? lo) || (hi <? b1) then (RuneError, 1%nat)
            else if sz <=? 2 then
              (Z.lor (Z.shiftl (Z.land b0 mask2) 6) (Z.land b1 maskx), 2%nat)
            else
              match t1 with
              | EmptyString => (RuneError, 1%nat)
              | String c2 t2 =>
                  let b2 := Bytes.to_Z c2 in
                  if (b2 <? locb) || (hicb <? b2) then (RuneError, 1%nat)
                  else if sz <=? 3 then
                    (Z.lor (Z.lor (Z.shiftl (Z.land b0 mask3) 12)
                                  (Z.shiftl (Z.land b1 maskx) 6))
                           (Z.land b2 maskx), 3%nat)
                  else
                    match t2 with
                    | EmptyString => (RuneError, 1%nat)
                    | String c3 _ =>
                        let b3 := Bytes.to_Z c3 in
                        if (b3 <? locb) || (hicb <? b3)
                        then (RuneError, 1%nat)
                        else
                          (Z.lor (Z.lor (Z.lor
                                    (Z.shiftl (Z.land b0 mask4) 18)
                                    (Z.shiftl (Z.land b1 maskx) 12))
                                    (Z.shiftl (Z.land b2 maskx) 6))
                                 (Z.land b3 maskx), 4%nat)
                    end
              end
        end
  end.

Definition encode3 (r : Z) : string :=
  String (Bytes.of_Z (Z.lor t3 (Z.shiftr r 12 mod 256)))
    (String (Bytes.of_Z (Z.lor tx (Z.land (Z.shiftr r 6 mod 256) maskx)))
       (String (Bytes.of_Z (Z.lor tx (Z.land (r mod 256) maskx)))
          EmptyString)).

(** The bytes that [utf8.AppendRune] appends for the rune [r] ([int32]);
    a rune out of range and a surrogate half are written as
    [RuneError]. *)
Definition AppendRune (r : Z) : string :=
  let i := r mod 4294967296 in
  if i <=? rune1Max then String (Bytes.of_Z r) EmptyString
  else if i <=? rune2Max then
    String (Bytes.of_Z (Z.lor t2 (Z.shiftr r 6 mod 256)))
      (String (Bytes.of_Z (Z.lor tx (Z.land (r mod 256) maskx)))
         EmptyString)
  else if (MaxRune <? i) || ((surrogateMin <=? i) && (i <=? surrogateMax))
  then encode3 RuneError
  else if i <=? rune3Max then encode3 r
  else
    String (Bytes.of_Z (Z.lor t4 (Z.shiftr r 18 mod 256)))
      (String (Bytes.of_Z (Z.lor tx (Z.land (Z.shiftr r 12 mod 256) maskx)))
         (String (Bytes.of_Z (Z.lor tx (Z.land (Z.shiftr r 6 mod 256) maskx)))
            (String (Bytes.of_Z (Z.lor tx (Z.land (r mod 256) maskx)))
               EmptyString))).

End Utf8.

(** ** fmt: scanning with a format

    [fmt.Sscanf] reads its input rune by rune.  The state of the reader
    is the input that is not yet read; to unread a rune is to go on
    from the input before it.  The limit of [1 << 30] runes that fmt
    puts on one scan is not modelled. *)

Module Fmt.

(** The table [space], a copy of the White_Space ranges of Unicode. *)
Definition space : list (Z * Z) :=
  [ (9, 13); (32, 32); (133, 133); (160, 160); (5760, 5760);
    (8192, 8202); (8232, 8233); (8239, 8239); (8287, 8287);
    (12288, 12288) ].

Fixpoint in_ranges (rx : Z) (rngs : list (Z * Z)) : bool :=
  match rngs with
  | [] => false
  | (lo, hi) :: rngs' =>
      if rx <? lo then false
      else if rx <=? hi then true
      else in_ranges rx rngs'
  end.

Definition isSpace (r : Z) : bool :=
  if 65536 <=? r then false else in_ranges (r mod 65536) space.

(** [notSpace], what [%s] reads. *)
Definition notSpace (r : Z) : bool := negb (isSpace r).

Definition newline : Z := 10.

(** The runes that [ss.ReadRune] delivers from the input one after
    another, each with the input that is left once it is read:
    [readRune.ReadRune] decodes as [utf8.DecodeRune] does and keeps the
    bytes behind the first one of an invalid encoding for the next
    read.  [skip] bytes belong to the rune before. *)
Fixpoint runes_from (skip : nat) (s : string) : list (Z * string) :=
  match s with
  | EmptyString => []
  | String _ s' =>
      match skip with
      | S k => runes_from k s'
      | O =>
          let '(r, size) := Utf8.DecodeRuneInString s in
          (r, Bytes.drop size s) :: runes_from (size - 1) s'
      end
  end.

Definition runes (s : string) : list (Z * string) := runes_from 0 s.

(** [indexRune(ok, r) >= 0]. *)
Definition in_string (ok : string) (r : Z) : bool :=
  existsb (λ c, fst c =? r) (runes ok).

Definition sign : string := "+-".
Definition decimalDigits : string := "0123456789_".

(** The bytes of [sign] and of [decimalDigits]. *)
Definition is_sign (c : ascii) : bool :=
  Ascii.eqb c "+" || Ascii.eqb c "-".
Definition is_number_byte (c : ascii) : bool :=
  Strconv.is_digit c || Ascii.eqb c "_".

(** [ss.SkipSpace] for the Sscanf family, where a newline is not space.
    [s] is the input ahead, [rs] its runes.  A carriage return is a
    space, whether a newline follows it or not. *)
Fixpoint skip_space (s : string) (rs : list (Z * string)) : outcome string :=
  match rs with
  | [] => Ok s
  | (r, rest) :: rs' =>
      if r =? newline then Err (ErrScan "unexpected newline")
      else if isSpace r then skip_space rest rs'
      else Ok s
  end.

Definition SkipSpace (s : string) : outcome string := skip_space s (runes s).

(** The loop of [ss.token] and of [ss.scanNumber]: runes are read and
    written to the buffer as long as [f] holds; the rune that ends the
    run is unread.  The result is the buffer and the input left. *)
Fixpoint read_while (f : Z → bool) (s : string) (rs : list (Z * string))
  : string * string :=
  match rs with
  | [] => (EmptyString, s)
  | (r, rest) :: rs' =>
      if f r then
        let '(tok, out) := read_while f rest rs' in
        (Utf8.AppendRune r +:+ tok, out)
      else (EmptyString, s)
  end.

(** [ss.notEOF] panics with [io.EOF], which [errorHandler] returns as
    the error of the scan. *)
Definition notEOF (s : string) : outcome unit :=
  match s with
  | EmptyString => Err ErrEOF
  | _ => Ok tt
  end.

(** [ss.accept]: the next rune is written to the buffer if it is in
    [ok], and left unread if not. *)
Definition accept (ok : string) (s : string) : option (string * string) :=
  match runes s with
  | [] => None
  | (r, rest) :: _ =>
      if in_string ok r then Some (Utf8.AppendRune r, rest) else None
  end.

(** The verb [%d] into an [int]: [ss.scanInt] with 64 bits, and
    [ss.scanNumber] in it. *)
Definition scan_d (s : string) : outcome (Z * string) :=
  match SkipSpace s with
  | Ok s1 =>
      match notEOF s1 with
      | Ok _ =>
          let '(sgn, s2) :=
            match accept sign s1 with
            | Some (b, s2) => (b, s2)
            | None => (EmptyString, s1)
            end in
          match notEOF s2 with
          | Ok _ =>
              match accept decimalDigits s2 with
              | Some (d, s3) =>
                  let '(ds, rest) :=
                    read_while (in_string decimalDigits) s3 (runes s3) in
                  match Strconv.ParseInt (sgn +:+ d +:+ ds) with
                  | Ok v => Ok (v, rest)
                  | Err e => Err e
                  | Panic m => Panic m
                  end
              | None => Err (ErrScan "expected integer")
              end
          | Err e => Err e
          | Panic m => Panic m
          end
      | Err e => Err e
      | Panic m => Panic m
      end
  | Err e => Err e
  | Panic m => Panic m
  end.

(** The verb [%s]: [ss.convertString], which skips space, wants input
    and reads the token of runes that are not space. *)
Definition scan_s (s : string) : outcome (string * string) :=
  match SkipSpace s with
  | Ok s1 =>
      match notEOF s1 with
      | Ok _ =>
          match SkipSpace s1 with
          | Ok s2 => Ok (read_while notSpace s2 (runes s2))
          | Err e => Err e
          | Panic m => Panic m
          end
      | Err e => Err e
      | Panic m => Panic m
      end
  | Err e => Err e
  | Panic m => Panic m
  end.

(** The spaces that a space of the format takes from the input. *)
Fixpoint skip_blanks (s : string) (rs : list (Z * string)) : string :=
  match rs with
  | [] => s
  | (r, rest) :: rs' =>
      if isSpace r && negb (r =? newline) then skip_blanks rest rs' else s
  end.

(** [ss.advance] at a lone space of the format: the input is at its
    end, or its next rune is a space other than newline; the spaces
    that follow are read too. *)
Definition scan_format_space (s : string) : outcome string :=
  match runes s with
  | [] => Ok s
  | (r, _) :: _ =>
      if negb (isSpace r) then
        Err (ErrScan "expected space in input to match format")
      else if r =? newline then
        Err (ErrScan "newline in input does not match format")
      else Ok (skip_blanks s (runes s))
  end.

(** The step of [ss.doScanf] at a verb other than [%c]: space is
    skipped before the operand is scanned. *)
Definition at_verb {A} (scan : string → outcome A) (s : string) : outcome A :=
  match SkipSpace s with
  | Ok s1 => scan s1
  | Err e => Err e
  | Panic m => Panic m
  end.

(** [fmt.Sscanf(input, "%s %d", &str, &n)].  Input left over after the
    last verb is not an error. *)
Definition Sscanf_s_d (input : string) : outcome (string * Z) :=
  match at_verb scan_s input with
  | Ok (str, s1) =>
      match scan_format_space s1 with
      | Ok s2 =>
          match at_verb scan_d s2 with
          | Ok (n, _) => Ok (str, n)
          | Err e => Err e
          | Panic m => Panic m
          end
      | Err e => Err e
      | Panic m => Panic m
      end
  | Err e => Err e
  | Panic m => Panic m
  end.

(** [fmt.Sscanf(input, "%d", &n)]: space is skipped, then one integer is
    read; input left over is not an error. *)
Definition Sscanf_d (input : string) : outcome Z :=
  match at_verb scan_d input with
  | Ok (n, _) => Ok n
  | Err e => Err e
  | Panic m => Panic m
  end.

End Fmt.

(** ** strings and path/filepath (slash-separated paths) *)

Module Strings.

(** [strings.Split(s, sep)] for a one-byte separator. *)
Fixpoint Split (sep : ascii) (s : string) : list string :=
  match s with
  | EmptyString => [EmptyString]
  | String c s' =>
      if Ascii.eqb c sep then EmptyString :: Split sep s'
      else match Split sep s' with
           | h :: t => String c h :: t
           | [] => [String c EmptyString]
           end
  end.

(** [strings.Join(elems, sep)]. *)
Fixpoint Join (elems : list string) (sep : string) : string :=
  match elems with
  | [] => EmptyString
  | [e] => e
  | e :: rest => e +:+ sep +:+ Join rest sep
  end.

Fixpoint HasPrefix (s p : string) : bool :=
  match p, s with
  | EmptyString, _ => true
  | String a p', String b s' => Ascii.eqb a b && HasPrefix s' p'
  | _, _ => false
  end.

(** [strings.Contains]. *)
Fixpoint Contains (s sub : string) : bool :=
  HasPrefix s sub ||
  match s with
  | EmptyString => false
  | String _ s' => Contains s' sub
  end.

Definition lower_byte (c : ascii) : ascii :=
  let z := Bytes.to_Z c in
  if (65 <=? z) && (z <=? 90) then Bytes.of_Z (z + 32) else c.

(** [strings.ToLower] on ASCII letters; other bytes are kept. *)
Fixpoint ToLower (s : string) : string :=
  match s with
  | EmptyString => EmptyString
  | String c s' => String (lower_byte c) (ToLower s')
  end.

Definition is_space (c : ascii) : bool :=
  let z := Bytes.to_Z c in ((9 <=? z) && (z <=? 13)) || (z =? 32).

Fixpoint trim_left (s : string) : string :=
  match s with
  | EmptyString => EmptyString
  | String c s' => if is_space c then trim_left s' else s
  end.

Fixpoint trim_right (s : string) : string :=
  match s with
  | EmptyString => EmptyString
  | String c s' =>
      match trim_right s' with
      | EmptyString => if is_space c then EmptyString else String c EmptyString
      | t => String c t
      end
  end.

(** [strings.TrimSpace], on the ASCII white space. *)
Definition TrimSpace (s : string) : string := trim_right (trim_left s).

End Strings.

Module Filepath.

Definition Separator : ascii := "/"%char.

Definition rooted (p : string) : bool :=
  match p with String c _ => Ascii.eqb c Separator | _ => false end.

(** One element of the path against the elements kept so far (most
    recent first), as [Clean] processes it. *)
Definition clean_step (root : bool) (out : list string) (seg : string)
  : list string :=
  if String.eqb seg "" || String.eqb seg "." then out
  else if String.eqb seg ".." then
    match out with
    | top :: rest => if String.eqb top ".." then seg :: out else rest
    | [] => if root then [] else [seg]
    end
  else seg :: out.

(** [filepath.Clean]. *)
Definition Clean (p : string) : string :=
  let root := rooted p in
  let out := fold_left (clean_step root) (Strings.Split Separator p) [] in
  let body := Strings.Join (rev out) "/" in
  let r := if root then String Separator body else body in
  if String.eqb r "" then "." else r.

(** [filepath.Join]: the elements from the first non-empty one on are
    joined by the separator and the result is cleaned. *)
Fixpoint Join (elems : list string) : string :=
  match elems with
  | [] => EmptyString
  | e :: rest =>
      if String.eqb e "" then Join rest
      else Clean (Strings.Join elems "/")
  end.

(** Everything up to and including the last separator. *)
Fixpoint dir_prefix (p : string) : string :=
  match p with
  | EmptyString => EmptyString
  | String c p' =>
      if Strings.Contains p "/" then String c (dir_prefix p')
      else EmptyString
  end.

(** [filepath.Dir]. *)
Definition Dir (p : string) : string := Clean (dir_prefix p).

Definition IsAbs (p : string) : bool := rooted p.

End Filepath.

(** ** The process environment

    The file system is the finite map from path to contents of its regular
    files; directories are implicit, and failures of the operating system
    other than a missing file (permissions, full disk) are outside the
    model.  Every call that changes the file system is also recorded, in
    order, so that the intermediate states of a run can be replayed. *)

Inductive syscall : Type :=
| SysMkdirAll (path : string)
| SysOpenTrunc (path : string)      (* open with O_WRONLY|O_CREATE|O_TRUNC *)
| SysWrite (path data : string)     (* write to the file just opened *)
| SysRename (oldpath newpath : string).

Definition sys_apply (fs : gmap string string) (c : syscall)
  : gmap string string :=
  match c with
  | SysMkdirAll _ => fs
  | SysOpenTrunc p => <[p := EmptyString]> fs
  | SysWrite p d => <[p := d]> fs
  | SysRename a b =>
      match fs !! a with
      | Some d => <[b := d]> (delete a fs)
      | None => fs
      end
  end.

Definition replay (cs : list syscall) (fs : gmap string string)
  : gmap string string := fold_left sys_apply cs fs.

Record world : Type := World
  { files : gmap string string;
    cwd : string;
    syscalls : list syscall;
    stdout : list string }.

Definition sys (c : syscall) (w : world) : world :=
  {| files := sys_apply (files w) c; cwd := cwd w;
     syscalls := syscalls w ++ [c]; stdout := stdout w |}.

(** Computations over the world.  A Go function keeps the effects it had
    before it returned an error, so the world is threaded through all
    three outcomes. *)
Definition M (A : Type) : Type := world → outcome A * world.

Definition ret {A} (a : A) : M A := λ w, (Ok a, w).
Definition lift {A} (o : outcome A) : M A := λ w, (o, w).
Definition fail {A} (e : error) : M A := λ w, (Err e, w).
Definition bind {A B} (k : A → M B) (m : M A) : M B :=
  λ w, match m w with
       | (Ok a, w') => k a w'
       | (Err e, w') => (Err e, w')
       | (Panic p, w') => (Panic p, w')
       end.

(** [if err != nil { return fmt.Errorf("msg: %w", err) }] *)
Definition wrap {A} (msg : string) (m : M A) : M A :=
  λ w, match m w with
       | (Err e, w') => (Err (ErrWrap msg e), w')
       | r => r
       end.

Global Instance M_ret : MRet M := @ret.
Global Instance M_bind : MBind M := @bind.

Definition os_MkdirAll (path : string) : M unit :=
  λ w, (Ok tt, sys (SysMkdirAll path) w).

(** [os.WriteFile]: the file is opened with truncation and then written;
    the two steps are separate system calls. *)
Definition os_WriteFile (path data : string) : M unit :=
  λ w, (Ok tt, sys (SysWrite path data) (sys (SysOpenTrunc path) w)).

Definition os_ReadFile (path : string) : M string :=
  λ w, match files w !! path with
       | Some d => (Ok d, w)
       | None => (Err (ErrNotExist "open" path), w)
       end.

Definition os_Stat (path : string) : M unit :=
  λ w, match files w !! path with
       | Some _ => (Ok tt, w)
       | None => (Err (ErrNotExist "stat" path), w)
       end.

Definition fmt_Printf (text : string) : M unit :=
  λ w, (Ok tt, {| files := files w; cwd := cwd w;
                  syscalls := syscalls w; stdout := stdout w ++ [text] |}).

(** [filepath.Abs]. *)
Definition filepath_Abs (path : string) : M string :=
  λ w, (Ok (if Filepath.IsAbs path then Filepath.Clean path
            else Filepath.Join [cwd w; path]), w).

(** ** Data model of package repo *)

(** A reading of the clock, held as the two renderings the program takes
    of it: [Time.String()] and the RFC 3339 text that encoding/json writes. *)
Record Time : Type := { time_String : string; time_RFC3339 : string }.

Record Config : Type :=
  { Core_Layout : string; Core_AutoCRLF : string; Types : list string }.

Record Commit : Type :=
  { Commit_ID : string;
    Commit_Author : string;
    Commit_Timestamp : Time;
    Commit_Message : string;
    Commit_Branch : string;
    Commit_Parent : string;
    Commit_Tree : string }.

Record TreeEntry : Type :=
  { Entry_Name : string;
    Entry_Type : string;
    Entry_Object : string;
    Entry_Size : Z;
    Entry_AssetID : Z;
    Entry_AssetType : string }.

Record Tree : Type := { Entries : list TreeEntry }.

Record Repository : Type := { Path : string; Repo_Config : Config }.

(** encoding/json is taken as an interface: [json.Marshal] for the types
    the program stores, and the configuration codec. *)
Class JsonMarshal (A : Type) : Type := json_Marshal : A → result string.

Class JsonConfig : Type :=
  { json_MarshalIndent_Config : Config → result string;
    json_Unmarshal_Config : string → Config → result Config }.

(** ** Package repo *)

Module repo.
Section Repo.

Context `{JsonMarshal Tree} `{JsonMarshal Commit} `{JsonConfig}.

Definition NewRepository (path : string) : Repository :=
  {| Path := path;
     Repo_Config := {| Core_Layout := ""; Core_AutoCRLF := ""; Types := [] |} |}.

Definition object_path (r : Repository) (a b : string) : string :=
  Filepath.Join [Path r; ".rdb"; "objects"; a; b].

(** The header written in front of an object: [Sprintf("%s %d\000", ...)]. *)
Definition object_header (objType : string) (size : Z) : string :=
  objType +:+ " " +:+ Strconv.Itoa size +:+ String Bytes.NUL EmptyString.

Definition writeObject {A} `{JsonMarshal A}
    (r : Repository) (objType : string) (obj : A) : M string :=
  data ← wrap "failed to marshal object" (lift (of_result (json_Marshal obj)));
  let hash := SHA256.Sum256 data in
  let hashStr := Hex.EncodeToString hash in
  a ← lift (Bytes.slice_to hashStr 2);
  b ← lift (Bytes.slice_from hashStr 2);
  let objPath := object_path r a b in
  wrap "failed to create object directory"
       (os_MkdirAll (Filepath.Dir objPath));;
  let content := object_header objType (Bytes.len data) +:+ data in
  wrap "failed to write object" (os_WriteFile objPath content);;
  ret hashStr.

Definition WriteObject {A} `{JsonMarshal A} := @writeObject A _.

Definition generateID (now : Time) : outcome string :=
  Bytes.slice_to (Hex.EncodeToString (SHA256.Sum256 (time_String now))) 16.

Definition GenerateID := generateID.

Definition SaveConfig (r : Repository) : M unit :=
  let configPath := Filepath.Join [Path r; ".rdb"; "config.json"] in
  data ← wrap "failed to marshal config"
               (lift (of_result (json_MarshalIndent_Config (Repo_Config r))));
  wrap "failed to write config" (os_WriteFile configPath data).

Definition LoadConfig (r : Repository) : M Repository :=
  let configPath := Filepath.Join [Path r; ".rdb"; "config.json"] in
  data ← wrap "failed to read config" (os_ReadFile configPath);
  cfg ← wrap "failed to unmarshal config"
              (lift (of_result (json_Unmarshal_Config data (Repo_Config r))));
  ret {| Path := Path r; Repo_Config := cfg |}.

Definition createInitialCommit (r : Repository) (t_id t_stamp : Time)
  : M unit :=
  let tree := {| Entries := [] |} in
  treeHash ← wrap "failed to write tree object" (writeObject r "tree" tree);
  id ← lift (generateID t_id);
  let commit :=
    {| Commit_ID := id; Commit_Author := "RDB <rdb@localhost>";
       Commit_Timestamp := t_stamp; Commit_Message := "Initial commit";
       Commit_Branch := "main"; Commit_Parent := "";
       Commit_Tree := treeHash |} in
  commitHash ← wrap "failed to write commit object"
                     (writeObject r "commit" commit);
  let headPath := Filepath.Join [Path r; ".rdb"; "refs"; "heads"; "main"] in
  wrap "failed to write HEAD" (os_WriteFile headPath commitHash).

Definition predefined_asset_ids : list Z :=
  [ 1000624; 1030002; 1010042; 1000083; 1000087; 1000090; 1000635;
    1000636; 1070003; 1010013; 1010210; 1010211; 1000623; 1066603;
    1020001; 1020002; 1020005; 1020006; 1010207; 1000010; 1000007;
    1020003; 1010008 ].

(** [for _, x := range xs { if err := f(x); err != nil { return wrap } }] *)
Fixpoint for_each {A} (f : A → M unit) (xs : list A) : M unit :=
  match xs with
  | [] => ret tt
  | x :: rest => f x;; for_each f rest
  end.

Definition Init (r : Repository) (layout : string) (types : list string)
    (t_id t_stamp : Time) : M Repository :=
  let rdbPath := Filepath.Join [Path r; ".rdb"] in
  let dirs :=
    [ rdbPath;
      Filepath.Join [rdbPath; "refs"; "heads"];
      Filepath.Join [rdbPath; "refs"; "tags"];
      Filepath.Join [rdbPath; "objects"];
      Filepath.Join [rdbPath; "locks"];
      Filepath.Join [rdbPath; "hooks"];
      Filepath.Join [rdbPath; "remotes"];
      Filepath.Join [rdbPath; "packs"] ] in
  for_each (λ dir, wrap ("failed to create directory " +:+ dir)
                        (os_MkdirAll dir)) dirs;;
  let r := {| Path := Path r;
              Repo_Config := {| Core_Layout := layout;
                                Core_AutoCRLF := "true";
                                Types := types |} |} in
  wrap "failed to save config" (SaveConfig r);;
  let headPath := Filepath.Join [rdbPath; "HEAD"] in
  wrap "failed to create HEAD"
       (os_WriteFile headPath "ref: refs/heads/main");;
  let assetsPath := Filepath.Join [Path r; "assets"] in
  wrap "failed to create assets directory" (os_MkdirAll assetsPath);;
  for_each (λ assetID,
              wrap ("failed to create asset directory "
                    +:+ Strconv.Itoa assetID)
                   (os_MkdirAll
                      (Filepath.Join [assetsPath; Strconv.Itoa assetID])))
           predefined_asset_ids;;
  wrap "failed to create initial commit"
       (createInitialCommit r t_id t_stamp);;
  ret r.

Definition IsRepository (path : string) : M bool :=
  let rdbPath := Filepath.Join [path; ".rdb"] in
  let configPath := Filepath.Join [rdbPath; "config.json"] in
  λ w, (Ok (is_Ok (fst (os_Stat configPath w))), w).

Definition OpenRepository (path : string) : M Repository :=
  isrepo ← IsRepository path;
  if negb isrepo then fail (ErrNew ("not an RDB repository: " +:+ path))
  else wrap "failed to load repository config"
            (LoadConfig (NewRepository path)).

Definition GetCurrentBranch (r : Repository) : M string :=
  let headPath := Filepath.Join [Path r; ".rdb"; "HEAD"] in
  head ← wrap "failed to read HEAD" (os_ReadFile headPath);
  if (5 <? Bytes.len head) && String.eqb (Bytes.take 5 head) "ref: " then
    branch ← lift (Bytes.slice_from head 16);
    ret branch
  else fail (ErrNew "HEAD is not pointing to a branch").

Definition GetCurrentCommit (r : Repository) : M string :=
  branch ← GetCurrentBranch r;
  let refPath := Filepath.Join [Path r; ".rdb"; "refs"; "heads"; branch] in
  wrap "failed to read branch ref" (os_ReadFile refPath).

(** Index of the first zero byte, -1 when there is none. *)
Fixpoint null_index_from (i : Z) (data : string) : Z :=
  match data with
  | EmptyString => -1
  | String b rest =>
      if Bytes.to_Z b =? 0 then i else null_index_from (i + 1) rest
  end.

Definition readObject (r : Repository) (hash : string)
  : M (string * string) :=
  a ← lift (Bytes.slice_to hash 2);
  b ← lift (Bytes.slice_from hash 2);
  let objPath := object_path r a b in
  data ← wrap "failed to open object" (os_ReadFile objPath);
  let nullIndex := null_index_from 0 data in
  if nullIndex =? -1 then
    fail (ErrNew "invalid object format: no null separator found")
  else
    headerStr ← lift (Bytes.slice_to data (Z.to_nat nullIndex));
    '(objType, size) ← wrap "failed to parse object header"
                              (lift (Fmt.Sscanf_s_d headerStr));
    objData ← lift (Bytes.slice_from data (Z.to_nat (nullIndex + 1)));
    if negb (Bytes.len objData =? size) then
      fail (ErrNew ("object size mismatch: expected " +:+ Strconv.Itoa size
                    +:+ ", got " +:+ Strconv.Itoa (Bytes.len objData)))
    else ret (objType, objData).

Definition ReadObject := readObject.

End Repo.
End repo.

(** ** Package cmd: the commit and add commands *)

Module cmd.

(** The flag variables of the commit command. *)
Record commitFlags : Type :=
  { commitMessage : string; commitAuthor : string; amend : bool }.

(** The flag variables of the add command. *)
Record addFlags : Type :=
  { addType : string; addID : Z; addName : string }.

Definition newline : string := String Bytes.LF EmptyString.

(** [var assetTypeMap = map[int]string{...}] *)
Definition assetTypeTable : list (Z * string) :=
  [ (1000624, "flash_image");
    (1030002, "string");
    (1010042, "loading_screen");
    (1000083, "xml_treasure");
    (1000087, "xml_zone_transition");
    (1000090, "xml_resurrection");
    (1000635, "usm_video");
    (1000636, "image");
    (1070003, "playfield");
    (1010013, "map");
    (1010210, "image");
    (1010211, "image");
    (1000623, "text");
    (1066603, "texture");
    (1020001, "unknown");
    (1020002, "sound_effect");
    (1020005, "music");
    (1020006, "sound_tone");
    (1010207, "particle_effect");
    (1000010, "file_index");
    (1000007, "physx_xml");
    (1020003, "dialog_audio");
    (1010008, "misc_image") ].

Definition assetTypeMap : gmap Z string := list_to_map assetTypeTable.

Definition getAssetTypeFromID (id : Z) : string :=
  match assetTypeMap !! id with
  | Some assetType => assetType
  | None => "unknown"
  end.

(** The guard against running inside the Windows system directory. *)
Definition in_system_directory (absPath : string) : bool :=
  Strings.Contains (Strings.ToLower absPath) "c:\windows\system32".

Section Commit.

Context `{JsonMarshal Tree} `{JsonMarshal Commit} `{JsonConfig}.

(** The commit record as [runCommit] fills it in before the tree hash
    is known. *)
Definition new_commit (flags : commitFlags) (id branch parentCommit : string)
    (now : Time) : Commit :=
  let author :=
    if String.eqb (commitAuthor flags) "" then "RDB <rdb@localhost>"
    else commitAuthor flags in
  {| Commit_ID := id;
     Commit_Author := author;
     Commit_Timestamp := now;
     Commit_Message := commitMessage flags;
     Commit_Branch := branch;
     Commit_Parent :=
       if amend flags && negb (String.eqb parentCommit "")
       then parentCommit else "";
     Commit_Tree := "" |}.

Definition with_tree (c : Commit) (treeHash : string) : Commit :=
  {| Commit_ID := Commit_ID c;
     Commit_Author := Commit_Author c;
     Commit_Timestamp := Commit_Timestamp c;
     Commit_Message := Commit_Message c;
     Commit_Branch := Commit_Branch c;
     Commit_Parent := Commit_Parent c;
     Commit_Tree := treeHash |}.

Definition ref_path (r : Repository) (branch : string) : string :=
  Filepath.Join [Path r; ".rdb"; "refs"; "heads"; branch].

(** [runCommit]; [t_id] and [t_stamp] are the two readings of the clock
    it takes, for the commit id and for the timestamp. *)
Definition runCommit (flags : commitFlags) (t_id t_stamp : Time) : M unit :=
  absPath ← wrap "failed to resolve path" (filepath_Abs ".");
  if in_system_directory absPath then
    fail (ErrNew ("cannot operate on RDB repository in system directory: "
                  +:+ absPath))
  else
  isrepo ← repo.IsRepository absPath;
  if negb isrepo then fail (ErrNew ("not an RDB repository: " +:+ absPath))
  else
  r ← wrap "failed to open repository" (repo.OpenRepository absPath);
  branch ← wrap "failed to get current branch" (repo.GetCurrentBranch r);
  parentCommit ←
    (if amend flags
     then wrap "failed to get current commit" (repo.GetCurrentCommit r)
     else ret "");
  id ← lift (repo.GenerateID t_id);
  let commit := new_commit flags id branch parentCommit t_stamp in
  let tree := {| Entries := [] |} in
  treeHash ← wrap "failed to write tree object"
                  (repo.WriteObject r "tree" tree);
  let commit := with_tree commit treeHash in
  commitHash ← wrap "failed to write commit object"
                    (repo.WriteObject r "commit" commit);
  let refPath := ref_path r branch in
  wrap "failed to update branch reference"
       (os_WriteFile refPath commitHash);;
  short ← lift (Bytes.slice_to commitHash 8);
  fmt_Printf ((if amend flags then "Amended commit " else "Created commit ")
              +:+ short +:+ newline).

End Commit.

Section Add.

Context `{JsonConfig}.

(** [filepath.Rel] and [filepath.Glob] of the platform, and [addPath],
    which the staging filter hands the accepted paths to. *)
Variable filepath_Rel : string → string → outcome string.
Variable filepath_Glob : string → M (list string).
Variable addPath : Repository → string → addFlags → M unit.

Definition isAssetPath (repoPath filePath : string) : bool :=
  match filepath_Rel repoPath filePath with
  | Ok relPath =>
      let parts := Strings.Split Filepath.Separator relPath in
      if (length parts <? 2)%nat then false
      else if negb (String.eqb (nth 0 parts "") "assets") then false
      else match Strconv.Atoi (nth 1 parts "") with
           | Ok _ => true
           | _ => false
           end
  | _ => false
  end.

(** The inner loop of [runAdd] over the matches of one pattern. *)
Fixpoint filter_matches (r : Repository) (matches allPaths : list string)
  : M (list string) :=
  match matches with
  | [] => ret allPaths
  | match_ :: rest =>
      absMatch ← filepath_Abs match_;
      if isAssetPath (Path r) absMatch then
        filter_matches r rest (allPaths ++ [match_])
      else
        fmt_Printf ("Skipping non-asset path: " +:+ match_ +:+ newline);;
        filter_matches r rest allPaths
  end.

(** The outer loop of [runAdd] over the command line arguments. *)
Fixpoint expand_patterns (r : Repository) (args allPaths : list string)
  : M (list string) :=
  match args with
  | [] => ret allPaths
  | pattern :: rest =>
      matches ← wrap ("invalid glob pattern " +:+ pattern)
                     (filepath_Glob pattern);
      match matches with
      | [] =>
          fmt_Printf ("Warning: no files match pattern " +:+ pattern
                      +:+ newline);;
          expand_patterns r rest allPaths
      | _ =>
          allPaths ← filter_matches r matches allPaths;
          expand_patterns r rest allPaths
      end
  end.

Definition runAdd (flags : addFlags) (args : list string) : M unit :=
  match args with
  | [] => fail (ErrNew "no paths specified")
  | _ =>
      absPath ← wrap "failed to resolve path" (filepath_Abs ".");
      if in_system_directory absPath then
        fail (ErrNew
                ("cannot operate on RDB repository in system directory: "
                 +:+ absPath))
      else
      isrepo ← repo.IsRepository absPath;
      if negb isrepo then
        fail (ErrNew ("not an RDB repository: " +:+ absPath))
      else
      r ← wrap "failed to open repository" (repo.OpenRepository absPath);
      allPaths ← expand_patterns r args [];
      match allPaths with
      | [] => fmt_Printf ("No asset files found to add" +:+ newline)
      | _ =>
          repo.for_each
            (λ path, wrap ("failed to add " +:+ path)
                          (addPath r path flags))
            allPaths
      end
  end.

End Add.

(** [parseAssetID] of the list command. *)
Definition parseAssetID (idStr : string) : Z :=
  match Fmt.Sscanf_d idStr with
  | Ok id => id
  | _ => 0
  end.

(** The flag variables of the init command. *)
Record initFlags : Type := { layout : string; types : string }.

Section Status.

Context `{JsonConfig}.

(** [runStatus]; [porcelain] is its flag variable. *)
Definition runStatus (porcelain : bool) : M unit :=
  absPath ← wrap "failed to resolve path" (filepath_Abs ".");
  if in_system_directory absPath then
    fail (ErrNew ("cannot operate on RDB repository in system directory: "
                  +:+ absPath))
  else
  isrepo ← repo.IsRepository absPath;
  if negb isrepo then fail (ErrNew ("not an RDB repository: " +:+ absPath))
  else
  r ← wrap "failed to open repository" (repo.OpenRepository absPath);
  branch ← wrap "failed to get current branch" (repo.GetCurrentBranch r);
  commit ← wrap "failed to get current commit" (repo.GetCurrentCommit r);
  if porcelain then
    fmt_Printf ("branch " +:+ branch +:+ newline);;
    fmt_Printf ("commit " +:+ commit +:+ newline)
  else
    fmt_Printf ("On branch " +:+ branch +:+ newline);;
    fmt_Printf ("commit " +:+ commit +:+ newline +:+ newline);;
    fmt_Printf ("No changes to commit, working tree clean" +:+ newline).

End Status.

Section InitCommand.

Context `{JsonMarshal Tree} `{JsonMarshal Commit} `{JsonConfig}.

(** [runInit]; [t_id] and [t_stamp] are the readings of the clock that
    the initial commit takes. *)
Definition runInit (flags : initFlags) (args : list string)
    (t_id t_stamp : Time) : M unit :=
  let repoPath := match args with a :: _ => a | [] => "." end in
  absPath ← wrap "failed to resolve path" (filepath_Abs repoPath);
  if in_system_directory absPath then
    fail (ErrNew ("cannot create RDB repository in system directory: "
                  +:+ absPath))
  else
  isrepo ← repo.IsRepository absPath;
  if (isrepo : bool) then
    fail (ErrNew ("RDB repository already exists at " +:+ absPath))
  else
  wrap "failed to create repository directory" (os_MkdirAll absPath);;
  let assetTypes := map Strings.TrimSpace (Strings.Split "," (types flags)) in
  if negb (String.eqb (layout flags) "tree")
     && negb (String.eqb (layout flags) "flat") then
    fail (ErrNew ("invalid layout: " +:+ layout flags
                  +:+ " (must be 'tree' or 'flat')"))
  else
  let r := repo.NewRepository absPath in
  wrap "failed to initialize repository"
       (repo.Init r (layout flags) assetTypes t_id t_stamp);;
  fmt_Printf ("Initialized RDB repository at " +:+ absPath +:+ newline);;
  fmt_Printf ("Layout: " +:+ layout flags +:+ newline);;
  fmt_Printf ("Asset types: " +:+ Strings.Join assetTypes ", " +:+ newline).

End InitCommand.

(** [err == nil] after a call that only its error is taken of. *)
Definition succeeds {A} (m : M A) : M bool :=
  λ w, (Ok (is_Ok (fst (m w))), snd (m w)).

(** The iterations a loop that climbs from [p] by [filepath.Dir] is
    given; the loops below are shown to end within them. *)
Definition climb_bound (p : string) : nat := S (S (String.length p)).

Section AddPath.

(** [filepath.Rel] of the platform, and [os.Stat] of a path that may
    name a directory: the file map of the world holds regular files
    only, so this [os.Stat] is taken as it comes. *)
Variable filepath_Rel : string → string → outcome string.
Variable os_Stat_any : string → M unit.

(** The loop of [findAssetDirectory]; [None] when the iterations given
    are used up. *)
Fixpoint findAssetDirectory_loop (fuel : nat) (repoPath dir : string)
  : M (option string) :=
  match fuel with
  | O => ret None
  | S fuel' =>
      if String.eqb dir repoPath then ret (Some "")
      else
        let metaPath := Filepath.Join [dir; "meta.json"] in
        found ← succeeds (os_Stat_any metaPath);
        if (found : bool) then ret (Some dir)
        else
          let follows :=
            match filepath_Rel repoPath dir with
            | Ok relPath =>
                let parts := Strings.Split Filepath.Separator relPath in
                (2 <=? length parts)%nat
                && String.eqb (nth 0 parts "") "assets"
                && is_Ok (Strconv.Atoi (nth 1 parts ""))
            | _ => false
            end in
          if follows then ret (Some dir)
          else
            let parent := Filepath.Dir dir in
            if String.eqb parent dir then ret (Some "")
            else findAssetDirectory_loop fuel' repoPath parent
  end.

Definition findAssetDirectory (repoPath filePath : string) : M string :=
  found ← findAssetDirectory_loop (climb_bound filePath) repoPath
                                  (Filepath.Dir filePath);
  match found with
  | Some dir => ret dir
  | None => lift (Panic "findAssetDirectory: loop bound")
  end.

(** The loop of [createOrUpdateMetadata], which keeps [assetDir] unless
    a directory above [path] holds a [meta.json]. *)
Fixpoint metadata_loop (fuel : nat) (repoPath assetDir dir : string)
  : M (option string) :=
  match fuel with
  | O => ret None
  | S fuel' =>
      if String.eqb dir repoPath then ret (Some assetDir)
      else
        let metaPath := Filepath.Join [dir; "meta.json"] in
        found ← succeeds (os_Stat_any metaPath);
        if (found : bool) then ret (Some dir)
        else
          let parent := Filepath.Dir dir in
          if String.eqb parent dir then ret (Some assetDir)
          else metadata_loop fuel' repoPath assetDir parent
  end.

Definition createOrUpdateMetadata (r : Repository)
    (path assetType : string) (assetID : Z) (assetName : string) : M unit :=
  wrap "failed to get relative path" (lift (filepath_Rel (Path r) path));;
  wrap "failed to stat path" (os_Stat_any path);;
  found ← metadata_loop (climb_bound path) (Path r) path (Filepath.Dir path);
  match found with
  | None => lift (Panic "createOrUpdateMetadata: loop bound")
  | Some assetDir =>
      assetDir ←
        (if String.eqb assetDir "" then
           let assetDir :=
             Filepath.Join [Path r; "assets"; Strconv.Itoa assetID] in
           wrap "failed to create asset directory" (os_MkdirAll assetDir);;
           ret assetDir
         else ret assetDir);
      let metaPath := Filepath.Join [assetDir; "meta.json"] in
      fmt_Printf ("Would create/update metadata at " +:+ metaPath
                  +:+ newline)
  end.

(** [if len(parts) >= 2 && parts[0] == "assets" { if assetID == 0 {
    if id, err := strconv.Atoi(parts[1]); err == nil { assetID = id } } }] *)
Definition id_from_path (relPath : string) (assetID : Z) : Z :=
  let parts := Strings.Split Filepath.Separator relPath in
  if (2 <=? length parts)%nat && String.eqb (nth 0 parts "") "assets" then
    if assetID =? 0 then
      match Strconv.Atoi (nth 1 parts "") with
      | Ok id => id
      | _ => assetID
      end
    else assetID
  else assetID.

Definition addPath (r : Repository) (path : string) (flags : addFlags)
  : M unit :=
  let assetType := addType flags in
  let assetID := addID flags in
  absPath ← wrap "failed to resolve path" (filepath_Abs path);
  wrap "path does not exist" (os_Stat_any absPath);;
  assetID ←
    (if String.eqb assetType "" || (assetID =? 0) then
       relPath ← wrap "failed to get relative path"
                      (lift (filepath_Rel (Path r) absPath));
       let assetID := id_from_path relPath assetID in
       if String.eqb assetType "" || (assetID =? 0) then
         assetDir ← findAssetDirectory (Path r) absPath;
         if negb (String.eqb assetDir "") then
           let relAssetPath :=
             match filepath_Rel (Path r) assetDir with
             | Ok p => p
             | _ => ""
             end in
           ret (id_from_path relAssetPath assetID)
         else ret assetID
       else ret assetID
     else ret assetID);
  let assetType :=
    if String.eqb assetType "" && negb (assetID =? 0)
    then getAssetTypeFromID assetID else assetType in
  if String.eqb assetType "" then
    fail (ErrNew "asset type not specified and could not be determined from path")
  else
    wrap "failed to create/update metadata"
         (createOrUpdateMetadata r absPath assetType assetID (addName flags));;
    fmt_Printf ("Added " +:+ path +:+ " (type: " +:+ assetType
                +:+ ", id: " +:+ Strconv.Itoa assetID +:+ ")" +:+ newline).

End AddPath.

(** [assetTypes] of [runList]: the names shown for the asset ids. *)
Definition assetNameTable : list (Z * string) :=
  [ (1000624, "Flash Images");
    (1030002, "Strings");
    (1010042, "Loading Screens");
    (1000083, "XML Treasure Data");
    (1000087, "XML Zone Transition Points");
    (1000090, "XML Resurrection Points");
    (1000635, "USM Video Files");
    (1000636, "Images");
    (1070003, "Playfields");
    (1010013, "Maps");
    (1010210, "Image (no name)");
    (1010211, "Image (no name)");
    (1000623, "Misc Text Files");
    (1066603, "Unknown Textures");
    (1020001, "Unknown");
    (1020002, "Sound Effects");
    (1020005, "Music");
    (1020006, "Sounds - Tones");
    (1010207, "Particle Effects");
    (1000010, "File Names Index / FME Files");
    (1000007, "PhysX XML");
    (1020003, "Dialog Audio");
    (1010008, "Miscellaneous Images") ].

Definition assetNames : gmap Z string := list_to_map assetNameTable.

Fixpoint zeros (n : nat) : string :=
  match n with
  | O => EmptyString
  | S n' => String "0" (zeros n')
  end.

(** The verb [%07d]: the sign, then zeros up to seven characters in
    all, then the digits. *)
Definition Sprintf_07d (n : Z) : string :=
  let sign := if n <? 0 then "-" else "" in
  let digits := Strconv.Itoa (Z.abs n) in
  sign +:+ zeros (7 - String.length sign - String.length digits)
       +:+ digits.

(** The marks of the listing, in UTF-8. *)
Definition check_mark : string :=
  String (Bytes.of_Z 226) (String (Bytes.of_Z 156)
    (String (Bytes.of_Z 147) EmptyString)).
Definition cross_mark : string :=
  String (Bytes.of_Z 226) (String (Bytes.of_Z 156)
    (String (Bytes.of_Z 151) EmptyString)).

Section List.

Context `{JsonConfig}.

(** [os.Stat] of a path that may name a directory, and [os.Chdir]. *)
Variable os_Stat_any : string → M unit.
Variable os_Chdir : string → M unit.

(** The loop over the map [assetTypes]; [order] is the order in which
    the iteration yields its entries, which Go leaves open. *)
Fixpoint list_folders (assetsPath : string) (order : list (Z * string))
  : M unit :=
  match order with
  | [] => ret tt
  | (id, name) :: rest =>
      let folderPath := Filepath.Join [assetsPath; Strconv.Itoa id] in
      found ← succeeds (os_Stat_any folderPath);
      let mark := if (found : bool) then check_mark else cross_mark in
      fmt_Printf (mark +:+ " " +:+ Sprintf_07d id +:+ " - " +:+ name
                  +:+ newline);;
      list_folders assetsPath rest
  end.

Definition runList (listCd : bool) (args : list string)
    (order : list (Z * string)) : M unit :=
  absPath ← wrap "failed to resolve path" (filepath_Abs ".");
  isrepo ← repo.IsRepository absPath;
  if negb isrepo then fail (ErrNew ("not an RDB repository: " +:+ absPath))
  else
  r ← wrap "failed to open repository" (repo.OpenRepository absPath);
  match listCd, args with
  | true, targetID :: _ =>
      match assetNames !! parseAssetID targetID with
      | Some assetName =>
          let assetPath := Filepath.Join [Path r; "assets"; targetID] in
          found ← succeeds (os_Stat_any assetPath);
          if (found : bool) then
            fmt_Printf ("Changing directory to: " +:+ assetPath +:+ " ("
                        +:+ assetName +:+ ")" +:+ newline);;
            wrap "failed to change directory" (os_Chdir assetPath)
          else fail (ErrNew ("asset folder not found: " +:+ targetID))
      | None => fail (ErrNew ("unknown asset ID: " +:+ targetID))
      end
  | _, _ =>
      fmt_Printf ("Asset Types and Folders:" +:+ newline);;
      fmt_Printf ("========================" +:+ newline +:+ newline);;
      let assetsPath := Filepath.Join [Path r; "assets"] in
      list_folders assetsPath order;;
      fmt_Printf (newline +:+ "Usage:" +:+ newline);;
      fmt_Printf ("  rdb list --cd <id>    # Change to specific asset folder"
                  +:+ newline);;
      fmt_Printf ("  rdb list --cd 1030002 # Change to Strings folder"
                  +:+ newline)
  end.

End List.

End cmd.

(** ** Vocabulary of the specification *)

(** The content hash as the code computes it: lower-case hexadecimal
    SHA-256. *)
Definition hash_of (data : string) : string :=
  Hex.EncodeToString (SHA256.Sum256 data).

(** The file an object of hash [h] is stored in: two characters of
    directory shard, the rest as file name. *)
Definition object_file (r : Repository) (h : string) : string :=
  repo.object_path r (Bytes.take 2 h) (Bytes.drop 2 h).

(** The world after [os.WriteFile(path, data)]. *)
Definition written (path data : string) (w : world) : world :=
  sys (SysWrite path data) (sys (SysOpenTrunc path) w).

(** The world after text was printed on standard output. *)
Definition printed (text : string) (w : world) : world :=
  snd (fmt_Printf text w).

(** The canonical encoding of the specification: the kind, a space, the
    byte length in decimal, a zero byte, the payload. *)
Definition canonical_encoding (kind payload : string) : string :=
  repo.object_header kind (Bytes.len payload) +:+ payload.

(** The world after an object of kind [K] with payload [data] was stored. *)
Definition stored (r : Repository) (K data : string) (w : world) : world :=
  written (object_file r (hash_of data)) (canonical_encoding K data)
          (sys (SysMkdirAll (Filepath.Dir (object_file r (hash_of data)))) w).

(** The kind tags of the object store. *)
Definition object_kinds : list string := ["blob"; "tree"; "commit"; "asset"].

(** A kind tag is a non-empty word of visible ASCII characters. *)
Definition graphic (c : ascii) : bool :=
  (33 <=? Bytes.to_Z c) && (Bytes.to_Z c <=? 126).
Definition kind_token (k : string) : bool :=
  negb (String.eqb k "") && Bytes.forallb graphic k.

(** The first rune of a text, if it has one, is not in the class [f]. *)
Definition stops (f : Z → bool) (u : string) : Prop :=
  match Fmt.runes u with
  | [] => True
  | (r, _) :: _ => f r = false
  end.

(** A raw commit hash, as a detached HEAD would hold it. *)
Definition is_hex_digit (c : ascii) : bool :=
  let z := Bytes.to_Z c in
  ((48 <=? z) && (z <=? 57)) || ((97 <=? z) && (z <=? 102)).
Definition is_commit_hash (h : string) : bool :=
  (String.length h =? 64)%nat && Bytes.forallb is_hex_digit h.

(** The repository the commands operate on: the working directory. *)
Definition repo_root (w : world) : string := Filepath.Join [cwd w; "."].

(** A path segment: a run of bytes without the separator. *)
Definition segment (s : string) : bool :=
  Bytes.forallb (λ c, negb (Ascii.eqb c Filepath.Separator)) s.

(** The value of a run of decimal digits read after [acc]. *)
Fixpoint decimal_value (acc : Z) (ds : string) : Z :=
  match ds with
  | EmptyString => acc
  | String c rest => decimal_value (acc * 10 + (Bytes.to_Z c - 48)) rest
  end.

(** A numeric asset id as text: an optional sign, then one or more
    decimal digits, of a value that fits Go's [int]. *)
Definition numeric_id (s : string) : Prop :=
  ∃ sign ds,
    s = sign +:+ ds
    ∧ (sign = "" ∨ sign = "+" ∨ sign = "-")
    ∧ ds ≠ ""
    ∧ Bytes.forallb Strconv.is_digit ds = true
    ∧ decimal_value 0 ds
      ≤ (if String.eqb sign "-" then - Strconv.minInt64
         else Strconv.maxInt64).

(** A repository-relative path lies under the assets root and its second
    segment is a numeric asset id: it reads [assets/<id>] or
    [assets/<id>/...]. *)
Definition asset_relative (rel : string) : Prop :=
  ∃ id tail,
    rel = "assets/" +:+ id +:+ tail
    ∧ segment id = true
    ∧ (tail = "" ∨ ∃ t, tail = String Filepath.Separator t)
    ∧ numeric_id id.

(** What [filepath.Abs] returns in world [w]. *)
Definition abs_path (w : world) (path : string) : string :=
  if Filepath.IsAbs path then Filepath.Clean path
  else Filepath.Join [cwd w; path].

(** The line [runAdd] prints for a path it skips. *)
Definition skip_line (path : string) : string :=
  "Skipping non-asset path: " +:+ path +:+ cmd.newline.

(** The world with [lines] added to standard output. *)
Definition with_output (lines : list string) (w : world) : world :=
  {| files := files w; cwd := cwd w; syscalls := syscalls w;
     stdout := stdout w ++ lines |}.

(** The write discipline the specification asks for: the content reaches
    [path] by a rename from another path, and [path] itself is never
    opened for writing. *)
Definition written_by_rename (path : string) (trace : list syscall) : Prop :=
  (∃ tmp, tmp ≠ path ∧ SysRename tmp path ∈ trace)
  ∧ SysOpenTrunc path ∉ trace.

(** Some state the file system passes through while [trace] runs from
    [fs] shows [path] with contents that are neither what it held before
    nor [content]. *)
Definition partial_visible (path content : string) (trace : list syscall)
    (fs : gmap string string) : Prop :=
  ∃ n partial,
    replay (firstn n trace) fs !! path = Some partial
    ∧ partial ≠ content ∧ fs !! path ≠ Some partial.

Definition is_rename (c : syscall) : bool :=
  match c with SysRename _ _ => true | _ => false end.

(** Damage to a stored file from outside the program: the lowest bit of
    the byte at offset [i] is inverted. *)
Fixpoint flip_byte (i : nat) (s : string) : string :=
  match s, i with
  | EmptyString, _ => EmptyString
  | String c s', O => String (Bytes.of_Z (Z.lxor (Bytes.to_Z c) 1)) s'
  | String c s', S i' => String c (flip_byte i' s')
  end.

Definition corrupt_file (path : string) (i : nat) (w : world) : world :=
  {| files := match files w !! path with
              | Some d => <[path := flip_byte i d]> (files w)
              | None => files w
              end;
     cwd := cwd w; syscalls := syscalls w; stdout := stdout w |}.

(** [m] performs no write: neither the files nor the record of system
    calls change, whatever it returns. *)
Definition disk_untouched {A} (m : M A) : Prop :=
  ∀ w, files (snd (m w)) = files w ∧ syscalls (snd (m w)) = syscalls w.

(** [m] only adds system calls to the record, and none of them is a
    rename. *)
Definition no_rename {A} (m : M A) : Prop :=
  ∀ w, ∃ cs, syscalls (snd (m w)) = syscalls w ++ cs
             ∧ Forall (λ c, is_rename c = false) cs.

(** A name: a path element that [Clean] keeps as it stands. *)
Definition name (s : string) : bool :=
  segment s && negb (String.eqb s "") && negb (String.eqb s ".")
  && negb (String.eqb s "..").

(** A branch name whose elements are names, such as [main] or
    [feature/x]. *)
Definition plain_branch (branch : string) : bool :=
  forallb name (Strings.Split Filepath.Separator branch).

(** The elements [Clean] has kept when it reaches the end of [p], most
    recent first, and the path it makes of them. *)
Definition clean_elems (p : string) : list string :=
  fold_left (Filepath.clean_step (Filepath.rooted p))
            (Strings.Split Filepath.Separator p) [].
Definition render (root : bool) (out : list string) : string :=
  let body := Strings.Join (rev out) "/" in
  let r := if root then String Filepath.Separator body else body in
  if String.eqb r "" then "." else r.

(** The kept elements are names, below any number of [..] that lead out
    of a relative path. *)
Definition canonical (root : bool) (out : list string) : Prop :=
  ∃ names k,
    out = names ++ repeat ".." k
    ∧ Forall (λ s, name s = true) names
    ∧ (root = true → k = 0%nat).

(** The elements of a list of paths. *)
Definition elements (paths : list string) : list string :=
  concat (map (Strings.Split Filepath.Separator) paths).

(** The world after the directories [dirs] were made, in order. *)
Definition made (dirs : list string) (w : world) : world :=
  fold_left (λ w d, sys (SysMkdirAll d) w) dirs w.

(** The directories [Init] makes: those under [.rdb], then [assets] and
    one directory per predefined asset id. *)
Definition rdb_dirs (p : string) : list string :=
  let rdbPath := Filepath.Join [p; ".rdb"] in
  [ rdbPath;
    Filepath.Join [rdbPath; "refs"; "heads"];
    Filepath.Join [rdbPath; "refs"; "tags"];
    Filepath.Join [rdbPath; "objects"];
    Filepath.Join [rdbPath; "locks"];
    Filepath.Join [rdbPath; "hooks"];
    Filepath.Join [rdbPath; "remotes"];
    Filepath.Join [rdbPath; "packs"] ].
Definition asset_dir (p : string) (id : Z) : string :=
  Filepath.Join [Filepath.Join [p; "assets"]; Strconv.Itoa id].
Definition asset_dirs (p : string) : list string :=
  Filepath.Join [p; "assets"] :: map (asset_dir p) repo.predefined_asset_ids.

(** The files of a repository at [p]. *)
Definition config_file (p : string) : string :=
  Filepath.Join [p; ".rdb"; "config.json"].
Definition head_of (p : string) : string :=
  Filepath.Join [p; ".rdb"; "HEAD"].

(** The configuration [Init] saves and the commit it records. *)
Definition initial_config (layout : string) (types : list string) : Config :=
  {| Core_Layout := layout; Core_AutoCRLF := "true"; Types := types |}.
Definition initial_commit (t_id t_stamp : Time) (treeHash : string)
  : Commit :=
  {| Commit_ID := Bytes.take 16 (hash_of (time_String t_id));
     Commit_Author := "RDB <rdb@localhost>";
     Commit_Timestamp := t_stamp; Commit_Message := "Initial commit";
     Commit_Branch := "main"; Commit_Parent := "";
     Commit_Tree := treeHash |}.

(** The world after [Init] ran at [p], in terms of the three texts it
    wrote: the configuration, the empty tree and the initial commit. *)
Definition initialised (p cfgJ treeJ commitJ : string) (w : world)
  : world :=
  let r := repo.NewRepository p in
  written (cmd.ref_path r "main") (hash_of commitJ)
    (stored r "commit" commitJ
       (stored r "tree" treeJ
          (made (asset_dirs p)
             (written (Filepath.Join [Filepath.Join [p; ".rdb"]; "HEAD"])
                      "ref: refs/heads/main"
                (written (config_file p) cfgJ
                   (made (rdb_dirs p) w)))))).

(** What the add command makes of its arguments when [glob] gives the
    matches of a pattern: the paths it stages, in order, and the lines
    it prints on the way. *)
Definition staged (accepted : string → bool) (glob : string → list string)
    (args : list string) : list string :=
  concat (map (λ pattern, List.filter accepted (glob pattern)) args).
Definition add_lines (accepted : string → bool)
    (glob : string → list string) (args : list string) : list string :=
  concat
    (map (λ pattern,
            match glob pattern with
            | [] => [ "Warning: no files match pattern " +:+ pattern
                      +:+ cmd.newline ]
            | matches =>
                map skip_line
                    (List.filter (λ m, negb (accepted m)) matches)
            end) args).

(** The lines [status] prints for a branch and the contents of its
    file. *)
Definition status_lines (porcelain : bool) (branch tip : string)
  : list string :=
  if porcelain
  then [ "branch " +:+ branch +:+ cmd.newline;
         "commit " +:+ tip +:+ cmd.newline ]
  else [ "On branch " +:+ branch +:+ cmd.newline;
         "commit " +:+ tip +:+ cmd.newline +:+ cmd.newline;
         "No changes to commit, working tree clean" +:+ cmd.newline ].

(** [m] at most prints: in a world that has a working directory it
    leaves everything but the standard output as it was. *)
Definition only_prints {A} (m : M A) : Prop :=
  ∀ w, cwd w ≠ "" → ∃ lines, snd (m w) = with_output lines w.

(** A line of the listing, and the lines around the listing. *)
Definition folder_line (present : bool) (id : Z) (name : string) : string :=
  (if present then cmd.check_mark else cmd.cross_mark) +:+ " "
  +:+ cmd.Sprintf_07d id +:+ " - " +:+ name +:+ cmd.newline.
Definition listing_header : list string :=
  [ "Asset Types and Folders:" +:+ cmd.newline;
    "========================" +:+ cmd.newline +:+ cmd.newline ].
Definition listing_usage : list string :=
  [ cmd.newline +:+ "Usage:" +:+ cmd.newline;
    "  rdb list --cd <id>    # Change to specific asset folder"
    +:+ cmd.newline;
    "  rdb list --cd 1030002 # Change to Strings folder" +:+ cmd.newline ].

(** ** A reference encoder and an example repository

    The theorems below hold for every implementation of the JSON
    interface.  Runs on concrete inputs use this encoder, which writes
    what encoding/json writes for the structs of package repo; string
    bytes from 128 up are copied, as the library does for well-formed
    UTF-8 outside U+2028 and U+2029. *)

Module PlainJSON.

Definition q : string := String Bytes.quote EmptyString.
Definition bs : string := String Bytes.backslash EmptyString.

Definition escape_byte (c : ascii) : string :=
  let z := Bytes.to_Z c in
  if z =? 34 then bs +:+ q
  else if z =? 92 then bs +:+ bs
  else if z =? 10 then bs +:+ "n"
  else if z =? 13 then bs +:+ "r"
  else if z =? 9 then bs +:+ "t"
  else if (z <? 32) || (z =? 60) || (z =? 62) || (z =? 38) then
    bs +:+ "u00" +:+ String (Hex.digit (Z.shiftr z 4))
                        (String (Hex.digit (Z.land z 15)) EmptyString)
  else String c EmptyString.

Fixpoint escape (s : string) : string :=
  match s with
  | EmptyString => EmptyString
  | String c s' => escape_byte c +:+ escape s'
  end.

Definition str (s : string) : string := q +:+ escape s +:+ q.
Definition field (name value : string) : string :=
  q +:+ name +:+ q +:+ ":" +:+ value.
Definition object (fields : list string) : string :=
  "{" +:+ Strings.Join fields "," +:+ "}".
Definition array (items : list string) : string :=
  "[" +:+ Strings.Join items "," +:+ "]".

Definition entry (e : TreeEntry) : string :=
  object
    ([ field "name" (str (Entry_Name e));
       field "type" (str (Entry_Type e));
       field "object" (str (Entry_Object e)) ]
     ++ (if Entry_Size e =? 0 then []
         else [field "size" (Strconv.Itoa (Entry_Size e))])
     ++ (if Entry_AssetID e =? 0 then []
         else [field "asset_id" (Strconv.Itoa (Entry_AssetID e))])
     ++ (if String.eqb (Entry_AssetType e) "" then []
         else [field "asset_type" (str (Entry_AssetType e))])).

Definition tree (t : Tree) : string :=
  object [field "entries" (array (map entry (Entries t)))].

Definition commit (c : Commit) : string :=
  object
    ([ field "id" (str (Commit_ID c));
       field "author" (str (Commit_Author c));
       field "timestamp" (q +:+ time_RFC3339 (Commit_Timestamp c) +:+ q);
       field "message" (str (Commit_Message c));
       field "branch" (str (Commit_Branch c)) ]
     ++ (if String.eqb (Commit_Parent c) "" then []
         else [field "parent" (str (Commit_Parent c))])
     ++ [field "tree" (str (Commit_Tree c))]).

Definition nl : string := String Bytes.LF EmptyString.

(** [json.MarshalIndent(cfg, "", "  ")] *)
Definition config (c : Config) : string :=
  "{" +:+ nl +:+
  "  " +:+ q +:+ "core" +:+ q +:+ ": {" +:+ nl +:+
  "    " +:+ q +:+ "layout" +:+ q +:+ ": " +:+ str (Core_Layout c)
         +:+ "," +:+ nl +:+
  "    " +:+ q +:+ "autocrlf" +:+ q +:+ ": " +:+ str (Core_AutoCRLF c)
         +:+ nl +:+
  "  }" +:+
  match Types c with
  | [] => EmptyString
  | ts => "," +:+ nl +:+ "  " +:+ q +:+ "types" +:+ q +:+ ": [" +:+ nl +:+
          Strings.Join (map (λ t, "    " +:+ str t) ts) ("," +:+ nl)
          +:+ nl +:+ "  ]"
  end +:+ nl +:+ "}".

Definition example_config : Config :=
  {| Core_Layout := "tree"; Core_AutoCRLF := "true";
     Types := ["text"; "audio"] |}.

#[export] Instance marshal_tree : JsonMarshal Tree := λ t, Done (tree t).
#[export] Instance marshal_commit : JsonMarshal Commit :=
  λ c, Done (commit c).

(** Decoding is needed for the configuration file of the example
    repository only: the decoder accepts exactly that file. *)
#[export] Instance config_codec : JsonConfig :=
  {| json_MarshalIndent_Config := λ c, Done (config c);
     json_Unmarshal_Config := λ data _,
       if String.eqb data (config example_config) then Done example_config
       else Failed (ErrNew "invalid character") |}.

End PlainJSON.

Module Example.
Import PlainJSON.

Definition t0 : Time :=
  {| time_String := "2024-01-01 10:00:00 +0000 UTC m=+0.010";
     time_RFC3339 := "2024-01-01T10:00:00Z" |}.
Definition t1 : Time :=
  {| time_String := "2024-01-02 10:00:00 +0000 UTC m=+0.010";
     time_RFC3339 := "2024-01-02T10:00:00Z" |}.
Definition t2 : Time :=
  {| time_String := "2024-01-03 10:00:00 +0000 UTC m=+0.010";
     time_RFC3339 := "2024-01-03T10:00:00Z" |}.

(** An empty directory [/repo], the working directory of the process. *)
Definition empty_world : world :=
  {| files := ∅; cwd := "/repo"; syscalls := []; stdout := [] |}.

Definition the_repo : Repository :=
  {| Path := "/repo"; Repo_Config := example_config |}.

(** After [rdb init --layout tree --types text,audio]. *)
Definition w_init : world :=
  snd (repo.Init (repo.NewRepository "/repo") "tree" ["text"; "audio"]
                 t0 t0 empty_world).

Definition plain (message : string) : cmd.commitFlags :=
  {| cmd.commitMessage := message; cmd.commitAuthor := "";
     cmd.amend := false |}.
Definition amending (message : string) : cmd.commitFlags :=
  {| cmd.commitMessage := message; cmd.commitAuthor := "";
     cmd.amend := true |}.

Definition empty_tree : Tree := {| Entries := [] |}.
Definition empty_tree_json : string := tree empty_tree.

Definition head_path : string := "/repo/.rdb/HEAD".
Definition main_ref : string := "/repo/.rdb/refs/heads/main".

(** The commit a branch file points to. *)
Definition tip (w : world) : string := default "" (files w !! main_ref).

(** The empty tree, stored in the empty repository directory. *)
Definition w_tree : world :=
  snd (repo.WriteObject the_repo "tree" empty_tree empty_world).
Definition h_tree : string := hash_of empty_tree_json.

(** The stored tree object with one payload byte damaged: offset 10 of
    the file is offset 2 of the payload. *)
Definition w_damaged : world :=
  corrupt_file (object_file the_repo h_tree) 10 w_tree.

(** HEAD detached at the initial commit, and HEAD cut short. *)
Definition w_detached : world := written head_path (tip w_init) w_init.
Definition w_short_head : world := written head_path "ref: x" w_init.

(** Two commits in a row, and an amend in place of the second. *)
Definition w_first : world :=
  snd (cmd.runCommit (plain "first") t1 t1 w_init).
Definition w_second : world :=
  snd (cmd.runCommit (plain "second") t2 t2 w_first).
Definition w_amended : world :=
  snd (cmd.runCommit (amending "second") t2 t2 w_first).

(** The commit records the three runs build. *)
Definition commit_first : Commit :=
  cmd.with_tree
    (cmd.new_commit (plain "first")
       (Bytes.take 16 (hash_of (time_String t1))) "main" "" t1) h_tree.
Definition commit_second : Commit :=
  cmd.with_tree
    (cmd.new_commit (plain "second")
       (Bytes.take 16 (hash_of (time_String t2))) "main" "" t2) h_tree.
Definition commit_amended : Commit :=
  cmd.with_tree
    (cmd.new_commit (amending "second")
       (Bytes.take 16 (hash_of (time_String t2))) "main" (tip w_first) t2)
    h_tree.

(** The system calls a run added to the record. *)
Definition new_syscalls (before after : world) : list syscall :=
  skipn (length (syscalls before)) (syscalls after).

End Example.

(** Further states of the example repository, and stand-ins for the
    platform functions of the add command. *)
Module Scenarios.
Import PlainJSON Example.

(** A file without a zero byte and a header without a size, in place of
    the stored empty tree. *)
Definition w_no_null : world :=
  written (object_file the_repo h_tree) "tree 14" empty_world.

Definition w_no_size : world :=
  written (object_file the_repo h_tree)
          ("tree" +:+ String Bytes.NUL "{}") empty_world.

(** HEAD as [Init] wrote it, and HEAD naming a tag. *)
Definition w_tag_head : world :=
  written head_path "ref: refs/tags/v1.0" w_init.


(** HEAD pointed at a branch that has no file. *)
Definition w_new_branch : world :=
  written head_path "ref: refs/heads/next" w_init.

(** Stand-ins for the platform functions of the add command. *)
Definition no_rel (base target : string) : outcome string :=
  Err (ErrNew "Rel: can't make relative").

Definition rel_under_repo (base target : string) : outcome string :=
  if Strings.HasPrefix target (base +:+ "/")
  then Ok (Bytes.drop (S (String.length base)) target)
  else Err (ErrNew "Rel: can't make relative").

Definition glob_literal (pattern : string) : list string := [pattern].

Definition Glob_literal (pattern : string) : M (list string) :=
  ret (glob_literal pattern).

Definition addPath_nothing (r : Repository) (path : string)
    (flags : cmd.addFlags) : M unit := ret tt.

Definition no_flags : cmd.addFlags :=
  {| cmd.addType := ""; cmd.addID := 0; cmd.addName := "" |}.

(** A working directory under a system directory, in mixed case. *)
Definition w_system : world :=
  {| files := ∅; cwd := "/mnt/C:\Windows\System32/work";
     syscalls := []; stdout := [] |}.

(** The texts [Init] writes in the example repository. *)
Definition config_json : string := PlainJSON.config example_config.

Definition initial_json : string :=
  PlainJSON.commit (initial_commit t0 t0 (hash_of empty_tree_json)).

Definition tree_flags : cmd.initFlags :=
  {| cmd.layout := "tree"; cmd.types := "text,audio" |}.

Definition flat_flags : cmd.initFlags :=
  {| cmd.layout := "flat"; cmd.types := "text" |}.

Definition nested_flags : cmd.initFlags :=
  {| cmd.layout := "nested"; cmd.types := "text" |}.

(** A file in an asset folder and one in the folder of the id 0, and
    [os.Chdir] for the list command. *)
Definition w_asset : world :=
  written "/repo/assets/1030002/a.txt" "hello" w_init.

Definition w_zero : world :=
  written "/repo/assets/0/a.txt" "hello" w_init.

Definition music_flags : cmd.addFlags :=
  {| cmd.addType := "music"; cmd.addID := 7; cmd.addName := "" |}.

Definition chdir (path : string) : M unit :=
  λ w, (Ok tt, {| files := files w; cwd := path;
                  syscalls := syscalls w; stdout := stdout w |}).

(** U+00A0, the no-break space, in UTF-8. *)
Definition nbsp : string :=
  String (Bytes.of_Z 194) (String (Bytes.of_Z 160) "").

End Scenarios.

(** * Properties *)

(** ** Test vectors and sample evaluations *)

Example sha256_abc :
  Hex.EncodeToString (SHA256.Sum256 "abc") =
  "ba7816bf8f01cfea414140de5dae2223b00361a396177a9cb410ff61f20015ad".
Proof. vm_compute. reflexivity. Qed.

Example sha256_empty :
  Hex.EncodeToString (SHA256.Sum256 "") =
  "e3b0c44298fc1c149afbf4c8996fb92427ae41e4649b934ca495991b7852b855".
Proof. vm_compute. reflexivity. Qed.

Example sha256_two_blocks :
  Hex.EncodeToString (SHA256.Sum256
    "abcdbcdecdefdefgefghfghighijhijkijkljklmklmnlmnomnopnopq") =
  "248d6a61d20638b8e5c026930c3e6039a33ce45964ff2167f6ecedd419db06c1".
Proof. vm_compute. reflexivity. Qed.

Example Itoa_14 : Strconv.Itoa 14 = "14".
Proof. reflexivity. Qed.

Example Itoa_zero : Strconv.Itoa 0 = "0".
Proof. reflexivity. Qed.

Example Atoi_signed : Strconv.Atoi "-7" = Ok (-7).
Proof. reflexivity. Qed.

Example Atoi_big : Strconv.Atoi "9223372036854775808"
                   = Err (ErrRange "Atoi" "9223372036854775808").
Proof. reflexivity. Qed.

Example Sscanf_no_size : Fmt.Sscanf_s_d "tree" = Err ErrEOF.
Proof. reflexivity. Qed.

Example Split_empty : Strings.Split "/" "" = [""].
Proof. reflexivity. Qed.

Example Join_dotdot : Filepath.Join ["/repo"; ""; "../x/./y/"] = "/x/y".
Proof. reflexivity. Qed.
Example Itoa_neg : Strconv.Itoa (-1030002) = "-1030002".
Proof. reflexivity. Qed.
Example Atoi_id : Strconv.Atoi "1030002" = Ok 1030002.
Proof. reflexivity. Qed.
Example Atoi_word : is_Err (Strconv.Atoi "data") = true.
Proof. reflexivity. Qed.
Example Sscanf_header : Fmt.Sscanf_s_d "tree 14" = Ok ("tree", 14).
Proof. reflexivity. Qed.
Example Sscanf_empty : Fmt.Sscanf_d "" = Err ErrEOF.
Proof. reflexivity. Qed.
Example Sscanf_lone_sign : Fmt.Sscanf_d "+" = Err ErrEOF.
Proof. reflexivity. Qed.
Example Sscanf_word : Fmt.Sscanf_d "data" = Err (ErrScan "expected integer").
Proof. reflexivity. Qed.
Example Sscanf_newline :
  Fmt.Sscanf_d (String Bytes.LF "7") = Err (ErrScan "unexpected newline").
Proof. reflexivity. Qed.
Example Sscanf_underscore :
  Fmt.Sscanf_d "1_0" = Err (ErrSyntax "ParseInt" "1_0").
Proof. reflexivity. Qed.
Example Sscanf_nbsp : Fmt.Sscanf_d (Scenarios.nbsp +:+ "1030002") = Ok 1030002.
Proof. reflexivity. Qed.
Example Decode_two_bytes :
  Utf8.DecodeRuneInString (String (Bytes.of_Z 195) (String (Bytes.of_Z 169) "x"))
  = (233, 2%nat).
Proof. reflexivity. Qed.
Example Decode_three_bytes :
  Utf8.DecodeRuneInString
    (String (Bytes.of_Z 226) (String (Bytes.of_Z 130)
       (String (Bytes.of_Z 172) "")))
  = (8364, 3%nat).
Proof. reflexivity. Qed.
Example Decode_four_bytes :
  Utf8.DecodeRuneInString
    (String (Bytes.of_Z 240) (String (Bytes.of_Z 144)
       (String (Bytes.of_Z 141) (String (Bytes.of_Z 136) ""))))
  = (66376, 4%nat).
Proof. reflexivity. Qed.
Example Decode_overlong :
  Utf8.DecodeRuneInString (String (Bytes.of_Z 192) (String (Bytes.of_Z 128) ""))
  = (Utf8.RuneError, 1%nat).
Proof. reflexivity. Qed.
Example Decode_surrogate :
  Utf8.DecodeRuneInString
    (String (Bytes.of_Z 237) (String (Bytes.of_Z 160)
       (String (Bytes.of_Z 128) "")))
  = (Utf8.RuneError, 1%nat).
Proof. reflexivity. Qed.
Example Decode_short :
  Utf8.DecodeRuneInString (String (Bytes.of_Z 226) (String (Bytes.of_Z 130) ""))
  = (Utf8.RuneError, 1%nat).
Proof. reflexivity. Qed.
Example runes_invalid :
  Fmt.runes (String (Bytes.of_Z 240) (String (Bytes.of_Z 144) "A"))
  = [ (Utf8.RuneError, String (Bytes.of_Z 144) "A");
      (Utf8.RuneError, "A"); (65, "") ].
Proof. reflexivity. Qed.
Example AppendRune_back :
  map (λ r, Utf8.DecodeRuneInString (Utf8.AppendRune r))
      [0; 127; 128; 2047; 2048; 65535; 65536; 1114111; 55296; 1114112; -1]
  = [ (0, 1%nat); (127, 1%nat); (128, 2%nat); (2047, 2%nat); (2048, 3%nat);
      (65535, 3%nat); (65536, 4%nat); (1114111, 4%nat);
      (Utf8.RuneError, 3%nat); (Utf8.RuneError, 3%nat);
      (Utf8.RuneError, 3%nat) ].
Proof. reflexivity. Qed.
Example token_of_invalid_byte :
  Fmt.Sscanf_s_d (String (Bytes.of_Z 255) " 3")
  = Ok (Utf8.AppendRune Utf8.RuneError, 3).
Proof. reflexivity. Qed.
Example Split_rel :
  Strings.Split "/" "assets/1030002/data/en.txt"
  = ["assets"; "1030002"; "data"; "en.txt"].
Proof. reflexivity. Qed.
Example Join_objects :
  Filepath.Join ["/repo"; ".rdb"; "objects"; "ab"; "cdef"]
  = "/repo/.rdb/objects/ab/cdef".
Proof. reflexivity. Qed.
Example Dir_object : Filepath.Dir "/repo/.rdb/objects/ab/cdef"
                     = "/repo/.rdb/objects/ab".
Proof. reflexivity. Qed.

(** ** Facts about byte strings *)

Section BytesFacts.

Lemma str_app_nil_l (s : string) : "" +:+ s = s.
Proof. reflexivity. Qed.

Lemma str_app_cons (c : ascii) (s t : string) :
  String c s +:+ t = String c (s +:+ t).
Proof. reflexivity. Qed.

Lemma str_app_nil_r (s : string) : s +:+ "" = s.
Proof. induction s as [|c s IH]; [done|]. by rewrite str_app_cons, IH. Qed.

Lemma str_app_assoc (s t u : string) : (s +:+ t) +:+ u = s +:+ t +:+ u.
Proof.
  induction s as [|c s IH]; [done|]. by rewrite !str_app_cons, IH.
Qed.

Lemma str_length_app (s t : string) :
  String.length (s +:+ t) = (String.length s + String.length t)%nat.
Proof.
  induction s as [|c s IH]; [done|]. rewrite str_app_cons. simpl. by rewrite IH.
Qed.

Lemma str_take_app (s t : string) : Bytes.take (String.length s) (s +:+ t) = s.
Proof.
  induction s as [|c s IH]; [by destruct t|].
  rewrite str_app_cons. simpl. by rewrite IH.
Qed.

Lemma str_drop_app (s t : string) : Bytes.drop (String.length s) (s +:+ t) = t.
Proof. induction s as [|c s IH]; [done|]. rewrite str_app_cons. apply IH. Qed.

Lemma length_drop (n : nat) (s : string) :
  String.length (Bytes.drop n s) = (String.length s - n)%nat.
Proof.
  revert s. induction n as [|n IH]; intros [|c s]; cbn; try lia. apply IH.
Qed.


Lemma len_nonneg (s : string) : 0 ≤ Bytes.len s.
Proof. unfold Bytes.len. lia. Qed.

Lemma len_app (s t : string) : Bytes.len (s +:+ t) = Bytes.len s + Bytes.len t.
Proof. unfold Bytes.len. rewrite str_length_app. lia. Qed.

Lemma to_of_Z (z : Z) : 0 ≤ z < 256 → Bytes.to_Z (Bytes.of_Z z) = z.
Proof.
  intros Hz. unfold Bytes.to_Z, Bytes.of_Z.
  rewrite Z.mod_small by lia.
  rewrite N_ascii_embedding by lia. lia.
Qed.

Lemma forallb_app (p : ascii → bool) (s t : string) :
  Bytes.forallb p (s +:+ t) = Bytes.forallb p s && Bytes.forallb p t.
Proof.
  induction s as [|c s IH]; [done|].
  rewrite str_app_cons. simpl. rewrite IH. by rewrite andb_assoc.
Qed.

Lemma forallb_impl (p q : ascii → bool) (s : string) :
  (∀ c, p c = true → q c = true) →
  Bytes.forallb p s = true → Bytes.forallb q s = true.
Proof.
  intros Hpq. induction s as [|c s IH]; [done|]. simpl.
  intros [Hc Hs]%andb_true_iff. rewrite (Hpq _ Hc). simpl. auto.
Qed.

End BytesFacts.

(** ** Runes of a text *)

Section Runes.

Lemma to_Z_bounds (c : ascii) : 0 ≤ Bytes.to_Z c < 256.
Proof. unfold Bytes.to_Z. pose proof (N_ascii_bounded c). lia. Qed.

Lemma of_to_Z (c : ascii) : Bytes.of_Z (Bytes.to_Z c) = c.
Proof.
  pose proof (to_Z_bounds c) as Hc. unfold Bytes.of_Z, Bytes.to_Z in *.
  rewrite Z.mod_small by lia. rewrite N2Z.id. apply ascii_N_embedding.
Qed.


Lemma Decode_ascii (c : ascii) (t : string) :
  Bytes.to_Z c < 128 →
  Utf8.DecodeRuneInString (String c t) = (Bytes.to_Z c, 1%nat).
Proof.
  intros Hc. unfold Utf8.DecodeRuneInString, Utf8.first.
  destruct (Z.ltb_spec (Bytes.to_Z c) 128); [|lia]. reflexivity.
Qed.

Lemma land_mask (b n : Z) : 0 ≤ n → Z.land b (Z.ones n) = b mod 2 ^ n.
Proof. apply Z.land_ones. Qed.










Lemma Decode_size (c : ascii) (t : string) :
  (1 ≤ snd (Utf8.DecodeRuneInString (String c t)))%nat.
Proof.
  unfold Utf8.DecodeRuneInString.
  repeat match goal with
  | |- context [match ?x with _ => _ end] => destruct x
  end; cbn [snd]; lia.
Qed.

Lemma runes_from_drop (k : nat) (s : string) :
  Fmt.runes_from k s = Fmt.runes (Bytes.drop k s).
Proof.
  revert s. induction k as [|k IH]; intros [|c s]; try done.
  cbn [Fmt.runes_from Bytes.drop]. apply IH.
Qed.

(** The runes of a text are read one after another: the first rune is
    decoded at the front, the others are the runes of the input behind
    it. *)
Lemma runes_step (c : ascii) (t : string) :
  Fmt.runes (String c t)
  = (let '(r, size) := Utf8.DecodeRuneInString (String c t) in
     (r, Bytes.drop size (String c t))
     :: Fmt.runes (Bytes.drop size (String c t))).
Proof.
  pose proof (Decode_size c t) as Hsize.
  unfold Fmt.runes at 1. cbn [Fmt.runes_from].
  destruct (Utf8.DecodeRuneInString (String c t)) as [r size].
  cbn [snd] in Hsize. rewrite runes_from_drop.
  destruct size as [|size]; [lia|].
  cbn [Bytes.drop]. by replace (S size - 1)%nat with size by lia.
Qed.

Lemma runes_ascii (c : ascii) (t : string) :
  Bytes.to_Z c < 128 →
  Fmt.runes (String c t) = (Bytes.to_Z c, t) :: Fmt.runes t.
Proof.
  intros Hc. unfold Fmt.runes. cbn [Fmt.runes_from].
  by rewrite Decode_ascii.
Qed.


Lemma AppendRune_ascii (c : ascii) :
  Bytes.to_Z c < 128 → Utf8.AppendRune (Bytes.to_Z c) = String c "".
Proof.
  intros Hc. pose proof (to_Z_bounds c) as Hb. unfold Utf8.AppendRune.
  rewrite Z.mod_small by lia. unfold Utf8.rune1Max.
  destruct (Z.leb_spec (Bytes.to_Z c) 127); [|lia]. by rewrite of_to_Z.
Qed.

Lemma in_sign_byte (c : ascii) :
  Fmt.in_string Fmt.sign (Bytes.to_Z c) = Fmt.is_sign c.
Proof. by destruct c as [[] [] [] [] [] [] [] []]. Qed.

Lemma in_digits_byte (c : ascii) :
  Fmt.in_string Fmt.decimalDigits (Bytes.to_Z c) = Fmt.is_number_byte c.
Proof. by destruct c as [[] [] [] [] [] [] [] []]. Qed.


Lemma isSpace_not_newline (r : Z) :
  Fmt.isSpace r = false → (r =? Fmt.newline) = false.
Proof.
  intros Hr. apply Z.eqb_neq. intros ->. done.
Qed.

Lemma stops_empty (f : Z → bool) : stops f "".
Proof. done. Qed.

Lemma stops_ascii (f : Z → bool) (c : ascii) (t : string) :
  Bytes.to_Z c < 128 → f (Bytes.to_Z c) = false → stops f (String c t).
Proof. intros Hc Hf. unfold stops. by rewrite runes_ascii. Qed.


(** A run of ASCII bytes of the class [f] is read whole, up to a rune
    that is not in the class. *)
Lemma read_while_prefix (f : Z → bool) (s u : string) :
  Bytes.forallb (λ c, (Bytes.to_Z c <? 128) && f (Bytes.to_Z c)) s = true →
  stops f u →
  Fmt.read_while f (s +:+ u) (Fmt.runes (s +:+ u)) = (s, u).
Proof.
  intros Hs Hu. induction s as [|c s IH].
  - rewrite str_app_nil_l. unfold stops in Hu.
    destruct (Fmt.runes u) as [|[r rest] rs]; [done|].
    cbn [Fmt.read_while]. by rewrite Hu.
  - cbn [Bytes.forallb] in Hs.
    apply andb_true_iff in Hs as [[Hc%Z.ltb_lt Hf]%andb_true_iff Hs].
    rewrite str_app_cons, runes_ascii by done.
    cbn [Fmt.read_while]. rewrite Hf, (IH Hs), AppendRune_ascii by done.
    done.
Qed.

Lemma read_while_all (f : Z → bool) (s : string) :
  Bytes.forallb (λ c, (Bytes.to_Z c <? 128) && f (Bytes.to_Z c)) s = true →
  Fmt.read_while f s (Fmt.runes s) = (s, "").
Proof.
  intros Hs. rewrite <- (str_app_nil_r s) at 1 2.
  by apply read_while_prefix.
Qed.

Lemma SkipSpace_stops (s : string) :
  stops Fmt.isSpace s → Fmt.SkipSpace s = Ok s.
Proof.
  unfold stops, Fmt.SkipSpace.
  destruct (Fmt.runes s) as [|[r rest] rs]; [done|]. intros Hr.
  cbn [Fmt.skip_space]. by rewrite (isSpace_not_newline r Hr), Hr.
Qed.

Lemma at_verb_stops {A} (scan : string → outcome A) (s : string) :
  stops Fmt.isSpace s → Fmt.at_verb scan s = scan s.
Proof. intros Hs. unfold Fmt.at_verb. by rewrite SkipSpace_stops. Qed.

Lemma skip_blanks_stops (s : string) :
  stops Fmt.isSpace s → Fmt.skip_blanks s (Fmt.runes s) = s.
Proof.
  unfold stops. destruct (Fmt.runes s) as [|[r rest] rs]; [done|].
  intros Hr. cbn [Fmt.skip_blanks]. by rewrite Hr.
Qed.

Lemma scan_format_space_one (t : string) :
  stops Fmt.isSpace t → Fmt.scan_format_space (String " " t) = Ok t.
Proof.
  intros Ht. unfold Fmt.scan_format_space.
  rewrite (runes_ascii " " t) by done.
  change (Bytes.to_Z " ") with 32.
  change (Fmt.isSpace 32) with true. change (32 =? Fmt.newline) with false.
  cbn [negb Fmt.skip_blanks andb]. change (Fmt.isSpace 32) with true.
  cbn [negb andb]. change (32 =? Fmt.newline) with false. cbn [negb].
  by rewrite skip_blanks_stops.
Qed.

End Runes.


(** ** Decimal printing and parsing *)

Section Decimal.

Lemma digit_char_spec (d : Z) :
  0 ≤ d ≤ 9 →
  Strconv.is_digit (Strconv.digit_char d) = true
  ∧ Bytes.to_Z (Strconv.digit_char d) - 48 = d.
Proof.
  intros Hd. unfold Strconv.is_digit, Strconv.digit_char.
  rewrite to_of_Z by lia. split; [|lia].
  apply andb_true_iff. split; apply Z.leb_le; lia.
Qed.

Lemma mod10_digit (n : Z) : 0 ≤ n mod 10 ≤ 9.
Proof. pose proof (Z.mod_pos_bound n 10 ltac:(lia)). lia. Qed.

Lemma digits_all_digit (fuel : nat) (n : Z) :
  0 ≤ n → Bytes.forallb Strconv.is_digit (Strconv.digits fuel n) = true.
Proof.
  revert n. induction fuel as [|fuel IH]; intros n Hn; simpl.
  - rewrite (proj1 (digit_char_spec (n mod 10) (mod10_digit n))). done.
  - destruct (n <? 10) eqn:Hlt; simpl.
    + apply Z.ltb_lt in Hlt.
      rewrite (proj1 (digit_char_spec n ltac:(lia))). done.
    + rewrite forallb_app, IH by (apply Z.div_pos; lia). simpl.
      rewrite (proj1 (digit_char_spec (n mod 10) (mod10_digit n))). done.
Qed.

Lemma digits_nonempty (fuel : nat) (n : Z) : Strconv.digits fuel n ≠ "".
Proof.
  destruct fuel as [|fuel]; simpl; [done|].
  destruct (n <? 10); [done|].
  destruct (Strconv.digits fuel (n / 10)); done.
Qed.

Lemma parse_uint_app (fn s0 : string) (acc : Z) (a b : string) :
  Strconv.parse_uint fn s0 acc (a +:+ b) =
  match Strconv.parse_uint fn s0 acc a with
  | Ok v => Strconv.parse_uint fn s0 v b
  | Err e => Err e
  | Panic m => Panic m
  end.
Proof.
  revert acc. induction a as [|c a IH]; intros acc; [done|].
  rewrite str_app_cons. simpl.
  destruct (Strconv.is_digit c); [|done].
  destruct (Strconv.maxUint64 <? _); [done|]. apply IH.
Qed.

Lemma parse_uint_digit (fn s0 : string) (acc d : Z) :
  0 ≤ d ≤ 9 → acc * 10 + d ≤ Strconv.maxUint64 →
  Strconv.parse_uint fn s0 acc (String (Strconv.digit_char d) "")
  = Ok (acc * 10 + d).
Proof.
  intros Hd Hmax. simpl.
  destruct (digit_char_spec d Hd) as [-> ->].
  destruct (Z.ltb_spec Strconv.maxUint64 (acc * 10 + d)); [lia|done].
Qed.

(** Parsing the digits that were printed gives the number back. *)
Lemma parse_uint_digits (fn s0 : string) (fuel : nat) (n : Z) :
  0 ≤ n < 2 ^ (Z.of_nat fuel + 1) → n ≤ Strconv.maxUint64 →
  Strconv.parse_uint fn s0 0 (Strconv.digits fuel n) = Ok n.
Proof.
  revert n. induction fuel as [|fuel IH]; intros n Hn Hmax.
  - cbn [Strconv.digits]. change (2 ^ (Z.of_nat 0 + 1)) with 2 in Hn.
    assert (n mod 10 = n) as -> by (apply Z.mod_small; lia).
    rewrite (parse_uint_digit fn s0 0 n) by lia. f_equal; lia.
  - cbn [Strconv.digits]. destruct (Z.ltb_spec n 10) as [Hlt|Hge].
    + rewrite (parse_uint_digit fn s0 0 n) by lia. f_equal; lia.
    + rewrite parse_uint_app.
      assert (Hdiv : 0 ≤ n / 10 < 2 ^ (Z.of_nat fuel + 1)).
      { split; [apply Z.div_pos; lia|].
        apply Z.div_lt_upper_bound; [lia|].
        replace (Z.of_nat (S fuel) + 1) with (Z.succ (Z.of_nat fuel + 1))
          in Hn by lia.
        rewrite Z.pow_succ_r in Hn by lia. lia. }
      pose proof (Z.div_mod n 10 ltac:(lia)) as Hdm.
      pose proof (Z.mod_pos_bound n 10 ltac:(lia)) as Hmod.
      rewrite IH by lia.
      rewrite parse_uint_digit by lia. f_equal; lia.
Qed.

Lemma Itoa_nonneg (n : Z) :
  0 ≤ n → Strconv.Itoa n = Strconv.digits (Z.to_nat (Z.log2 n)) n.
Proof.
  intros Hn. unfold Strconv.Itoa.
  destruct (Z.ltb_spec n 0); [lia|done].
Qed.

Lemma log2_fuel (n : Z) :
  0 ≤ n → 0 ≤ n < 2 ^ (Z.of_nat (Z.to_nat (Z.log2 n)) + 1).
Proof.
  intros Hn. rewrite Z2Nat.id by apply Z.log2_nonneg.
  split; [done|].
  destruct (Z.eq_dec n 0) as [->|Hne]; [done|].
  pose proof (Z.log2_spec n ltac:(lia)) as [_ Hlt].
  by rewrite <- Z.add_1_r in Hlt.
Qed.

Lemma Itoa_all_digit (n : Z) :
  0 ≤ n → Bytes.forallb Strconv.is_digit (Strconv.Itoa n) = true.
Proof. intros Hn. rewrite Itoa_nonneg by done. by apply digits_all_digit. Qed.

Lemma Itoa_nonempty (n : Z) : 0 ≤ n → Strconv.Itoa n ≠ "".
Proof. intros Hn. rewrite Itoa_nonneg by done. apply digits_nonempty. Qed.

Lemma digit_not_sign (c : ascii) :
  Strconv.is_digit c = true →
  Ascii.eqb c "-" = false ∧ Ascii.eqb c "+" = false.
Proof.
  unfold Strconv.is_digit.
  intros [H1%Z.leb_le H2%Z.leb_le]%andb_true_iff.
  split; apply Ascii.eqb_neq; intros ->; vm_compute in H1; done.
Qed.

Lemma parse_int_unsigned (fn s : string) :
  s ≠ "" → Bytes.forallb Strconv.is_digit s = true →
  Strconv.parse_int fn s =
  match Strconv.parse_uint fn s 0 s with
  | Ok un => if Strconv.maxInt64 <? un then Err (ErrRange fn s) else Ok un
  | Err e => Err e
  | Panic m => Panic m
  end.
Proof.
  intros Hne Hall. destruct s as [|c rest]; [done|].
  cbn [Bytes.forallb] in Hall. apply andb_true_iff in Hall as [Hc _].
  destruct (digit_not_sign c Hc) as [Hm Hp].
  unfold Strconv.parse_int. rewrite Hm, Hp. reflexivity.
Qed.

(** [ParseInt] inverts [Itoa] on the non-negative range of [int]. *)
Lemma ParseInt_Itoa (n : Z) :
  0 ≤ n ≤ Strconv.maxInt64 → Strconv.ParseInt (Strconv.Itoa n) = Ok n.
Proof.
  intros Hn. unfold Strconv.ParseInt.
  rewrite parse_int_unsigned;
    [|apply Itoa_nonempty; lia|apply Itoa_all_digit; lia].
  rewrite Itoa_nonneg at 2 by lia.
  rewrite parse_uint_digits;
    [|by apply log2_fuel; lia
     |unfold Strconv.maxInt64, Strconv.maxUint64 in *; lia].
  destruct (Z.ltb_spec Strconv.maxInt64 n); [lia|done].
Qed.

End Decimal.

(** ** Object headers *)

Section Header.

Lemma graphic_facts (c : ascii) :
  graphic c = true →
  Bytes.to_Z c < 128 ∧ Fmt.isSpace (Bytes.to_Z c) = false
  ∧ (Bytes.to_Z c =? 0) = false.
Proof.
  unfold graphic.
  intros [H1%Z.leb_le H2%Z.leb_le]%andb_true_iff.
  split; [lia|]. split; [|apply Z.eqb_neq; lia].
  unfold Fmt.isSpace, Fmt.space, Fmt.in_ranges.
  rewrite Z.mod_small by lia.
  repeat match goal with
  | |- context [Z.leb ?a ?b] => destruct (Z.leb_spec a b); try lia
  | |- context [Z.ltb ?a ?b] => destruct (Z.ltb_spec a b); try lia
  end; done.
Qed.

Lemma digit_facts (c : ascii) :
  Strconv.is_digit c = true →
  Bytes.to_Z c < 128 ∧ Fmt.isSpace (Bytes.to_Z c) = false
  ∧ (Bytes.to_Z c =? 0) = false
  ∧ Fmt.is_sign c = false ∧ Fmt.is_number_byte c = true.
Proof.
  intros Hd. destruct (digit_not_sign c Hd) as [Hm Hp].
  unfold Fmt.is_sign, Fmt.is_number_byte. rewrite Hm, Hp, Hd.
  assert (Hg : graphic c = true).
  { unfold Strconv.is_digit in Hd. unfold graphic.
    apply andb_true_iff in Hd as [H1%Z.leb_le H2%Z.leb_le].
    apply andb_true_iff. split; apply Z.leb_le; lia. }
  destruct (graphic_facts c Hg) as (? & ? & ?). done.
Qed.

Lemma kind_token_inv (K : string) :
  kind_token K = true →
  ∃ c K', K = String c K' ∧ graphic c = true
          ∧ Bytes.forallb graphic K = true.
Proof.
  unfold kind_token. intros [Hne Hall]%andb_true_iff.
  destruct K as [|c K']; [done|]. exists c, K'. split; [done|].
  split; [|done]. simpl in Hall. by apply andb_true_iff in Hall as [? _].
Qed.

Lemma object_kinds_token : Forall (λ K, kind_token K = true) object_kinds.
Proof. repeat constructor. Qed.

Lemma graphic_token (K : string) :
  Bytes.forallb graphic K = true →
  Bytes.forallb (λ c, (Bytes.to_Z c <? 128) && Fmt.notSpace (Bytes.to_Z c)) K
  = true.
Proof.
  apply forallb_impl. intros c Hc.
  destruct (graphic_facts c Hc) as (Hlow%Z.ltb_lt & Hsp & _).
  unfold Fmt.notSpace. by rewrite Hlow, Hsp.
Qed.

Lemma digits_token (ds : string) :
  Bytes.forallb Strconv.is_digit ds = true →
  Bytes.forallb (λ c, (Bytes.to_Z c <? 128)
                      && Fmt.in_string Fmt.decimalDigits (Bytes.to_Z c)) ds
  = true.
Proof.
  apply forallb_impl. intros c Hc.
  destruct (digit_facts c Hc) as (Hlow%Z.ltb_lt & _ & _ & _ & Hnb).
  by rewrite Hlow, in_digits_byte, Hnb.
Qed.

Lemma stops_graphic (c : ascii) (t : string) :
  graphic c = true → stops Fmt.isSpace (String c t).
Proof.
  intros Hc. destruct (graphic_facts c Hc) as (Hlow & Hsp & _).
  by apply stops_ascii.
Qed.

Lemma stops_digit (c : ascii) (t : string) :
  Strconv.is_digit c = true → stops Fmt.isSpace (String c t).
Proof.
  intros Hc. destruct (digit_facts c Hc) as (Hlow & Hsp & _).
  by apply stops_ascii.
Qed.

(** What [%d] reads from a sign, digits and a rest that cannot continue
    the number: the value of the sign and the digits; the rest is
    left. *)
Lemma scan_d_number (sgn ds rest : string) (v : Z) :
  sgn = "" ∨ sgn = "-" →
  ds ≠ "" → Bytes.forallb Strconv.is_digit ds = true →
  stops (Fmt.in_string Fmt.decimalDigits) rest →
  Strconv.ParseInt (sgn +:+ ds) = Ok v →
  Fmt.scan_d (sgn +:+ ds +:+ rest) = Ok (v, rest).
Proof.
  intros Hsgn Hne Hall Hrest Hparse.
  destruct ds as [|d ds']; [done|].
  cbn [Bytes.forallb] in Hall. apply andb_true_iff in Hall as [Hd Hall].
  destruct (digit_facts d Hd) as (Hlow & Hsp & _ & Hsg & Hnb).
  assert (Hnum : ∀ sg,
    Strconv.ParseInt (sg +:+ String d ds') = Ok v →
    match Fmt.notEOF (String d ds' +:+ rest) with
    | Ok _ =>
        match Fmt.accept Fmt.decimalDigits (String d ds' +:+ rest) with
        | Some (d0, s3) =>
            let '(ds0, rest0) :=
              Fmt.read_while (Fmt.in_string Fmt.decimalDigits) s3
                             (Fmt.runes s3) in
            match Strconv.ParseInt (sg +:+ d0 +:+ ds0) with
            | Ok v0 => Ok (v0, rest0)
            | Err e => Err e
            | Panic m => Panic m
            end
        | None => Err (ErrScan "expected integer")
        end
    | Err e => Err e
    | Panic m => Panic m
    end = Ok (v, rest)).
  { intros sg Hsg'. rewrite str_app_cons. cbn [Fmt.notEOF].
    unfold Fmt.accept. rewrite runes_ascii by done.
    rewrite in_digits_byte, Hnb, AppendRune_ascii by done.
    rewrite read_while_prefix by (by try apply digits_token).
    change (String d "" +:+ ds') with (String d ds'). by rewrite Hsg'. }
  unfold Fmt.scan_d. destruct Hsgn as [-> | ->].
  - rewrite str_app_nil_l in *.
    rewrite SkipSpace_stops by (rewrite str_app_cons; by apply stops_digit).
    rewrite str_app_cons at 1. cbn [Fmt.notEOF].
    unfold Fmt.accept at 1. rewrite str_app_cons at 1.
    rewrite runes_ascii by done. rewrite in_sign_byte, Hsg.
    by apply (Hnum "").
  - rewrite str_app_cons.
    rewrite SkipSpace_stops by (by apply stops_ascii).
    cbn [Fmt.notEOF]. unfold Fmt.accept at 1.
    rewrite (runes_ascii "-") by done.
    change (Fmt.in_string Fmt.sign (Bytes.to_Z "-")) with true.
    cbv iota. change (Utf8.AppendRune (Bytes.to_Z "-")) with "-".
    rewrite str_app_nil_l. by apply (Hnum "-").
Qed.

Lemma stops_number_text (sgn ds rest : string) :
  sgn = "" ∨ sgn = "-" →
  ds ≠ "" → Bytes.forallb Strconv.is_digit ds = true →
  stops Fmt.isSpace (sgn +:+ ds +:+ rest).
Proof.
  intros [-> | ->] Hne Hall.
  - destruct ds as [|d ds']; [done|].
    cbn [Bytes.forallb] in Hall. apply andb_true_iff in Hall as [Hd _].
    rewrite str_app_nil_l, str_app_cons. by apply stops_digit.
  - rewrite str_app_cons. by apply stops_ascii.
Qed.

Lemma scan_d_Itoa (n : Z) :
  0 ≤ n ≤ Strconv.maxInt64 → Fmt.scan_d (Strconv.Itoa n) = Ok (n, "").
Proof.
  intros Hn.
  pose proof (scan_d_number "" (Strconv.Itoa n) "" n) as Hscan.
  rewrite str_app_nil_l, str_app_nil_r in Hscan.
  apply Hscan; [by left|apply Itoa_nonempty; lia|apply Itoa_all_digit; lia
               |apply stops_empty|apply ParseInt_Itoa; lia].
Qed.

Lemma stops_Itoa (n : Z) : 0 ≤ n → stops Fmt.isSpace (Strconv.Itoa n).
Proof.
  intros Hn.
  pose proof (stops_number_text "" (Strconv.Itoa n) "") as Hs.
  rewrite str_app_nil_l, str_app_nil_r in Hs.
  apply Hs; [by left|by apply Itoa_nonempty|by apply Itoa_all_digit].
Qed.

Lemma scan_s_token (K u : string) :
  kind_token K = true → stops Fmt.notSpace u →
  Fmt.at_verb Fmt.scan_s (K +:+ u) = Ok (K, u).
Proof.
  intros HK Hu.
  destruct (kind_token_inv K HK) as (c & K' & -> & Hc & Hall).
  assert (Hst : stops Fmt.isSpace (String c K' +:+ u))
    by (rewrite str_app_cons; by apply stops_graphic).
  rewrite at_verb_stops by done. unfold Fmt.scan_s.
  rewrite !SkipSpace_stops by done.
  rewrite str_app_cons at 1. cbn [Fmt.notEOF].
  by rewrite read_while_prefix by (by try apply graphic_token).
Qed.

(** Scanning the header that [writeObject] printed gives the kind and
    the size back. *)
Lemma Sscanf_object_header (K : string) (n : Z) :
  kind_token K = true → 0 ≤ n ≤ Strconv.maxInt64 →
  Fmt.Sscanf_s_d (K +:+ " " +:+ Strconv.Itoa n) = Ok (K, n).
Proof.
  intros HK Hn. unfold Fmt.Sscanf_s_d.
  rewrite scan_s_token; [|done|by apply stops_ascii].
  change (" " +:+ Strconv.Itoa n) with (String " " (Strconv.Itoa n)).
  pose proof (stops_Itoa n ltac:(lia)) as Hst.
  rewrite scan_format_space_one, at_verb_stops by done.
  by rewrite scan_d_Itoa.
Qed.

Lemma Sscanf_kind_alone (K : string) :
  kind_token K = true → Fmt.Sscanf_s_d K = Err ErrEOF.
Proof.
  intros HK. unfold Fmt.Sscanf_s_d.
  rewrite <- (str_app_nil_r K) at 1.
  rewrite scan_s_token; [|done|apply stops_empty]. reflexivity.
Qed.

Lemma null_index_from_app (i : Z) (h rest : string) :
  Bytes.forallb (λ c, negb (Bytes.to_Z c =? 0)) h = true →
  repo.null_index_from i (h +:+ String Bytes.NUL rest) = i + Bytes.len h.
Proof.
  revert i. induction h as [|c h IH]; intros i Hall.
  - rewrite str_app_nil_l. simpl. unfold Bytes.len. simpl. lia.
  - cbn [Bytes.forallb] in Hall. apply andb_true_iff in Hall as [Hc Hh].
    rewrite str_app_cons. cbn [repo.null_index_from].
    apply negb_true_iff in Hc. rewrite Hc, IH by done.
    unfold Bytes.len. cbn [String.length]. lia.
Qed.

Lemma header_no_null (K : string) (n : Z) :
  kind_token K = true → 0 ≤ n →
  Bytes.forallb (λ c, negb (Bytes.to_Z c =? 0))
                (K +:+ " " +:+ Strconv.Itoa n) = true.
Proof.
  intros HK Hn.
  destruct (kind_token_inv K HK) as (c & K' & HKeq & _ & Hall).
  rewrite !forallb_app.
  apply andb_true_iff; split; [|apply andb_true_iff; split; [done|]].
  - eapply forallb_impl; [|exact Hall]. intros a Ha.
    destruct (graphic_facts a Ha) as (_ & _ & ->). done.
  - eapply forallb_impl; [|apply Itoa_all_digit; lia]. intros a Ha.
    destruct (digit_facts a Ha) as (_ & _ & -> & _). done.
Qed.

Lemma object_header_split (K : string) (n : Z) (P : string) :
  repo.object_header K n +:+ P
  = (K +:+ " " +:+ Strconv.Itoa n) +:+ String Bytes.NUL P.
Proof. unfold repo.object_header. by rewrite !str_app_assoc. Qed.

End Header.

(** ** Hashes *)

Section Hashes.

Lemma Sum256_length (data : string) :
  String.length (SHA256.Sum256 data) = 32%nat.
Proof.
  unfold SHA256.Sum256, SHA256.word_bytes.
  rewrite !str_length_app. reflexivity.
Qed.

Lemma EncodeToString_length (s : string) :
  String.length (Hex.EncodeToString s) = (2 * String.length s)%nat.
Proof. induction s as [|c s IH]; [done|]. simpl. rewrite IH. lia. Qed.

Lemma hash_of_length (data : string) :
  String.length (hash_of data) = 64%nat.
Proof.
  unfold hash_of. by rewrite EncodeToString_length, Sum256_length.
Qed.

Lemma slice_to_ok (s : string) (n : nat) :
  (n ≤ String.length s)%nat → Bytes.slice_to s n = Ok (Bytes.take n s).
Proof.
  intros Hn. unfold Bytes.slice_to.
  destruct (Nat.leb_spec n (String.length s)); [done|lia].
Qed.

Lemma slice_from_ok (s : string) (n : nat) :
  (n ≤ String.length s)%nat → Bytes.slice_from s n = Ok (Bytes.drop n s).
Proof.
  intros Hn. unfold Bytes.slice_from.
  destruct (Nat.leb_spec n (String.length s)); [done|lia].
Qed.

Lemma slice_from_panic (s : string) (n : nat) :
  (String.length s < n)%nat →
  Bytes.slice_from s n = Panic "slice bounds out of range".
Proof.
  intros Hn. unfold Bytes.slice_from.
  destruct (Nat.leb_spec n (String.length s)); [lia|done].
Qed.

End Hashes.

(** ** The object store *)

Ltac run_m :=
  unfold mbind, M_bind, bind, wrap, lift, ret, fail, mret, M_ret.

Section ObjectStore.

Context {A : Type} `{JsonMarshal A}.

(** What one call of [writeObject] does when the object marshals. *)
Lemma writeObject_run (r : Repository) (K : string) (obj : A)
    (data : string) (w : world) :
  json_Marshal obj = Done data →
  repo.writeObject r K obj w = (Ok (hash_of data), stored r K data w).
Proof.
  intros Hm. unfold repo.writeObject. run_m. rewrite Hm.
  cbn [of_result]. cbv beta iota. fold (hash_of data).
  rewrite slice_to_ok, slice_from_ok by (rewrite hash_of_length; lia).
  reflexivity.
Qed.

Lemma writeObject_marshal_error (r : Repository) (K : string) (obj : A)
    (e : error) (w : world) :
  json_Marshal obj = Failed e →
  repo.writeObject r K obj w
  = (Err (ErrWrap "failed to marshal object" e), w).
Proof. intros Hm. unfold repo.writeObject. run_m. by rewrite Hm. Qed.

End ObjectStore.

Section ReadBack.

(** What [readObject] does on a file that has a well-formed header:
    the declared size is compared with the length of what follows the
    zero byte, and nothing else is checked. *)
Lemma readObject_stored (r : Repository) (h K : string) (n : Z)
    (P : string) (w : world) :
  (2 ≤ String.length h)%nat →
  files w !! object_file r h = Some (repo.object_header K n +:+ P) →
  kind_token K = true → 0 ≤ n ≤ Strconv.maxInt64 →
  repo.readObject r h w =
  (if Bytes.len P =? n then Ok (K, P)
   else Err (ErrNew ("object size mismatch: expected " +:+ Strconv.Itoa n
                     +:+ ", got " +:+ Strconv.Itoa (Bytes.len P))), w).
Proof.
  intros Hh Hfile HK Hn. unfold repo.readObject. run_m.
  rewrite slice_to_ok, slice_from_ok by lia.
  unfold os_ReadFile. fold (object_file r h). rewrite Hfile.
  rewrite object_header_split.
  set (hdr := K +:+ " " +:+ Strconv.Itoa n).
  rewrite null_index_from_app by (apply header_no_null; [done|lia]).
  pose proof (len_nonneg hdr) as Hlen.
  destruct (Z.eqb_spec (0 + Bytes.len hdr) (-1)) as [|_]; [lia|].
  replace (Z.to_nat (0 + Bytes.len hdr)) with (String.length hdr)
    by (unfold Bytes.len; lia).
  replace (Z.to_nat (0 + Bytes.len hdr + 1))
    with (String.length (hdr +:+ String Bytes.NUL ""))
    by (rewrite str_length_app; unfold Bytes.len; simpl; lia).
  rewrite slice_to_ok by (rewrite str_length_app; lia).
  rewrite str_take_app. unfold hdr at 1.
  rewrite Sscanf_object_header by done.
  replace (hdr +:+ String Bytes.NUL P)
    with ((hdr +:+ String Bytes.NUL "") +:+ P)
    by (by rewrite str_app_assoc).
  rewrite slice_from_ok by (rewrite !str_length_app; lia).
  rewrite str_drop_app.
  destruct (Bytes.len P =? n); reflexivity.
Qed.

End ReadBack.

Section ObjectStoreClaims.

Context {A : Type} `{JsonMarshal A}.

(** C6 (content addressing): for every kind tag [K] and every object
    whose payload is [P], reading back the freshly stored object by the
    hash that [WriteObject] returned gives exactly [(K, P)], and storing
    the same kind and payload a second time returns the same hash. *)
Theorem content_addressing_roundtrip (r : Repository) (K : string)
    (obj : A) (P : string) (w : world) :
  kind_token K = true →
  json_Marshal obj = Done P →
  Bytes.len P ≤ Strconv.maxInt64 →
  let '(put1, w1) := repo.WriteObject r K obj w in
  put1 = Ok (hash_of P)
  ∧ fst (repo.ReadObject r (hash_of P) w1) = Ok (K, P)
  ∧ fst (repo.WriteObject r K obj w1) = put1.
Proof.
  intros HK Hm Hlen. unfold repo.WriteObject, repo.ReadObject.
  rewrite (writeObject_run r K obj P w Hm).
  split; [done|]. split.
  - rewrite (readObject_stored r (hash_of P) K (Bytes.len P) P).
    + by rewrite Z.eqb_refl.
    + rewrite hash_of_length. lia.
    + apply lookup_insert_eq.
    + done.
    + pose proof (len_nonneg P). lia.
  - by rewrite (writeObject_run r K obj P _ Hm).
Qed.

(** C2, as the code has it: the hash that [WriteObject] returns is the
    SHA-256 of the payload bytes alone.  The kind tag and the byte
    length go into the header of the stored file and not into the
    hashed input, so one payload has one hash under every kind. *)
Theorem write_hash_is_payload_digest (r : Repository) (K K' : string)
    (obj : A) (P : string) (w w' : world) :
  json_Marshal obj = Done P →
  fst (repo.WriteObject r K obj w) = Ok (hash_of P)
  ∧ files (snd (repo.WriteObject r K obj w)) !! object_file r (hash_of P)
    = Some (canonical_encoding K P)
  ∧ fst (repo.WriteObject r K' obj w') = fst (repo.WriteObject r K obj w).
Proof.
  intros Hm. unfold repo.WriteObject.
  rewrite !(writeObject_run r _ obj P _ Hm).
  repeat split. apply lookup_insert_eq.
Qed.

End ObjectStoreClaims.

(** C1, as the code has it: [ReadObject] looks the file up under the
    requested hash, splits it at the first zero byte and compares the
    size declared in the header with the length of the payload; a
    mismatch is an error.  The content hash is not recomputed: whatever
    payload of the declared length the file holds is returned, whether or
    not its digest is the requested hash. *)
Theorem read_checks_declared_size_only (r : Repository) (h K : string)
    (n : Z) (P : string) (w : world) :
  (2 ≤ String.length h)%nat →
  kind_token K = true →
  0 ≤ n ≤ Strconv.maxInt64 →
  files w !! object_file r h = Some (repo.object_header K n +:+ P) →
  (Bytes.len P = n → fst (repo.ReadObject r h w) = Ok (K, P))
  ∧ (Bytes.len P ≠ n →
     fst (repo.ReadObject r h w)
     = Err (ErrNew ("object size mismatch: expected " +:+ Strconv.Itoa n
                    +:+ ", got " +:+ Strconv.Itoa (Bytes.len P)))).
Proof.
  intros Hh HK Hn Hfile. unfold repo.ReadObject.
  rewrite (readObject_stored r h K n P w Hh Hfile HK Hn). cbn [fst].
  split; intros Hlen.
  - by rewrite (proj2 (Z.eqb_eq _ _) Hlen).
  - by rewrite (proj2 (Z.eqb_neq _ _) Hlen).
Qed.

Module ObjectStoreRuns.
Import PlainJSON Example.

Lemma content_addressing_roundtrip_witness :
  let '(put1, w1) :=
    repo.WriteObject the_repo "tree" empty_tree empty_world in
  put1 = Ok (hash_of empty_tree_json)
  ∧ fst (repo.ReadObject the_repo (hash_of empty_tree_json) w1)
    = Ok ("tree", empty_tree_json)
  ∧ fst (repo.WriteObject the_repo "tree" empty_tree w1) = put1.
Proof.
  apply (content_addressing_roundtrip the_repo "tree" empty_tree
           empty_tree_json empty_world).
  - reflexivity.
  - reflexivity.
  - vm_compute. discriminate.
Defined.

Lemma write_hash_is_payload_digest_witness :
  fst (repo.WriteObject the_repo "tree" empty_tree empty_world)
  = Ok (hash_of empty_tree_json)
  ∧ files (snd (repo.WriteObject the_repo "tree" empty_tree empty_world))
      !! object_file the_repo (hash_of empty_tree_json)
    = Some (canonical_encoding "tree" empty_tree_json)
  ∧ fst (repo.WriteObject the_repo "blob" empty_tree w_tree)
    = fst (repo.WriteObject the_repo "tree" empty_tree empty_world).
Proof.
  apply (write_hash_is_payload_digest the_repo "tree" "blob" empty_tree
           empty_tree_json empty_world w_tree).
  reflexivity.
Defined.

(** C2, counterexample: the hash returned for the empty tree is not the
    digest of its canonical encoding ["tree 14\0{...}"]. *)
Lemma write_hash_not_canonical_digest :
  fst (repo.WriteObject the_repo "tree" empty_tree empty_world)
  = Ok "d801aa1fb7ddcc330a5e3173372ea6af4a3d08ec58074478e85aa5603e926658"
  ∧ hash_of (canonical_encoding "tree" empty_tree_json)
    ≠ "d801aa1fb7ddcc330a5e3173372ea6af4a3d08ec58074478e85aa5603e926658".
Proof. split; [vm_compute; reflexivity|vm_compute; discriminate]. Qed.

(** C1, counterexample: after one byte of the stored payload is
    changed, reading by the original hash succeeds and returns the
    changed bytes, whose digest is not the requested hash. *)
Lemma damaged_payload_is_returned :
  fst (repo.ReadObject the_repo h_tree w_tree) = Ok ("tree", empty_tree_json)
  ∧ fst (repo.ReadObject the_repo h_tree w_damaged)
    = Ok ("tree", flip_byte 2 empty_tree_json)
  ∧ flip_byte 2 empty_tree_json ≠ empty_tree_json
  ∧ hash_of (flip_byte 2 empty_tree_json) ≠ h_tree.
Proof.
  repeat split; try (vm_compute; reflexivity); vm_compute; discriminate.
Qed.

Lemma read_checks_declared_size_only_witness :
  (Bytes.len (flip_byte 2 empty_tree_json) = 14 →
   fst (repo.ReadObject the_repo h_tree w_damaged)
   = Ok ("tree", flip_byte 2 empty_tree_json))
  ∧ (Bytes.len (flip_byte 2 empty_tree_json) ≠ 14 →
     fst (repo.ReadObject the_repo h_tree w_damaged)
     = Err (ErrNew ("object size mismatch: expected " +:+ Strconv.Itoa 14
                    +:+ ", got "
                    +:+ Strconv.Itoa
                          (Bytes.len (flip_byte 2 empty_tree_json))))).
Proof.
  apply (read_checks_declared_size_only the_repo h_tree "tree" 14
           (flip_byte 2 empty_tree_json) w_damaged).
  - vm_compute. lia.
  - reflexivity.
  - vm_compute. split; discriminate.
  - vm_compute. reflexivity.
Defined.

End ObjectStoreRuns.

(** ** HEAD and the current branch *)

Section Head.


Lemma GetCurrentBranch_run (r : Repository) (w : world) (head : string) :
  files w !! Filepath.Join [Path r; ".rdb"; "HEAD"] = Some head →
  repo.GetCurrentBranch r w =
  (if (5 <? Bytes.len head) && String.eqb (Bytes.take 5 head) "ref: "
   then Bytes.slice_from head 16
   else Err (ErrNew "HEAD is not pointing to a branch"), w).
Proof.
  intros Hhead. unfold repo.GetCurrentBranch. run_m.
  unfold os_ReadFile. rewrite Hhead.
  destruct ((5 <? Bytes.len head) && _); [|done].
  by destruct (Bytes.slice_from head 16).
Qed.

Lemma GetCurrentBranch_missing (r : Repository) (w : world) :
  files w !! Filepath.Join [Path r; ".rdb"; "HEAD"] = None →
  repo.GetCurrentBranch r w =
  (Err (ErrWrap "failed to read HEAD"
          (ErrNotExist "open" (Filepath.Join [Path r; ".rdb"; "HEAD"]))), w).
Proof.
  intros Hhead. unfold repo.GetCurrentBranch. run_m.
  unfold os_ReadFile. by rewrite Hhead.
Qed.


End Head.

(** C10, on the code: when HEAD begins with ["ref: "] and holds between
    6 and 15 bytes, [GetCurrentBranch] passes its length test and then
    panics in [head[16:]]; it returns neither a branch nor an error. *)
Theorem GetCurrentBranch_short_ref_panics (r : Repository) (w : world)
    (rest : string) :
  files w !! Filepath.Join [Path r; ".rdb"; "HEAD"] = Some ("ref: " +:+ rest) →
  (0 < String.length rest < 11)%nat →
  fst (repo.GetCurrentBranch r w) = Panic "slice bounds out of range".
Proof.
  intros Hhead Hlen.
  rewrite (GetCurrentBranch_run r w _ Hhead). cbn [fst].
  change 5%nat with (String.length "ref: ") at 1. rewrite str_take_app.
  replace (5 <? Bytes.len ("ref: " +:+ rest)) with true.
  2:{ symmetry. apply Z.ltb_lt. rewrite len_app. unfold Bytes.len.
      simpl. lia. }
  cbn [andb String.eqb Ascii.eqb Bool.eqb]. cbv iota.
  apply slice_from_panic. rewrite str_length_app. simpl. lia.
Qed.

(** ** The commit command *)

Section CommitRuns.

Context `{JsonMarshal Tree} `{JsonMarshal Commit} `{JsonConfig}.

Lemma filepath_Abs_dot (w : world) :
  filepath_Abs "." w = (Ok (repo_root w), w).
Proof. reflexivity. Qed.

Lemma IsRepository_run (path : string) (w : world) :
  repo.IsRepository path w =
  (Ok (bool_decide
         (is_Some (files w !! Filepath.Join
                     [Filepath.Join [path; ".rdb"]; "config.json"]))), w).
Proof.
  unfold repo.IsRepository, os_Stat.
  by destruct (files w !! _) as [d|].
Qed.

(** Opening a repository only reads; it returns the repository at the
    given path or an error. *)
Lemma OpenRepository_cases (path : string) (w : world) :
  (∃ r, repo.OpenRepository path w = (Ok r, w) ∧ Path r = path
        ∧ repo.IsRepository path w = (Ok true, w))
  ∨ (∃ e, repo.OpenRepository path w = (Err e, w)).
Proof.
  unfold repo.OpenRepository. run_m. rewrite IsRepository_run.
  destruct (bool_decide _); cbn [negb]; [|right; eauto].
  unfold repo.LoadConfig. run_m. unfold os_ReadFile.
  destruct (files w !! _) as [d|]; [|right; eauto].
  destruct (json_Unmarshal_Config d _) as [cfg|e]; cbn [of_result];
    [left|right]; eauto.
Qed.

(** The world after a successful commit: the tree object, the commit
    object, the branch file, and the line on standard output. *)
Lemma runCommit_run (flags : cmd.commitFlags) (t_id t_stamp : Time)
    (w : world) (r : Repository) (head parent treeJ commitJ : string) :
  cmd.in_system_directory (repo_root w) = false →
  repo.OpenRepository (repo_root w) w = (Ok r, w) →
  files w !! Filepath.Join [Path r; ".rdb"; "HEAD"] = Some head →
  Bytes.take 5 head = "ref: " →
  (16 ≤ String.length head)%nat →
  (if cmd.amend flags
   then files w !! cmd.ref_path r (Bytes.drop 16 head) = Some parent
   else parent = "") →
  json_Marshal {| Entries := [] |} = Done treeJ →
  json_Marshal
    (cmd.with_tree
       (cmd.new_commit flags (Bytes.take 16 (hash_of (time_String t_id)))
                       (Bytes.drop 16 head) parent t_stamp)
       (hash_of treeJ)) = Done commitJ →
  cmd.runCommit flags t_id t_stamp w =
  (Ok tt,
   printed ((if cmd.amend flags then "Amended commit "
             else "Created commit ")
            +:+ Bytes.take 8 (hash_of commitJ) +:+ cmd.newline)
     (written (cmd.ref_path r (Bytes.drop 16 head)) (hash_of commitJ)
        (stored r "commit" commitJ (stored r "tree" treeJ w)))).
Proof.
  intros Hsys Hopen Hhead Hpre Hlen Hparent Htree Hcommit.
  destruct (OpenRepository_cases (repo_root w) w)
    as [(r' & Hopen' & Hpath & Hisrepo)|(e & He)]; [|congruence].
  assert (r' = r) as -> by congruence.
  unfold cmd.runCommit. run_m.
  rewrite filepath_Abs_dot, Hsys, Hisrepo. cbn [negb]. rewrite Hopen.
  rewrite (GetCurrentBranch_run r w head Hhead).
  replace (5 <? Bytes.len head) with true
    by (symmetry; apply Z.ltb_lt; unfold Bytes.len; lia).
  rewrite Hpre, String.eqb_refl. cbn [andb].
  rewrite slice_from_ok by done.
  assert (Hgetparent :
    (if cmd.amend flags
     then wrap "failed to get current commit" (repo.GetCurrentCommit r)
     else ret "") w = (Ok parent, w)).
  { destruct (cmd.amend flags).
    - unfold repo.GetCurrentCommit. run_m.
      rewrite (GetCurrentBranch_run r w head Hhead).
      replace (5 <? Bytes.len head) with true
        by (symmetry; apply Z.ltb_lt; unfold Bytes.len; lia).
      rewrite Hpre, String.eqb_refl. cbn [andb].
      rewrite slice_from_ok by done.
      unfold os_ReadFile. fold (cmd.ref_path r (Bytes.drop 16 head)).
      by rewrite Hparent.
    - by subst parent. }
  revert Hgetparent. run_m. intros ->.
  unfold repo.GenerateID, repo.generateID.
  fold (hash_of (time_String t_id)).
  rewrite slice_to_ok by (rewrite hash_of_length; lia).
  unfold repo.WriteObject.
  rewrite (writeObject_run r "tree" _ treeJ w Htree).
  rewrite (writeObject_run r "commit" _ commitJ _ Hcommit).
  unfold os_WriteFile.
  rewrite slice_to_ok by (rewrite hash_of_length; lia).
  reflexivity.
Qed.

End CommitRuns.

Section CommitInversion.

Context `{JsonMarshal Tree} `{JsonMarshal Commit} `{JsonConfig}.

(** A commit succeeds only in the situation [runCommit_run] describes. *)
Lemma runCommit_Ok_inv (flags : cmd.commitFlags) (t_id t_stamp : Time)
    (w : world) :
  fst (cmd.runCommit flags t_id t_stamp w) = Ok tt →
  ∃ r head parent treeJ commitJ,
    cmd.in_system_directory (repo_root w) = false
    ∧ repo.OpenRepository (repo_root w) w = (Ok r, w)
    ∧ files w !! Filepath.Join [Path r; ".rdb"; "HEAD"] = Some head
    ∧ Bytes.take 5 head = "ref: "
    ∧ (16 ≤ String.length head)%nat
    ∧ (if cmd.amend flags
       then files w !! cmd.ref_path r (Bytes.drop 16 head) = Some parent
       else parent = "")
    ∧ json_Marshal {| Entries := [] |} = Done treeJ
    ∧ json_Marshal
        (cmd.with_tree
           (cmd.new_commit flags
              (Bytes.take 16 (hash_of (time_String t_id)))
              (Bytes.drop 16 head) parent t_stamp)
           (hash_of treeJ)) = Done commitJ.
Proof.
  unfold cmd.runCommit. run_m. rewrite filepath_Abs_dot.
  destruct (cmd.in_system_directory (repo_root w)) eqn:Hsys; [done|].
  rewrite IsRepository_run.
  destruct (bool_decide _); cbn [negb]; [|done].
  destruct (OpenRepository_cases (repo_root w) w)
    as [(r & Hopen & Hpath & _)|(e & ->)]; [|done].
  rewrite Hopen.
  destruct (files w !! Filepath.Join [Path r; ".rdb"; "HEAD"])
    as [head|] eqn:Hhead;
    [|by rewrite (GetCurrentBranch_missing r w Hhead)].
  rewrite (GetCurrentBranch_run r w head Hhead).
  destruct (5 <? Bytes.len head); cbn [andb]; [|done].
  destruct (String.eqb_spec (Bytes.take 5 head) "ref: ") as [Hpre|]; [|done].
  destruct (Nat.le_gt_cases 16 (String.length head)) as [Hlen|Hlen];
    [|by rewrite slice_from_panic].
  rewrite slice_from_ok by done.
  assert (Hgetparent :
    (∃ parent,
       (if cmd.amend flags
        then wrap "failed to get current commit" (repo.GetCurrentCommit r)
        else ret "") w = (Ok parent, w)
       ∧ (if cmd.amend flags
          then files w !! cmd.ref_path r (Bytes.drop 16 head) = Some parent
          else parent = ""))
    ∨ (∃ e,
         (if cmd.amend flags
          then wrap "failed to get current commit" (repo.GetCurrentCommit r)
          else ret "") w = (Err e, w))).
  { destruct (cmd.amend flags); [|left; by exists ""].
    unfold repo.GetCurrentCommit. run_m.
    rewrite (GetCurrentBranch_run r w head Hhead).
    replace (5 <? Bytes.len head) with true
      by (symmetry; apply Z.ltb_lt; unfold Bytes.len; lia).
    rewrite Hpre, String.eqb_refl. cbn [andb].
    rewrite slice_from_ok by done.
    unfold os_ReadFile. fold (cmd.ref_path r (Bytes.drop 16 head)).
    destruct (files w !! cmd.ref_path r (Bytes.drop 16 head)) as [p|];
      [left|right]; eauto. }
  revert Hgetparent. run_m.
  intros [(parent & -> & Hparent)|(e & ->)]; [|done].
  unfold repo.GenerateID, repo.generateID.
  fold (hash_of (time_String t_id)).
  rewrite slice_to_ok by (rewrite hash_of_length; lia).
  unfold repo.WriteObject.
  destruct (json_Marshal {| Entries := [] |}) as [treeJ|e] eqn:Htree;
    [|by rewrite (writeObject_marshal_error r "tree" _ e w Htree)].
  rewrite (writeObject_run r "tree" _ treeJ w Htree).
  match goal with
  | |- context [repo.writeObject r "commit" ?c] =>
      destruct (json_Marshal c) as [commitJ|e] eqn:Hcommit;
        [|by rewrite (writeObject_marshal_error r "commit" c e _ Hcommit)]
  end.
  intros _. exists r, head, parent, treeJ, commitJ. done.
Qed.

End CommitInversion.

(** ** The record of system calls *)

Section Trace.

Lemma no_rename_ret {A} (a : A) : no_rename (ret a).
Proof. intros w. exists []. by rewrite app_nil_r. Qed.

Lemma no_rename_mret {A} (a : A) : no_rename (mret a).
Proof. apply no_rename_ret. Qed.

Lemma no_rename_lift {A} (o : outcome A) : no_rename (lift o).
Proof. intros w. exists []. by rewrite app_nil_r. Qed.

Lemma no_rename_fail {A} (e : error) : no_rename (@fail A e).
Proof. intros w. exists []. by rewrite app_nil_r. Qed.

Lemma no_rename_bind {A B} (m : M A) (k : A → M B) :
  no_rename m → (∀ a, no_rename (k a)) → no_rename (m ≫= k).
Proof.
  intros Hm Hk w. destruct (Hm w) as (cs & Hcs & Hall).
  unfold mbind, M_bind, bind.
  destruct (m w) as [[a|e|p] w1]; cbn [snd] in *; [|by eauto..].
  destruct (Hk a w1) as (cs' & Hcs' & Hall').
  exists (cs ++ cs'). rewrite Hcs', Hcs, app_assoc. split; [done|].
  by apply Forall_app.
Qed.

Lemma no_rename_wrap {A} (msg : string) (m : M A) :
  no_rename m → no_rename (wrap msg m).
Proof.
  intros Hm w. destruct (Hm w) as (cs & Hcs & Hall). unfold wrap.
  destruct (m w) as [[a|e|p] w1]; cbn [snd] in *; eauto.
Qed.

Lemma no_rename_MkdirAll (path : string) : no_rename (os_MkdirAll path).
Proof. intros w. exists [SysMkdirAll path]. split; [done|]. by repeat constructor. Qed.

Lemma no_rename_WriteFile (path data : string) :
  no_rename (os_WriteFile path data).
Proof.
  intros w. exists [SysOpenTrunc path; SysWrite path data]. split.
  - cbn. by rewrite <- app_assoc.
  - by repeat constructor.
Qed.

Lemma no_rename_ReadFile (path : string) : no_rename (os_ReadFile path).
Proof.
  intros w. exists []. unfold os_ReadFile.
  destruct (files w !! path); by rewrite app_nil_r.
Qed.

Lemma no_rename_Printf (text : string) : no_rename (fmt_Printf text).
Proof. intros w. exists []. by rewrite app_nil_r. Qed.

Lemma no_rename_Abs (path : string) : no_rename (filepath_Abs path).
Proof. intros w. exists []. by rewrite app_nil_r. Qed.

End Trace.

Ltac quiet :=
  repeat first
    [ apply no_rename_bind; [|intros ?]
    | apply no_rename_wrap
    | apply no_rename_ret
    | apply no_rename_mret
    | apply no_rename_lift
    | apply no_rename_fail
    | apply no_rename_MkdirAll
    | apply no_rename_WriteFile
    | apply no_rename_ReadFile
    | apply no_rename_Printf
    | apply no_rename_Abs
    | match goal with
      | |- no_rename (if ?b then _ else _) => destruct b
      | |- no_rename (match ?x with _ => _ end) => destruct x
      end ].

Section TraceOfCommands.

Context `{JsonMarshal Tree} `{JsonMarshal Commit} `{JsonConfig}.

Lemma no_rename_writeObject {A} `{JsonMarshal A} (r : Repository)
    (K : string) (obj : A) :
  no_rename (repo.writeObject r K obj).
Proof. unfold repo.writeObject. quiet. Qed.

Lemma no_rename_IsRepository (path : string) :
  no_rename (repo.IsRepository path).
Proof.
  intros w. exists []. rewrite IsRepository_run. by rewrite app_nil_r.
Qed.

Lemma no_rename_OpenRepository (path : string) :
  no_rename (repo.OpenRepository path).
Proof.
  unfold repo.OpenRepository.
  apply no_rename_bind; [apply no_rename_IsRepository|intros b].
  unfold repo.LoadConfig. quiet.
Qed.

Lemma no_rename_GetCurrentBranch (r : Repository) :
  no_rename (repo.GetCurrentBranch r).
Proof. unfold repo.GetCurrentBranch. quiet. Qed.

Lemma no_rename_GetCurrentCommit (r : Repository) :
  no_rename (repo.GetCurrentCommit r).
Proof.
  unfold repo.GetCurrentCommit.
  apply no_rename_bind; [apply no_rename_GetCurrentBranch|intros b].
  quiet.
Qed.

Lemma no_rename_runCommit (flags : cmd.commitFlags) (t_id t_stamp : Time) :
  no_rename (cmd.runCommit flags t_id t_stamp).
Proof.
  unfold cmd.runCommit.
  apply no_rename_bind; [quiet|intros absPath].
  destruct (cmd.in_system_directory absPath); [quiet|].
  apply no_rename_bind; [apply no_rename_IsRepository|intros b].
  destruct (negb b); [quiet|].
  apply no_rename_bind;
    [apply no_rename_wrap, no_rename_OpenRepository|intros r].
  apply no_rename_bind;
    [apply no_rename_wrap, no_rename_GetCurrentBranch|intros branch].
  apply no_rename_bind.
  { destruct (cmd.amend flags);
      [apply no_rename_wrap, no_rename_GetCurrentCommit|quiet]. }
  intros parentCommit.
  apply no_rename_bind; [quiet|intros id].
  apply no_rename_bind;
    [apply no_rename_wrap, no_rename_writeObject|intros treeHash].
  apply no_rename_bind;
    [apply no_rename_wrap, no_rename_writeObject|intros commitHash].
  quiet.
Qed.

End TraceOfCommands.

Section Worlds.

Lemma syscalls_written (p d : string) (w : world) :
  syscalls (written p d w) = syscalls w ++ [SysOpenTrunc p; SysWrite p d].
Proof. unfold written, sys. cbn [syscalls]. by rewrite <- app_assoc. Qed.

Lemma syscalls_stored (r : Repository) (K data : string) (w : world) :
  syscalls (stored r K data w) =
  syscalls w ++
  [ SysMkdirAll (Filepath.Dir (object_file r (hash_of data)));
    SysOpenTrunc (object_file r (hash_of data));
    SysWrite (object_file r (hash_of data)) (canonical_encoding K data) ].
Proof.
  unfold stored. rewrite syscalls_written. unfold sys. cbn [syscalls].
  by rewrite <- app_assoc.
Qed.

Lemma syscalls_printed (text : string) (w : world) :
  syscalls (printed text w) = syscalls w.
Proof. reflexivity. Qed.

Lemma files_printed (text : string) (w : world) :
  files (printed text w) = files w.
Proof. reflexivity. Qed.

Lemma files_written (p d : string) (w : world) :
  files (written p d w) !! p = Some d.
Proof. apply lookup_insert_eq. Qed.

End Worlds.

Ltac world_simpl :=
  rewrite ?syscalls_printed, ?files_printed, ?syscalls_written,
    ?syscalls_stored.

Section CommitEffects.

Context `{JsonMarshal Tree} `{JsonMarshal Commit} `{JsonConfig}.

(** C3, as the code has it: [runCommit] has no no-op guard.  Without
    [--amend], in any repository that opens and whose HEAD names a
    branch, it stores the (empty) tree and a new commit and points the
    branch at that commit; the tree of the commit HEAD pointed to
    before is never read, so it makes no difference whether the new
    tree equals it. *)
Theorem commit_without_amend_always_commits (flags : cmd.commitFlags)
    (t_id t_stamp : Time) (w : world) (r : Repository)
    (head treeJ commitJ : string) :
  cmd.amend flags = false →
  cmd.in_system_directory (repo_root w) = false →
  repo.OpenRepository (repo_root w) w = (Ok r, w) →
  files w !! Filepath.Join [Path r; ".rdb"; "HEAD"] = Some head →
  Bytes.take 5 head = "ref: " →
  (16 ≤ String.length head)%nat →
  json_Marshal {| Entries := [] |} = Done treeJ →
  json_Marshal
    (cmd.with_tree
       (cmd.new_commit flags (Bytes.take 16 (hash_of (time_String t_id)))
                       (Bytes.drop 16 head) "" t_stamp)
       (hash_of treeJ)) = Done commitJ →
  let w' := snd (cmd.runCommit flags t_id t_stamp w) in
  let branch_file := cmd.ref_path r (Bytes.drop 16 head) in
  fst (cmd.runCommit flags t_id t_stamp w) = Ok tt
  ∧ files w' !! branch_file = Some (hash_of commitJ)
  ∧ syscalls w' =
    syscalls w ++
    [ SysMkdirAll (Filepath.Dir (object_file r (hash_of treeJ)));
      SysOpenTrunc (object_file r (hash_of treeJ));
      SysWrite (object_file r (hash_of treeJ))
               (canonical_encoding "tree" treeJ);
      SysMkdirAll (Filepath.Dir (object_file r (hash_of commitJ)));
      SysOpenTrunc (object_file r (hash_of commitJ));
      SysWrite (object_file r (hash_of commitJ))
               (canonical_encoding "commit" commitJ);
      SysOpenTrunc branch_file;
      SysWrite branch_file (hash_of commitJ) ].
Proof.
  intros Hamend Hsys Hopen Hhead Hpre Hlen Htree Hcommit.
  rewrite (runCommit_run flags t_id t_stamp w r head "" treeJ commitJ);
    try done; [|by rewrite Hamend].
  cbn [fst snd]. split; [done|]. split.
  - world_simpl. apply files_written.
  - world_simpl. by rewrite <- !app_assoc.
Qed.

(** C5, as the code has it: an object and a branch file are each
    written by [os.WriteFile] on the final path, which opens the file
    with truncation and then writes it.  No run of [WriteObject] or of
    [runCommit] issues a rename, and between the two steps the final
    path is visible as an empty file. *)
Theorem writes_go_straight_to_the_final_path {A} `{JsonMarshal A} :
  (∀ r K (obj : A), no_rename (repo.WriteObject r K obj))
  ∧ (∀ r K (obj : A) P w,
       json_Marshal obj = Done P →
       let p := object_file r (hash_of P) in
       syscalls (snd (repo.WriteObject r K obj w))
       = syscalls w ++ [ SysMkdirAll (Filepath.Dir p); SysOpenTrunc p;
                         SysWrite p (canonical_encoding K P) ]
       ∧ replay [SysMkdirAll (Filepath.Dir p); SysOpenTrunc p] (files w)
           !! p = Some "")
  ∧ (∀ flags t_id t_stamp, no_rename (cmd.runCommit flags t_id t_stamp))
  ∧ (∀ flags t_id t_stamp w,
       fst (cmd.runCommit flags t_id t_stamp w) = Ok tt →
       ∃ cs branch_file h,
         syscalls (snd (cmd.runCommit flags t_id t_stamp w))
         = syscalls w ++ cs
             ++ [SysOpenTrunc branch_file; SysWrite branch_file h]
         ∧ files (snd (cmd.runCommit flags t_id t_stamp w)) !! branch_file
           = Some h).
Proof.
  split; [intros; apply no_rename_writeObject|].
  split.
  { intros r K obj P w Hm p. unfold repo.WriteObject.
    rewrite (writeObject_run r K obj P w Hm). split.
    - cbn [snd]. by world_simpl.
    - unfold replay. cbn [fold_left sys_apply]. apply lookup_insert_eq. }
  split; [intros; apply no_rename_runCommit|].
  intros flags t_id t_stamp w Hok.
  destruct (runCommit_Ok_inv flags t_id t_stamp w Hok)
    as (r & head & parent & treeJ & commitJ & Hsys & Hopen & Hhead & Hpre
        & Hlen & Hparent & Htree & Hcommit).
  rewrite (runCommit_run flags t_id t_stamp w r head parent treeJ commitJ)
    by done.
  exists
    [ SysMkdirAll (Filepath.Dir (object_file r (hash_of treeJ)));
      SysOpenTrunc (object_file r (hash_of treeJ));
      SysWrite (object_file r (hash_of treeJ))
               (canonical_encoding "tree" treeJ);
      SysMkdirAll (Filepath.Dir (object_file r (hash_of commitJ)));
      SysOpenTrunc (object_file r (hash_of commitJ));
      SysWrite (object_file r (hash_of commitJ))
               (canonical_encoding "commit" commitJ) ],
    (cmd.ref_path r (Bytes.drop 16 head)), (hash_of commitJ).
  cbn [snd]. split.
  - world_simpl. rewrite <- !app_assoc. reflexivity.
  - world_simpl. apply files_written.
Qed.

End CommitEffects.

(** ** The states of HEAD *)

Section HeadStates.

Context `{JsonMarshal Tree} `{JsonMarshal Commit} `{JsonConfig}.



End HeadStates.

Module CommandRuns.
Import PlainJSON Example.

(** C3, counterexample: the commit HEAD points to has the empty tree,
    the index is empty, so the tree built is the same; the commit
    without [--amend] succeeds all the same, stores a second commit
    and moves the branch to it. *)
Lemma unchanged_tree_is_committed :
  files w_first !! object_file the_repo (tip w_first)
  = Some (canonical_encoding "commit" (PlainJSON.commit commit_first))
  ∧ Commit_Tree commit_first = h_tree
  ∧ Commit_Tree commit_second = h_tree
  ∧ cmd.amend (plain "second") = false
  ∧ fst (cmd.runCommit (plain "second") t2 t2 w_first) = Ok tt
  ∧ files w_second !! object_file the_repo (tip w_second)
    = Some (canonical_encoding "commit" (PlainJSON.commit commit_second))
  ∧ tip w_second ≠ tip w_first.
Proof.
  repeat split; try (vm_compute; reflexivity). vm_compute. discriminate.
Qed.

Lemma commit_without_amend_always_commits_witness :
  let w' := snd (cmd.runCommit (plain "second") t2 t2 w_first) in
  let branch_file := cmd.ref_path the_repo (Bytes.drop 16 "ref: refs/heads/main") in
  fst (cmd.runCommit (plain "second") t2 t2 w_first) = Ok tt
  ∧ files w' !! branch_file = Some (hash_of (PlainJSON.commit commit_second))
  ∧ syscalls w' =
    syscalls w_first ++
    [ SysMkdirAll (Filepath.Dir (object_file the_repo (hash_of empty_tree_json)));
      SysOpenTrunc (object_file the_repo (hash_of empty_tree_json));
      SysWrite (object_file the_repo (hash_of empty_tree_json))
               (canonical_encoding "tree" empty_tree_json);
      SysMkdirAll (Filepath.Dir (object_file the_repo
                                   (hash_of (PlainJSON.commit commit_second))));
      SysOpenTrunc (object_file the_repo
                      (hash_of (PlainJSON.commit commit_second)));
      SysWrite (object_file the_repo
                  (hash_of (PlainJSON.commit commit_second)))
               (canonical_encoding "commit" (PlainJSON.commit commit_second));
      SysOpenTrunc branch_file;
      SysWrite branch_file (hash_of (PlainJSON.commit commit_second)) ].
Proof.
  apply (commit_without_amend_always_commits (plain "second") t2 t2 w_first
           the_repo "ref: refs/heads/main" empty_tree_json
           (PlainJSON.commit commit_second)).
  - reflexivity.
  - vm_compute. reflexivity.
  - vm_compute. reflexivity.
  - vm_compute. reflexivity.
  - reflexivity.
  - vm_compute. lia.
  - reflexivity.
  - vm_compute. reflexivity.
Defined.

(** C4, on the code: the second of two plain commits is stored with an
    empty parent field although the branch pointed to the first; and a
    commit made with [--amend] is stored with the commit it was meant
    to replace as its parent, so that commit stays reachable. *)
Theorem parent_links_of_commit_and_amend :
  tip w_first ≠ ""
  ∧ fst (cmd.runCommit (plain "second") t2 t2 w_first) = Ok tt
  ∧ files w_second !! object_file the_repo (tip w_second)
    = Some (canonical_encoding "commit" (PlainJSON.commit commit_second))
  ∧ Commit_Parent commit_second = ""
  ∧ fst (cmd.runCommit (amending "second") t2 t2 w_first) = Ok tt
  ∧ files w_amended !! object_file the_repo (tip w_amended)
    = Some (canonical_encoding "commit" (PlainJSON.commit commit_amended))
  ∧ Commit_Parent commit_amended = tip w_first
  ∧ Commit_Parent commit_first = "".
Proof.
  repeat split; try (vm_compute; reflexivity). vm_compute. discriminate.
Qed.

(** C5, counterexample: neither the tree object nor the branch file is
    written by rename; while the write runs, each is visible at its
    final path with contents that are neither the old nor the new. *)
Lemma object_and_ref_written_in_place :
  ¬ written_by_rename (object_file the_repo h_tree)
      (new_syscalls empty_world w_tree)
  ∧ partial_visible (object_file the_repo h_tree)
      (canonical_encoding "tree" empty_tree_json)
      (new_syscalls empty_world w_tree) (files empty_world)
  ∧ ¬ written_by_rename main_ref (new_syscalls w_first w_second)
  ∧ partial_visible main_ref (tip w_second)
      (new_syscalls w_first w_second) (files w_first).
Proof.
  split; [|split; [|split]].
  - intros [_ Hno]. apply Hno. apply list_elem_of_lookup.
    exists 1%nat. vm_compute. reflexivity.
  - exists 2%nat, "". vm_compute. repeat split; discriminate.
  - intros [_ Hno]. apply Hno. apply list_elem_of_lookup.
    exists 6%nat. vm_compute. reflexivity.
  - exists 7%nat, "". vm_compute. repeat split; discriminate.
Qed.

Lemma writes_go_straight_to_the_final_path_witness :
  (let p := object_file the_repo (hash_of empty_tree_json) in
   syscalls (snd (repo.WriteObject the_repo "tree" empty_tree empty_world))
   = syscalls empty_world
       ++ [ SysMkdirAll (Filepath.Dir p); SysOpenTrunc p;
            SysWrite p (canonical_encoding "tree" empty_tree_json) ]
   ∧ replay [SysMkdirAll (Filepath.Dir p); SysOpenTrunc p]
            (files empty_world) !! p = Some "")
  ∧ ∃ cs branch_file h,
      syscalls (snd (cmd.runCommit (plain "second") t2 t2 w_first))
      = syscalls w_first ++ cs
          ++ [SysOpenTrunc branch_file; SysWrite branch_file h]
      ∧ files (snd (cmd.runCommit (plain "second") t2 t2 w_first))
          !! branch_file = Some h.
Proof.
  destruct (writes_go_straight_to_the_final_path (A := Tree))
    as (_ & Hwrite & _ & Hcommit).
  split.
  - apply (Hwrite the_repo "tree" empty_tree empty_tree_json empty_world).
    reflexivity.
  - apply (Hcommit (plain "second") t2 t2 w_first).
    vm_compute. reflexivity.
Defined.



Lemma GetCurrentBranch_short_ref_panics_witness :
  fst (repo.GetCurrentBranch the_repo w_short_head)
  = Panic "slice bounds out of range".
Proof.
  apply (GetCurrentBranch_short_ref_panics the_repo w_short_head "x").
  - vm_compute. reflexivity.
  - simpl. lia.
Defined.

End CommandRuns.

(** ** Asset types *)

(** C8 (type resolution): [getAssetTypeFromID] is a function on all
    integers; on each id of the table it returns the type the table gives
    (the ids of the table are distinct), and on every other id it returns
    ["unknown"]. *)
Theorem getAssetTypeFromID_total :
  NoDup (cmd.assetTypeTable.*1)
  ∧ (∀ id t, (id, t) ∈ cmd.assetTypeTable → cmd.getAssetTypeFromID id = t)
  ∧ (∀ id, id ∉ cmd.assetTypeTable.*1 →
           cmd.getAssetTypeFromID id = "unknown").
Proof.
  assert (Hnodup : NoDup (cmd.assetTypeTable.*1)).
  { apply (bool_decide_unpack _). vm_compute. exact I. }
  split; [done|]. split.
  - intros id t Hin. unfold cmd.getAssetTypeFromID, cmd.assetTypeMap.
    by rewrite (elem_of_list_to_map_1 _ _ _ Hnodup Hin).
  - intros id Hout. unfold cmd.getAssetTypeFromID, cmd.assetTypeMap.
    by rewrite (not_elem_of_list_to_map_1 _ _ Hout).
Qed.

Lemma getAssetTypeFromID_total_witness :
  cmd.getAssetTypeFromID 1030002 = "string"
  ∧ cmd.getAssetTypeFromID 42001 = "unknown".
Proof.
  destruct getAssetTypeFromID_total as (_ & Hknown & Hother). split.
  - apply Hknown. apply list_elem_of_lookup. exists 1%nat. reflexivity.
  - apply Hother. apply (bool_decide_unpack _). vm_compute. exact I.
Defined.

(** ** Numeric ids *)

Section NumericIds.

Lemma decimal_value_ge (acc : Z) (ds : string) :
  0 ≤ acc → Bytes.forallb Strconv.is_digit ds = true →
  acc ≤ decimal_value acc ds.
Proof.
  revert acc. induction ds as [|c ds IH]; intros acc Hacc Hall; [simpl; lia|].
  cbn [Bytes.forallb] in Hall. apply andb_true_iff in Hall as [Hc Hds].
  unfold Strconv.is_digit in Hc.
  apply andb_true_iff in Hc as [H1%Z.leb_le H2%Z.leb_le].
  cbn [decimal_value].
  specialize (IH (acc * 10 + (Bytes.to_Z c - 48)) ltac:(lia) Hds). lia.
Qed.

(** The digit loop succeeds exactly on runs of digits whose value fits
    64 bits, and returns that value. *)
Lemma parse_uint_Ok (fn s0 : string) (acc : Z) (ds : string) (v : Z) :
  0 ≤ acc ≤ Strconv.maxUint64 →
  Strconv.parse_uint fn s0 acc ds = Ok v ↔
  Bytes.forallb Strconv.is_digit ds = true
  ∧ v = decimal_value acc ds ∧ v ≤ Strconv.maxUint64.
Proof.
  revert acc. induction ds as [|c ds IH]; intros acc Hacc.
  - cbn [Strconv.parse_uint Bytes.forallb decimal_value]. split.
    + intros [= <-]. repeat split; lia.
    + by intros (_ & -> & _).
  - cbn [Strconv.parse_uint Bytes.forallb decimal_value].
    destruct (Strconv.is_digit c) eqn:Hc; cbn [andb];
      [|split; [done|by intros (? & _)]].
    pose proof Hc as Hc'. unfold Strconv.is_digit in Hc'.
    apply andb_true_iff in Hc' as [H1%Z.leb_le H2%Z.leb_le].
    destruct (Z.ltb_spec Strconv.maxUint64 (acc * 10 + (Bytes.to_Z c - 48)))
      as [Hover|Hfit].
    + split; [done|]. intros (Hds & -> & Hmax).
      pose proof (decimal_value_ge (acc * 10 + (Bytes.to_Z c - 48)) ds
                    ltac:(lia) Hds). lia.
    + apply IH. lia.
Qed.

(** [strconv.Atoi] accepts exactly the numeric ids. *)
Lemma Atoi_numeric (s : string) :
  is_Ok (Strconv.Atoi s) = true ↔ numeric_id s.
Proof.
  unfold Strconv.Atoi, Strconv.parse_int, numeric_id. split.
  - destruct s as [|c rest]; [done|].
    destruct (Ascii.eqb_spec c "-") as [->|Hminus]; cbn [orb].
    + destruct rest as [|d rest']; [done|].
      destruct (Strconv.parse_uint "Atoi" _ 0 (String d rest')) as [un| |]
        eqn:Hparse; [|done..].
      apply parse_uint_Ok in Hparse as (Hall & -> & _);
        [|unfold Strconv.maxUint64; lia].
      destruct (Z.ltb_spec (- Strconv.minInt64)
                  (decimal_value 0 (String d rest'))); [done|].
      intros _. exists "-", (String d rest'). repeat split; auto.
    + destruct (Ascii.eqb_spec c "+") as [->|Hplus].
      * destruct rest as [|d rest']; [done|].
        destruct (Strconv.parse_uint "Atoi" _ 0 (String d rest')) as [un| |]
          eqn:Hparse; [|done..].
        apply parse_uint_Ok in Hparse as (Hall & -> & _);
          [|unfold Strconv.maxUint64; lia].
        destruct (Z.ltb_spec Strconv.maxInt64
                    (decimal_value 0 (String d rest'))); [done|].
        intros _. exists "+", (String d rest'). repeat split; auto.
      * destruct (Strconv.parse_uint "Atoi" _ 0 (String c rest)) as [un| |]
          eqn:Hparse; [|done..].
        apply parse_uint_Ok in Hparse as (Hall & -> & _);
          [|unfold Strconv.maxUint64; lia].
        destruct (Z.ltb_spec Strconv.maxInt64
                    (decimal_value 0 (String c rest))); [done|].
        intros _. exists "", (String c rest). repeat split; auto.
  - intros (sign & ds & -> & Hsign & Hne & Hall & Hrange).
    destruct ds as [|d ds']; [done|].
    assert (Hparse : ∀ s0, decimal_value 0 (String d ds') ≤ Strconv.maxUint64 →
                           Strconv.parse_uint "Atoi" s0 0 (String d ds')
                           = Ok (decimal_value 0 (String d ds'))).
    { intros s0 Hmax. apply parse_uint_Ok;
        [unfold Strconv.maxUint64; lia|done]. }
    pose proof Hall as Hall'. cbn [Bytes.forallb] in Hall'.
    apply andb_true_iff in Hall' as [Hd _].
    destruct (digit_not_sign d Hd) as [Hm Hp].
    destruct Hsign as [->|[->| ->]].
    + rewrite str_app_nil_l. rewrite Hm, Hp. cbn [orb].
      cbn [String.eqb] in Hrange.
      rewrite Hparse
        by (unfold Strconv.maxInt64, Strconv.maxUint64 in *; lia).
      by destruct (Z.ltb_spec Strconv.maxInt64
                     (decimal_value 0 (String d ds'))); [lia|].
    + change ("+" +:+ String d ds') with (String "+" (String d ds')).
      change (Ascii.eqb "+" "-") with false.
      change (Ascii.eqb "+" "+") with true. cbn [orb].
      cbv [String.eqb Ascii.eqb Bool.eqb] in Hrange.
      rewrite Hparse
        by (unfold Strconv.maxInt64, Strconv.maxUint64 in *; lia).
      by destruct (Z.ltb_spec Strconv.maxInt64
                     (decimal_value 0 (String d ds'))); [lia|].
    + change ("-" +:+ String d ds') with (String "-" (String d ds')).
      change (Ascii.eqb "-" "-") with true. cbn [orb].
      cbv [String.eqb Ascii.eqb Bool.eqb] in Hrange.
      rewrite Hparse
        by (unfold Strconv.minInt64, Strconv.maxUint64 in *; lia).
      by destruct (Z.ltb_spec (- Strconv.minInt64)
                     (decimal_value 0 (String d ds'))); [lia|].
Qed.

End NumericIds.

(** ** The staging filter *)

Section Segments.

Lemma Split_nonempty (s : string) : Strings.Split "/" s ≠ [].
Proof.
  destruct s as [|c s]; [done|]. simpl.
  destruct (Ascii.eqb c "/"); [done|].
  by destruct (Strings.Split "/" s).
Qed.

Lemma Split_segment (s : string) :
  segment s = true → Strings.Split "/" s = [s].
Proof.
  unfold segment. induction s as [|c s IH]; [done|].
  cbn [Bytes.forallb]. intros [Hc Hs]%andb_true_iff.
  apply negb_true_iff in Hc. change Filepath.Separator with "/"%char in Hc.
  cbn [Strings.Split]. rewrite Hc, (IH Hs). done.
Qed.

Lemma Split_segment_sep (s t : string) :
  segment s = true →
  Strings.Split "/" (s +:+ String "/" t) = s :: Strings.Split "/" t.
Proof.
  unfold segment. induction s as [|c s IH].
  - intros _. rewrite str_app_nil_l. reflexivity.
  - cbn [Bytes.forallb]. intros [Hc Hs]%andb_true_iff.
    apply negb_true_iff in Hc. change Filepath.Separator with "/"%char in Hc.
    rewrite str_app_cons. cbn [Strings.Split]. rewrite Hc, (IH Hs). done.
Qed.

(** The first element of a split is a segment, and the string is that
    segment alone or that segment, a separator and the rest. *)
Lemma Split_inv (s p : string) (rest : list string) :
  Strings.Split "/" s = p :: rest →
  segment p = true
  ∧ ((rest = [] ∧ s = p)
     ∨ (∃ t, s = p +:+ String "/" t ∧ Strings.Split "/" t = rest)).
Proof.
  revert p rest. induction s as [|c s IH]; intros p rest.
  - cbn [Strings.Split]. intros [= <- <-]. split; [done|]. by left.
  - cbn [Strings.Split]. destruct (Ascii.eqb_spec c "/") as [->|Hc].
    + intros [= <- <-]. split; [done|]. right. by exists s.
    + destruct (Strings.Split "/" s) as [|h t] eqn:Hs;
        [by destruct (Split_nonempty s)|].
      intros [= <- <-].
      destruct (IH h t eq_refl) as (Hseg & Hcase). split.
      * unfold segment in *. cbn [Bytes.forallb]. rewrite Hseg.
        apply Ascii.eqb_neq in Hc. change Filepath.Separator with "/"%char.
        by rewrite Hc.
      * destruct Hcase as [(-> & ->)|(u & -> & Hu)]; [by left|].
        right. exists u. by rewrite str_app_cons.
Qed.

End Segments.

Section AddClaims.

Variable filepath_Rel : string → string → outcome string.

(** The test [isAssetPath] makes, on the relative path. *)
Lemma isAssetPath_relative (repoPath filePath : string) :
  cmd.isAssetPath filepath_Rel repoPath filePath = true ↔
  ∃ rel, filepath_Rel repoPath filePath = Ok rel ∧ asset_relative rel.
Proof.
  unfold cmd.isAssetPath. split.
  - destruct (filepath_Rel repoPath filePath) as [rel| |]; [|done..].
    destruct (Strings.Split Filepath.Separator rel) as [|p0 [|p1 rest]]
      eqn:Hsplit; [done..|].
    cbn [length Nat.ltb Nat.leb nth].
    destruct (String.eqb_spec p0 "assets") as [->|]; [|done].
    cbn [negb]. intros Hatoi. exists rel. split; [done|].
    destruct (Split_inv rel _ _ Hsplit) as (_ & [(? & _)|(t & -> & Ht)]);
      [done|].
    destruct (Split_inv t _ _ Ht) as (Hseg & Htail).
    assert (Hok : numeric_id p1)
      by (apply Atoi_numeric; by destruct (Strconv.Atoi p1)).
    destruct Htail as [(_ & ->)|(u & -> & _)].
    + exists p1, "". rewrite str_app_nil_r. repeat split; auto.
    + exists p1, (String "/" u). repeat split; eauto.
  - intros (rel & -> & id & tail & -> & Hseg & Htail & Hatoi).
    apply Atoi_numeric in Hatoi.
    change ("assets/" +:+ id +:+ tail)
      with ("assets" +:+ String "/" (id +:+ tail)).
    change Filepath.Separator with "/"%char.
    rewrite Split_segment_sep by done.
    destruct Htail as [->|(t & ->)].
    + rewrite str_app_nil_r, Split_segment by done.
      cbn [length Nat.ltb Nat.leb nth String.eqb negb].
      by destruct (Strconv.Atoi id).
    + rewrite Split_segment_sep by done.
      cbn [length Nat.ltb Nat.leb nth]. 
      change (String.eqb "assets" "assets") with true. cbn [negb].
      by destruct (Strconv.Atoi id).
Qed.

End AddClaims.

Section AddFilter.

Variable filepath_Rel : string → string → outcome string.

Lemma with_output_app (l1 l2 : list string) (w : world) :
  with_output l2 (with_output l1 w) = with_output (l1 ++ l2) w.
Proof. unfold with_output. cbn. by rewrite <- app_assoc. Qed.

Lemma with_output_nil (w : world) : with_output [] w = w.
Proof. destruct w. unfold with_output. cbn. by rewrite app_nil_r. Qed.

(** The loop over the matches of a pattern: it never fails, keeps the
    accepted paths in order and prints one line per skipped path. *)
Lemma filter_matches_run (r : Repository) (matches allPaths : list string)
    (w : world) :
  let accepted m := cmd.isAssetPath filepath_Rel (Path r) (abs_path w m) in
  cmd.filter_matches filepath_Rel r matches allPaths w =
  (Ok (allPaths ++ List.filter accepted matches),
   with_output
     (map skip_line (List.filter (λ m, negb (accepted m)) matches)) w).
Proof.
  cbn zeta. revert allPaths w.
  induction matches as [|m rest IH]; intros allPaths w.
  - cbn [cmd.filter_matches List.filter map].
    by rewrite app_nil_r, with_output_nil.
  - cbn [cmd.filter_matches List.filter]. run_m.
    unfold filepath_Abs. fold (abs_path w m).
    destruct (cmd.isAssetPath filepath_Rel (Path r) (abs_path w m)).
    + cbn [negb]. rewrite IH. by rewrite <- app_assoc.
    + cbn [negb map]. unfold fmt_Printf. fold (skip_line m).
      change {| files := files w; cwd := cwd w; syscalls := syscalls w;
                stdout := stdout w ++ [skip_line m] |}
        with (with_output [skip_line m] w).
      rewrite IH. by rewrite with_output_app.
Qed.

(** C7 (non-asset paths): a candidate path is skipped exactly when its
    repository-relative path does not lie under [assets/] with a second
    segment that parses as a number; a skip is a line on standard
    output, the loop returns no error for it, and every other path is
    still examined and, if accepted, kept. *)
Theorem non_asset_paths_are_skipped (r : Repository)
    (matches allPaths : list string) (w : world) :
  let accepted m := cmd.isAssetPath filepath_Rel (Path r) (abs_path w m) in
  (∀ m, accepted m = false ↔
        ¬ ∃ rel, filepath_Rel (Path r) (abs_path w m) = Ok rel
                 ∧ asset_relative rel)
  ∧ cmd.filter_matches filepath_Rel r matches allPaths w =
    (Ok (allPaths ++ List.filter accepted matches),
     with_output
       (map skip_line (List.filter (λ m, negb (accepted m)) matches)) w).
Proof.
  cbn zeta. split; [|apply filter_matches_run].
  intros m. rewrite <- isAssetPath_relative.
  by destruct (cmd.isAssetPath filepath_Rel (Path r) (abs_path w m)).
Qed.

End AddFilter.

(** * Further properties of the code *)

(** ** Operations that only read *)

Section Untouched.

Lemma untouched_ret {A} (a : A) : disk_untouched (ret a).
Proof. by intros w. Qed.

Lemma untouched_mret {A} (a : A) : disk_untouched (mret a).
Proof. by intros w. Qed.

Lemma untouched_lift {A} (o : outcome A) : disk_untouched (lift o).
Proof. by intros w. Qed.

Lemma untouched_fail {A} (e : error) : disk_untouched (@fail A e).
Proof. by intros w. Qed.

Lemma untouched_bind {A B} (m : M A) (k : A → M B) :
  disk_untouched m → (∀ a, disk_untouched (k a)) → disk_untouched (m ≫= k).
Proof.
  intros Hm Hk w. destruct (Hm w) as [Hf Hs].
  unfold mbind, M_bind, bind.
  destruct (m w) as [[a|e|p] w1]; cbn [snd] in *; [|done..].
  destruct (Hk a w1) as [Hf' Hs']. by rewrite Hf', Hs'.
Qed.

Lemma untouched_wrap {A} (msg : string) (m : M A) :
  disk_untouched m → disk_untouched (wrap msg m).
Proof.
  intros Hm w. specialize (Hm w). unfold wrap.
  by destruct (m w) as [[a|e|p] w1].
Qed.

Lemma untouched_ReadFile (path : string) : disk_untouched (os_ReadFile path).
Proof. intros w. unfold os_ReadFile. by destruct (files w !! path). Qed.

Lemma untouched_Printf (text : string) : disk_untouched (fmt_Printf text).
Proof. by intros w. Qed.

Lemma untouched_Abs (path : string) : disk_untouched (filepath_Abs path).
Proof. by intros w. Qed.

End Untouched.

Ltac untouched :=
  repeat first
    [ apply untouched_bind; [|intros ?]
    | apply untouched_wrap
    | apply untouched_ret
    | apply untouched_mret
    | apply untouched_lift
    | apply untouched_fail
    | apply untouched_ReadFile
    | apply untouched_Printf
    | apply untouched_Abs
    | match goal with
      | |- disk_untouched (if ?b then _ else _) => destruct b
      | |- disk_untouched (match ?x with _ => _ end) => destruct x
      end ].

Section Readers.

Context `{JsonConfig}.

Lemma untouched_readObject (r : Repository) (h : string) :
  disk_untouched (repo.readObject r h).
Proof. unfold repo.readObject. untouched. Qed.

Lemma untouched_IsRepository (path : string) :
  disk_untouched (repo.IsRepository path).
Proof. intros w. by rewrite IsRepository_run. Qed.

Lemma untouched_OpenRepository (path : string) :
  disk_untouched (repo.OpenRepository path).
Proof.
  unfold repo.OpenRepository.
  apply untouched_bind; [apply untouched_IsRepository|intros b].
  unfold repo.LoadConfig. untouched.
Qed.

Lemma untouched_GetCurrentBranch (r : Repository) :
  disk_untouched (repo.GetCurrentBranch r).
Proof. unfold repo.GetCurrentBranch. untouched. Qed.

Lemma untouched_GetCurrentCommit (r : Repository) :
  disk_untouched (repo.GetCurrentCommit r).
Proof.
  unfold repo.GetCurrentCommit.
  apply untouched_bind; [apply untouched_GetCurrentBranch|intros b].
  untouched.
Qed.

Lemma untouched_runStatus (porcelain : bool) :
  disk_untouched (cmd.runStatus porcelain).
Proof.
  unfold cmd.runStatus.
  apply untouched_bind; [untouched|intros absPath].
  destruct (cmd.in_system_directory absPath); [untouched|].
  apply untouched_bind; [apply untouched_IsRepository|intros b].
  destruct (negb b); [untouched|].
  apply untouched_bind;
    [apply untouched_wrap, untouched_OpenRepository|intros r].
  apply untouched_bind;
    [apply untouched_wrap, untouched_GetCurrentBranch|intros branch].
  apply untouched_bind;
    [apply untouched_wrap, untouched_GetCurrentCommit|intros commit].
  untouched.
Qed.

(** X1: Reading never writes: whatever they return, [ReadObject],
    [IsRepository], [OpenRepository], [GetCurrentBranch],
    [GetCurrentCommit] and the status command leave every file as it was
    and issue no system call that changes the file system. *)
Theorem readers_leave_the_disk_untouched :
  (∀ r h, disk_untouched (repo.ReadObject r h))
  ∧ (∀ path, disk_untouched (repo.IsRepository path))
  ∧ (∀ path, disk_untouched (repo.OpenRepository path))
  ∧ (∀ r, disk_untouched (repo.GetCurrentBranch r))
  ∧ (∀ r, disk_untouched (repo.GetCurrentCommit r))
  ∧ (∀ porcelain, disk_untouched (cmd.runStatus porcelain)).
Proof.
  split; [intros; apply untouched_readObject|].
  split; [intros; apply untouched_IsRepository|].
  split; [intros; apply untouched_OpenRepository|].
  split; [intros; apply untouched_GetCurrentBranch|].
  split; [intros; apply untouched_GetCurrentCommit|].
  intros; apply untouched_runStatus.
Qed.

End Readers.

(** ** Objects that cannot be read *)

Section Unreadable.

Lemma null_index_from_none (i : Z) (data : string) :
  Bytes.forallb (λ c, negb (Bytes.to_Z c =? 0)) data = true →
  repo.null_index_from i data = -1.
Proof.
  revert i. induction data as [|c data IH]; intros i Hall; [done|].
  cbn [Bytes.forallb] in Hall. apply andb_true_iff in Hall as [Hc Hd].
  apply negb_true_iff in Hc. cbn [repo.null_index_from]. rewrite Hc. auto.
Qed.

(** X2: What [ReadObject] does with what it cannot read.  An object that is
    not in the store, a file without a zero byte and a header that holds
    a kind but no size are each reported as an error, the last as the
    [io.EOF] with which the scan of the size ends; the store is left as
    it was. *)
Theorem unreadable_objects_are_errors (r : Repository) (h : string)
    (w : world) :
  (2 ≤ String.length h)%nat →
  (files w !! object_file r h = None →
   repo.ReadObject r h w
   = (Err (ErrWrap "failed to open object"
             (ErrNotExist "open" (object_file r h))), w))
  ∧ (∀ data,
       files w !! object_file r h = Some data →
       Bytes.forallb (λ c, negb (Bytes.to_Z c =? 0)) data = true →
       repo.ReadObject r h w
       = (Err (ErrNew "invalid object format: no null separator found"), w))
  ∧ (∀ K P,
       files w !! object_file r h = Some (K +:+ String Bytes.NUL P) →
       kind_token K = true →
       repo.ReadObject r h w
       = (Err (ErrWrap "failed to parse object header" ErrEOF), w)).
Proof.
  intros Hh. unfold repo.ReadObject, repo.readObject. run_m.
  rewrite slice_to_ok, slice_from_ok by lia.
  unfold os_ReadFile. fold (object_file r h).
  split; [by intros ->|]. split.
  - intros data -> Hall. by rewrite null_index_from_none.
  - intros K P -> HK.
    destruct (kind_token_inv K HK) as (c & K' & HKeq & _ & Hall).
    rewrite null_index_from_app.
    2:{ eapply forallb_impl; [|exact Hall]. intros a Ha.
        destruct (graphic_facts a Ha) as (_ & _ & ->). done. }
    pose proof (len_nonneg K) as Hlen.
    destruct (Z.eqb_spec (0 + Bytes.len K) (-1)) as [|_]; [lia|].
    replace (Z.to_nat (0 + Bytes.len K)) with (String.length K)
      by (unfold Bytes.len; lia).
    rewrite slice_to_ok by (rewrite str_length_app; lia).
    rewrite str_take_app, Sscanf_kind_alone by done. reflexivity.
Qed.

End Unreadable.

(** ** What a write changes *)

Section WriteFrame.

Context {A : Type} `{JsonMarshal A}.

(** X3: [WriteObject] changes one file only, the one named by the hash it
    returns, and storing the same object again changes nothing. *)
Theorem write_changes_only_its_own_file (r : Repository) (K : string)
    (obj : A) (P : string) (w : world) :
  json_Marshal obj = Done P →
  let w1 := snd (repo.WriteObject r K obj w) in
  (∀ p, p ≠ object_file r (hash_of P) → files w1 !! p = files w !! p)
  ∧ files (snd (repo.WriteObject r K obj w1)) = files w1.
Proof.
  intros Hm. unfold repo.WriteObject.
  rewrite !(writeObject_run r K obj P _ Hm). cbn [snd]. split.
  - intros p Hp. unfold stored, written, sys. cbn [files sys_apply].
    by rewrite !lookup_insert_ne.
  - unfold stored, written, sys. cbn [files sys_apply].
    by rewrite !insert_insert_eq.
Qed.

(** X4: One payload has one file whatever its kind: storing it under a
    second kind replaces the header, and reading the hash back then gives
    the second kind. *)
Theorem second_kind_replaces_the_first (r : Repository) (K1 K2 : string)
    (obj : A) (P : string) (w : world) :
  kind_token K2 = true →
  json_Marshal obj = Done P →
  Bytes.len P ≤ Strconv.maxInt64 →
  let w1 := snd (repo.WriteObject r K1 obj w) in
  let w2 := snd (repo.WriteObject r K2 obj w1) in
  fst (repo.WriteObject r K1 obj w) = fst (repo.WriteObject r K2 obj w1)
  ∧ fst (repo.ReadObject r (hash_of P) w2) = Ok (K2, P).
Proof.
  intros HK Hm Hlen. unfold repo.WriteObject, repo.ReadObject.
  rewrite !(writeObject_run r _ obj P _ Hm). cbn [fst snd]. split; [done|].
  rewrite (readObject_stored r (hash_of P) K2 (Bytes.len P) P).
  - by rewrite Z.eqb_refl.
  - rewrite hash_of_length. lia.
  - apply lookup_insert_eq.
  - done.
  - pose proof (len_nonneg P). lia.
Qed.

End WriteFrame.

(** ** The shape of hashes and ids *)

Section HexShape.

Lemma hex_digit_is_hex (n : Z) :
  0 ≤ n < 16 → is_hex_digit (Hex.digit n) = true.
Proof.
  intros Hn. unfold is_hex_digit, Hex.digit.
  destruct (Z.ltb_spec n 10).
  - rewrite to_of_Z by lia. apply orb_true_iff. left.
    apply andb_true_iff. split; apply Z.leb_le; lia.
  - rewrite to_of_Z by lia. apply orb_true_iff. right.
    apply andb_true_iff. split; apply Z.leb_le; lia.
Qed.

Lemma EncodeToString_hex (s : string) :
  Bytes.forallb is_hex_digit (Hex.EncodeToString s) = true.
Proof.
  induction s as [|c s IH]; [done|].
  cbn [Hex.EncodeToString Bytes.forallb].
  pose proof (to_Z_bounds c) as Hc.
  rewrite !hex_digit_is_hex, IH; [done| |].
  - change 15 with (Z.ones 4). rewrite Z.land_ones by lia.
    apply Z.mod_pos_bound. lia.
  - rewrite Z.shiftr_div_pow2 by lia. change (2 ^ 4) with 16.
    split; [apply Z.div_pos; lia|apply Z.div_lt_upper_bound; lia].
Qed.

Lemma forallb_take (p : ascii → bool) (n : nat) (s : string) :
  Bytes.forallb p s = true → Bytes.forallb p (Bytes.take n s) = true.
Proof.
  revert s. induction n as [|n IH]; intros [|c s]; try done.
  cbn [Bytes.forallb Bytes.take]. intros [Hc Hs]%andb_true_iff.
  by rewrite Hc, IH.
Qed.

Lemma length_take (n : nat) (s : string) :
  (n ≤ String.length s)%nat → String.length (Bytes.take n s) = n.
Proof.
  revert s. induction n as [|n IH]; intros [|c s]; cbn; try lia.
  intros Hn. rewrite IH; lia.
Qed.

(** X5: Whatever is stored, the hash [WriteObject] returns is 64 lower-case
    hexadecimal digits, and whatever the clock shows, [GenerateID]
    returns 16 of them. *)
Theorem hashes_and_ids_are_hexadecimal :
  (∀ A (inst : JsonMarshal A) (r : Repository) K (obj : A) w h,
     fst (repo.WriteObject r K obj w) = Ok h → is_commit_hash h = true)
  ∧ (∀ now, ∃ id, repo.GenerateID now = Ok id
                  ∧ String.length id = 16%nat
                  ∧ Bytes.forallb is_hex_digit id = true).
Proof.
  split.
  - intros A inst r K obj w h. unfold repo.WriteObject.
    destruct (json_Marshal obj) as [P|e] eqn:Hm.
    + rewrite (writeObject_run r K obj P w Hm). intros [= <-].
      unfold is_commit_hash. rewrite hash_of_length.
      unfold hash_of. by rewrite EncodeToString_hex.
    + by rewrite (writeObject_marshal_error r K obj e w Hm).
  - intros now. unfold repo.GenerateID, repo.generateID.
    fold (hash_of (time_String now)).
    rewrite slice_to_ok by (rewrite hash_of_length; lia).
    eexists. split; [done|]. split.
    + apply length_take. rewrite hash_of_length. lia.
    + apply forallb_take. unfold hash_of. apply EncodeToString_hex.
Qed.

End HexShape.

(** ** HEAD, the branch and its commit *)

Section Branch.

Lemma head_offsets (skipped branch : string) :
  String.length skipped = 11%nat →
  (5 <? Bytes.len ("ref: " +:+ skipped +:+ branch)) = true
  ∧ Bytes.take 5 ("ref: " +:+ skipped +:+ branch) = "ref: "
  ∧ Bytes.slice_from ("ref: " +:+ skipped +:+ branch) 16 = Ok branch.
Proof.
  intros Hlen. split; [|split].
  - apply Z.ltb_lt. rewrite !len_app. unfold Bytes.len. rewrite Hlen.
    pose proof (len_nonneg branch). unfold Bytes.len in *. simpl. lia.
  - change 5%nat with (String.length "ref: "). apply str_take_app.
  - rewrite slice_from_ok by (rewrite !str_length_app, Hlen; simpl; lia).
    f_equal. rewrite <- str_app_assoc.
    replace 16%nat with (String.length ("ref: " +:+ skipped))
      by (rewrite str_length_app, Hlen; reflexivity).
    apply str_drop_app.
Qed.

(** X6: [GetCurrentBranch] tests the first five bytes of HEAD and returns
    what follows the first sixteen: the eleven bytes in between, which
    [Init] writes as [refs/heads/], are never looked at, and the branch
    may be empty.  A HEAD that does not begin with ["ref: "] is an
    error. *)
Theorem branch_is_read_from_offset_16 (r : Repository) (w : world)
    (head : string) :
  files w !! Filepath.Join [Path r; ".rdb"; "HEAD"] = Some head →
  (∀ skipped branch,
     head = "ref: " +:+ skipped +:+ branch →
     String.length skipped = 11%nat →
     repo.GetCurrentBranch r w = (Ok branch, w))
  ∧ (Bytes.take 5 head ≠ "ref: " →
     repo.GetCurrentBranch r w
     = (Err (ErrNew "HEAD is not pointing to a branch"), w)).
Proof.
  intros Hhead. rewrite (GetCurrentBranch_run r w head Hhead). split.
  - intros skipped branch -> Hlen.
    destruct (head_offsets skipped branch Hlen) as (-> & -> & ->).
    reflexivity.
  - intros Hne. apply String.eqb_neq in Hne. rewrite Hne.
    by rewrite andb_false_r.
Qed.

(** X7: [GetCurrentCommit] returns the bytes of the branch file as they
    are, hash or not; a branch without a file is an error. *)
Theorem current_commit_is_the_branch_file (r : Repository) (w : world)
    (skipped branch : string) :
  files w !! Filepath.Join [Path r; ".rdb"; "HEAD"]
  = Some ("ref: " +:+ skipped +:+ branch) →
  String.length skipped = 11%nat →
  repo.GetCurrentCommit r w
  = (match files w !! cmd.ref_path r branch with
     | Some tip => Ok tip
     | None => Err (ErrWrap "failed to read branch ref"
                      (ErrNotExist "open" (cmd.ref_path r branch)))
     end, w).
Proof.
  intros Hhead Hlen. unfold repo.GetCurrentCommit. run_m.
  rewrite (GetCurrentBranch_run r w _ Hhead).
  destruct (head_offsets skipped branch Hlen) as (-> & -> & ->).
  cbn [String.eqb Ascii.eqb Bool.eqb andb]. cbv iota.
  unfold os_ReadFile. fold (cmd.ref_path r branch).
  by destruct (files w !! cmd.ref_path r branch).
Qed.

End Branch.

(** ** Commands that refuse to run *)

Section Refusals.

Context `{JsonMarshal Tree} `{JsonMarshal Commit} `{JsonConfig}.

(** X8: On a branch that has no file yet, as after pointing HEAD at a new
    name, [commit --amend] fails before anything is written. *)
Theorem amend_needs_a_branch_file (flags : cmd.commitFlags)
    (t_id t_stamp : Time) (w : world) (r : Repository)
    (skipped branch : string) :
  cmd.amend flags = true →
  cmd.in_system_directory (repo_root w) = false →
  repo.OpenRepository (repo_root w) w = (Ok r, w) →
  files w !! Filepath.Join [Path r; ".rdb"; "HEAD"]
  = Some ("ref: " +:+ skipped +:+ branch) →
  String.length skipped = 11%nat →
  files w !! cmd.ref_path r branch = None →
  cmd.runCommit flags t_id t_stamp w
  = (Err (ErrWrap "failed to get current commit"
            (ErrWrap "failed to read branch ref"
               (ErrNotExist "open" (cmd.ref_path r branch)))), w).
Proof.
  intros Hamend Hsys Hopen Hhead Hlen Hnone.
  destruct (OpenRepository_cases (repo_root w) w)
    as [(r' & Hopen' & Hpath & Hisrepo)|(e & He)]; [|congruence].
  unfold cmd.runCommit. run_m.
  rewrite filepath_Abs_dot, Hsys, Hisrepo. cbn [negb]. rewrite Hopen.
  rewrite (GetCurrentBranch_run r w _ Hhead).
  destruct (head_offsets skipped branch Hlen) as (Hlt & Htake & Hslice).
  rewrite Hlt, Htake, Hslice.
  cbn [String.eqb Ascii.eqb Bool.eqb andb]. cbv iota.
  rewrite Hamend. unfold repo.GetCurrentCommit. run_m.
  rewrite (GetCurrentBranch_run r w _ Hhead), Hlt, Htake, Hslice.
  cbn [String.eqb Ascii.eqb Bool.eqb andb]. cbv iota.
  unfold os_ReadFile. fold (cmd.ref_path r branch). by rewrite Hnone.
Qed.

End Refusals.

Section Outside.

Context `{JsonConfig}.
Context `{JsonMarshal Tree} `{JsonMarshal Commit}.

Variable filepath_Rel : string → string → outcome string.
Variable filepath_Glob : string → M (list string).
Variable addPath : Repository → string → cmd.addFlags → M unit.

(** X9: In a directory without [.rdb/config.json] the commands commit,
    status and add report that there is no repository and leave files
    and output as they were. *)
Theorem commands_need_a_repository (w : world) :
  cmd.in_system_directory (repo_root w) = false →
  files w !! Filepath.Join
    [Filepath.Join [repo_root w; ".rdb"]; "config.json"] = None →
  let refusal :=
    Err (ErrNew ("not an RDB repository: " +:+ repo_root w)) in
  (∀ flags t_id t_stamp,
     cmd.runCommit flags t_id t_stamp w = (refusal, w))
  ∧ (∀ porcelain, cmd.runStatus porcelain w = (refusal, w))
  ∧ (∀ flags arg args,
       cmd.runAdd filepath_Rel filepath_Glob addPath flags (arg :: args) w
       = (refusal, w)).
Proof.
  intros Hsys Hnone refusal.
  assert (Hisrepo : repo.IsRepository (repo_root w) w = (Ok false, w)).
  { rewrite IsRepository_run, Hnone. reflexivity. }
  split; [|split]; intros.
  - unfold cmd.runCommit. run_m.
    by rewrite filepath_Abs_dot, Hsys, Hisrepo.
  - unfold cmd.runStatus. run_m.
    by rewrite filepath_Abs_dot, Hsys, Hisrepo.
  - unfold cmd.runAdd. run_m.
    by rewrite filepath_Abs_dot, Hsys, Hisrepo.
Qed.

End Outside.

(** ** Paths *)

Section Paths.

Lemma Clean_render (p : string) :
  Filepath.Clean p = render (Filepath.rooted p) (clean_elems p).
Proof. reflexivity. Qed.

Lemma Split_app_sep (a b : string) :
  Strings.Split "/" (a +:+ String "/" b)
  = Strings.Split "/" a ++ Strings.Split "/" b.
Proof.
  induction a as [|c a IH]; [done|].
  rewrite str_app_cons. cbn [Strings.Split]. rewrite IH.
  destruct (Ascii.eqb c "/"); [done|].
  destruct (Strings.Split "/" a) as [|h t] eqn:Ha;
    [by destruct (Split_nonempty a)|done].
Qed.

Lemma Split_segments (s : string) :
  Forall (λ e, segment e = true) (Strings.Split "/" s).
Proof.
  induction s as [|c s IH]; [by repeat constructor|].
  cbn [Strings.Split]. destruct (Ascii.eqb c "/") eqn:Hc;
    [by constructor|].
  destruct (Strings.Split "/" s) as [|h t] eqn:Hs;
    [by destruct (Split_nonempty s)|].
  inversion IH as [|? ? Hh Ht]; subst. constructor; [|done].
  unfold segment in *. cbn [Bytes.forallb].
  change Filepath.Separator with "/"%char in *. by rewrite Hc, Hh.
Qed.

Lemma Split_Join (elems : list string) :
  elems ≠ [] →
  Strings.Split "/" (Strings.Join elems "/") = elements elems.
Proof.
  unfold elements. change Filepath.Separator with "/"%char.
  induction elems as [|e [|e' rest] IH]; [done| |]; intros _.
  - cbn [Strings.Join map concat]. by rewrite app_nil_r.
  - change (Strings.Join (e :: e' :: rest) "/")
      with (e +:+ String "/" (Strings.Join (e' :: rest) "/")).
    rewrite Split_app_sep, IH by done. reflexivity.
Qed.

Lemma name_facts (s : string) :
  name s = true →
  segment s = true ∧ s ≠ "" ∧ s ≠ "." ∧ s ≠ "..".
Proof.
  unfold name. intros [[[Hseg H1]%andb_true_iff H2]%andb_true_iff H3]%andb_true_iff.
  apply negb_true_iff, String.eqb_neq in H1, H2, H3. done.
Qed.

Lemma clean_step_name (root : bool) (out : list string) (s : string) :
  name s = true → Filepath.clean_step root out s = s :: out.
Proof.
  intros (_ & H1 & H2 & H3)%name_facts. unfold Filepath.clean_step.
  apply String.eqb_neq in H1, H2, H3. by rewrite H1, H2, H3.
Qed.

Lemma fold_names (root : bool) (names out : list string) :
  Forall (λ s, name s = true) names →
  fold_left (Filepath.clean_step root) names out = rev names ++ out.
Proof.
  revert out. induction names as [|s names IH]; intros out Hall; [done|].
  inversion Hall; subst. cbn [fold_left rev].
  rewrite clean_step_name, IH by done. by rewrite <- app_assoc.
Qed.

Lemma canonical_nil (root : bool) : canonical root [].
Proof. exists [], 0%nat. by repeat split. Qed.

Lemma canonical_step (root : bool) (out : list string) (s : string) :
  segment s = true → canonical root out →
  canonical root (Filepath.clean_step root out s).
Proof.
  intros Hseg (names & k & -> & Hnames & Hroot).
  unfold Filepath.clean_step.
  destruct (String.eqb_spec s "") as [->|H1]; [by exists names, k|].
  destruct (String.eqb_spec s ".") as [->|H2]; [by exists names, k|].
  cbn [orb]. destruct (String.eqb_spec s "..") as [->|H3].
  - destruct names as [|n names].
    + destruct k as [|k].
      * cbn [app repeat]. destruct root.
        -- exists [], 0%nat. by repeat split.
        -- exists [], 1%nat. by repeat split.
      * cbn [app repeat]. cbn [String.eqb Ascii.eqb Bool.eqb].
        exists [], (S (S k)). repeat split; [done|].
        intros Hr. by specialize (Hroot Hr).
    + inversion Hnames as [|? ? Hn Hrest]; subst.
      destruct (name_facts n Hn) as (_ & _ & _ & Hdd).
      apply String.eqb_neq in Hdd. cbn [app]. rewrite Hdd.
      by exists names, k.
  - exists (s :: names), k. repeat split; [|done].
    constructor; [|done]. unfold name. rewrite Hseg.
    apply String.eqb_neq in H1, H2, H3. by rewrite H1, H2, H3.
Qed.

Lemma canonical_fold (root : bool) (segs out : list string) :
  Forall (λ e, segment e = true) segs → canonical root out →
  canonical root (fold_left (Filepath.clean_step root) segs out).
Proof.
  revert out. induction segs as [|s segs IH]; intros out Hall Hc; [done|].
  inversion Hall; subst. cbn [fold_left].
  apply IH; [done|]. by apply canonical_step.
Qed.

Lemma canonical_clean_elems (p : string) :
  canonical (Filepath.rooted p) (clean_elems p).
Proof.
  apply canonical_fold; [apply Split_segments|apply canonical_nil].
Qed.

Lemma canonical_names (root : bool) (names out : list string) :
  Forall (λ s, name s = true) names → canonical root out →
  canonical root (names ++ out).
Proof.
  intros Hall (ns & k & -> & Hns & Hroot).
  exists (names ++ ns), k. rewrite app_assoc. repeat split; [|done].
  by apply Forall_app.
Qed.

Lemma fold_dotdots (k j : nat) :
  fold_left (Filepath.clean_step false) (repeat ".." k) (repeat ".." j)
  = repeat ".." (k + j).
Proof.
  revert j. induction k as [|k IH]; intros j; [done|].
  cbn [repeat fold_left].
  replace (Filepath.clean_step false (repeat ".." j) "..")
    with (repeat ".." (S j)) by (by destruct j).
  rewrite IH. f_equal. lia.
Qed.

Lemma rev_repeat (s : string) (k : nat) : rev (repeat s k) = repeat s k.
Proof.
  induction k as [|k IH]; [done|]. cbn [repeat rev]. rewrite IH.
  clear IH. induction k as [|k IH]; [done|]. cbn [repeat app]. by rewrite IH.
Qed.

(** Cleaning the kept elements again changes nothing. *)
Lemma refold (root : bool) (out : list string) :
  canonical root out →
  fold_left (Filepath.clean_step root) (rev out) [] = out.
Proof.
  intros (names & k & -> & Hnames & Hroot).
  rewrite rev_app_distr, rev_repeat, fold_left_app.
  assert (fold_left (Filepath.clean_step root) (repeat ".." k) []
          = repeat ".." k) as ->.
  { destruct root.
    - by rewrite (Hroot eq_refl).
    - change (@nil string) with (repeat ".." 0) at 1.
      rewrite fold_dotdots. f_equal. lia. }
  rewrite fold_names by (by apply Forall_rev).
  by rewrite rev_involutive.
Qed.

Lemma canonical_elements (root : bool) (out : list string) :
  canonical root out →
  Forall (λ e, segment e = true ∧ e ≠ "") out.
Proof.
  intros (names & k & -> & Hnames & _). apply Forall_app. split.
  - eapply Forall_impl; [exact Hnames|]. intros s Hs.
    by destruct (name_facts s Hs) as (? & ? & _).
  - clear. induction k as [|k IH]; constructor; [by split|done].
Qed.

Lemma elements_segments (segs : list string) :
  Forall (λ e, segment e = true) segs → elements segs = segs.
Proof.
  unfold elements. change Filepath.Separator with "/"%char.
  induction 1 as [|s segs Hs _ IH]; [done|].
  cbn [map concat]. by rewrite Split_segment, IH.
Qed.

Lemma Join_nonempty (e : string) (rest : list string) (sep : string) :
  e ≠ "" → Strings.Join (e :: rest) sep ≠ "".
Proof.
  intros He. destruct rest as [|e' rest]; [done|].
  cbn [Strings.Join]. destruct e; [done|]. by rewrite str_app_cons.
Qed.

Lemma rooted_Join (e : string) (rest : list string) :
  segment e = true → e ≠ "" →
  Filepath.rooted (Strings.Join (e :: rest) "/") = false.
Proof.
  intros Hseg He. destruct e as [|c e]; [done|].
  unfold segment in Hseg. cbn [Bytes.forallb] in Hseg.
  apply andb_true_iff in Hseg as [Hc%negb_true_iff _].
  destruct rest as [|e' rest]; cbn [Strings.Join];
    rewrite ?str_app_cons; exact Hc.
Qed.

Lemma render_nonempty (root : bool) (out : list string) :
  render root out ≠ "".
Proof.
  unfold render. cbn zeta.
  match goal with |- context [String.eqb ?r ""] =>
    by destruct (String.eqb_spec r "") end.
Qed.

(** What [Clean] returns splits into the elements it kept. *)
Lemma render_elems (root : bool) (out : list string) :
  canonical root out →
  Filepath.rooted (render root out) = root
  ∧ fold_left (Filepath.clean_step root)
              (Strings.Split "/" (render root out)) [] = out.
Proof.
  intros Hc. pose proof (canonical_elements root out Hc) as Hel.
  pose proof (refold root out Hc) as Hre.
  apply Forall_rev in Hel. unfold render. cbn zeta.
  destruct (rev out) as [|e rest] eqn:Hrev.
  - apply (f_equal (@rev string)) in Hrev.
    rewrite rev_involutive in Hrev. subst out. by destruct root.
  - apply Forall_cons in Hel as [[Hseg He] Hrest].
    assert (Hsplit : Strings.Split "/" (Strings.Join (e :: rest) "/")
                     = e :: rest).
    { rewrite Split_Join by done. apply elements_segments.
      constructor; [done|].
      eapply Forall_impl; [exact Hrest|]. by intros ? [? _]. }
    destruct root.
    + change (String.eqb (String Filepath.Separator _) "") with false.
      cbv iota. split; [done|].
      change Filepath.Separator with "/"%char.
      cbn [Strings.Split Ascii.eqb Bool.eqb]. cbv iota.
      rewrite Hsplit. exact Hre.
    + pose proof (Join_nonempty e rest "/" He) as Hne.
      apply String.eqb_neq in Hne. rewrite Hne.
      split; [by apply rooted_Join|]. rewrite Hsplit. exact Hre.
Qed.

Lemma render_inj (root : bool) (o1 o2 : list string) :
  canonical root o1 → canonical root o2 →
  render root o1 = render root o2 → o1 = o2.
Proof.
  intros H1 H2 Heq.
  rewrite <- (proj2 (render_elems root o1 H1)),
          <- (proj2 (render_elems root o2 H2)).
  by rewrite Heq.
Qed.

Lemma Clean_nonempty (p : string) : Filepath.Clean p ≠ "".
Proof. rewrite Clean_render. apply render_nonempty. Qed.

Lemma rooted_app (x y : string) :
  x ≠ "" → Filepath.rooted (x +:+ y) = Filepath.rooted x.
Proof. by destruct x. Qed.

Lemma clean_elems_app (x c : string) :
  x ≠ "" →
  clean_elems (x +:+ String "/" c)
  = fold_left (Filepath.clean_step (Filepath.rooted x))
              (Strings.Split "/" c) (clean_elems x).
Proof.
  intros Hx. unfold clean_elems. change Filepath.Separator with "/"%char.
  by rewrite rooted_app, Split_app_sep, fold_left_app.
Qed.

(** A cleaned path can stand for the path itself in front of more
    elements. *)
Lemma Clean_Clean_app (x c : string) :
  x ≠ "" →
  Filepath.Clean (Filepath.Clean x +:+ String "/" c)
  = Filepath.Clean (x +:+ String "/" c).
Proof.
  intros Hx. pose proof (canonical_clean_elems x) as Hc.
  destruct (render_elems _ _ Hc) as [Hroot Hel].
  rewrite (Clean_render (_ +:+ _)), (Clean_render (x +:+ _)).
  rewrite !clean_elems_app, !rooted_app by (done || apply Clean_nonempty).
  rewrite (Clean_render x), Hroot.
  unfold clean_elems at 1. change Filepath.Separator with "/"%char.
  rewrite Hroot, Hel. reflexivity.
Qed.

Lemma Clean_idempotent (x : string) :
  Filepath.Clean (Filepath.Clean x) = Filepath.Clean x.
Proof.
  pose proof (canonical_clean_elems x) as Hc.
  destruct (render_elems _ _ Hc) as [Hroot Hel].
  rewrite (Clean_render x). set (q := render _ _) in *.
  rewrite (Clean_render q). unfold clean_elems.
  change Filepath.Separator with "/"%char. by rewrite Hroot, Hel.
Qed.

Lemma Join_cons (e : string) (rest : list string) :
  e ≠ "" →
  Filepath.Join (e :: rest) = Filepath.Clean (Strings.Join (e :: rest) "/").
Proof.
  intros He. cbn [Filepath.Join]. apply String.eqb_neq in He.
  by rewrite He.
Qed.

Lemma Join_skip (rest : list string) :
  Filepath.Join ("" :: rest) = Filepath.Join rest.
Proof. reflexivity. Qed.

(** Joining in two steps gives the path that joining at once gives. *)
Lemma Join_nested (a b : string) (rest : list string) :
  Filepath.Join (Filepath.Join [a; b] :: rest) = Filepath.Join (a :: b :: rest).
Proof.
  assert (Hstep : ∀ x, x ≠ "" →
            Filepath.Join (Filepath.Clean x :: rest)
            = Filepath.Clean (Strings.Join (x :: rest) "/")).
  { intros x Hx. rewrite Join_cons by apply Clean_nonempty.
    destruct rest as [|e rest]; [apply Clean_idempotent|].
    change (Strings.Join (?y :: e :: rest) "/")
      with (y +:+ String "/" (Strings.Join (e :: rest) "/")).
    by apply Clean_Clean_app. }
  destruct (String.eqb_spec a "") as [->|Ha].
  - rewrite !Join_skip. destruct (String.eqb_spec b "") as [->|Hb]; [done|].
    rewrite (Join_cons b []), (Join_cons b rest) by done.
    change (Strings.Join [b] "/") with b. by apply Hstep.
  - rewrite (Join_cons a [b]), (Join_cons a (b :: rest)) by done.
    rewrite Hstep by (by apply Join_nonempty).
    f_equal. destruct rest as [|e rest]; [done|].
    change (Strings.Join [a; b] "/") with (a +:+ String "/" b).
    change (Strings.Join (?y :: e :: rest) "/")
      with (y +:+ String "/" (Strings.Join (e :: rest) "/")).
    change (Strings.Join (b :: e :: rest) "/")
      with (b +:+ String "/" (Strings.Join (e :: rest) "/")).
    by rewrite str_app_assoc.
Qed.

Lemma rooted_Split (s : string) :
  Filepath.rooted s = true → ∃ t, Strings.Split "/" s = "" :: t.
Proof.
  destruct s as [|c s]; [done|]. cbn [Filepath.rooted Strings.Split].
  change Filepath.Separator with "/"%char. intros ->. eauto.
Qed.

(** The path of names under a directory. *)
Lemma Join_under (p : string) (elems : list string) :
  elems ≠ [] → Forall (λ s, name s = true) (elements elems) →
  Filepath.Join (p :: elems)
  = render (Filepath.rooted p) (rev (elements elems) ++ clean_elems p).
Proof.
  intros Hne Hall. destruct (String.eqb_spec p "") as [->|Hp].
  - rewrite Join_skip. destruct elems as [|e elems]; [done|].
    assert (He : e ≠ "").
    { intros ->. unfold elements in Hall.
      apply Forall_cons in Hall as [Hall _]. done. }
    rewrite Join_cons, Clean_render by done.
    set (J := Strings.Join (e :: elems) "/").
    assert (HJ : Strings.Split "/" J = elements (e :: elems))
      by (by apply Split_Join).
    assert (Hroot : Filepath.rooted J = false).
    { destruct (Filepath.rooted J) eqn:Hr; [|done].
      destruct (rooted_Split J Hr) as (t & Ht).
      rewrite Ht in HJ. rewrite <- HJ in Hall.
      by apply Forall_cons in Hall as [Hall _]. }
    unfold clean_elems. change Filepath.Separator with "/"%char.
    rewrite Hroot, HJ, fold_names by done. reflexivity.
  - rewrite Join_cons, Clean_render by done.
    destruct elems as [|e elems]; [done|].
    change (Strings.Join (p :: e :: elems) "/")
      with (p +:+ String "/" (Strings.Join (e :: elems) "/")).
    rewrite rooted_app, clean_elems_app by done.
    by rewrite Split_Join, fold_names.
Qed.

Lemma Join_under_inj (p : string) (e1 e2 : list string) :
  e1 ≠ [] → e2 ≠ [] →
  Forall (λ s, name s = true) (elements e1) →
  Forall (λ s, name s = true) (elements e2) →
  Filepath.Join (p :: e1) = Filepath.Join (p :: e2) →
  elements e1 = elements e2.
Proof.
  intros Hn1 Hn2 H1 H2. rewrite !Join_under by done. intros Heq.
  apply render_inj in Heq.
  - apply app_inv_tail in Heq.
    by rewrite <- (rev_involutive (elements e1)), Heq, rev_involutive.
  - apply canonical_names; [by apply Forall_rev|apply canonical_clean_elems].
  - apply canonical_names; [by apply Forall_rev|apply canonical_clean_elems].
Qed.

End Paths.

(** ** Initialising a repository *)

Section InitRuns.

Context `{JsonMarshal Tree} `{JsonMarshal Commit} `{JsonConfig}.

Lemma for_each_MkdirAll {A} (msg dir : A → string) (xs : list A)
    (w : world) :
  repo.for_each (λ x, wrap (msg x) (os_MkdirAll (dir x))) xs w
  = (Ok tt, made (map dir xs) w).
Proof.
  revert w. induction xs as [|x xs IH]; intros w; [done|].
  cbn [repo.for_each map]. run_m. unfold os_MkdirAll.
  rewrite IH. reflexivity.
Qed.

Lemma stored_path (r1 r2 : Repository) (K data : string) (w : world) :
  Path r1 = Path r2 → stored r1 K data w = stored r2 K data w.
Proof.
  intros Hp. unfold stored, object_file, repo.object_path. by rewrite Hp.
Qed.

Lemma made_cons (d : string) (dirs : list string) (w : world) :
  made (d :: dirs) w = made dirs (sys (SysMkdirAll d) w).
Proof. reflexivity. Qed.

(** What [Init] does when its three texts marshal. *)
Lemma Init_run (r : Repository) (layout : string) (types : list string)
    (t_id t_stamp : Time) (cfgJ treeJ commitJ : string) (w : world) :
  json_MarshalIndent_Config (initial_config layout types) = Done cfgJ →
  json_Marshal {| Entries := [] |} = Done treeJ →
  json_Marshal (initial_commit t_id t_stamp (hash_of treeJ)) = Done commitJ →
  repo.Init r layout types t_id t_stamp w
  = (Ok {| Path := Path r; Repo_Config := initial_config layout types |},
     initialised (Path r) cfgJ treeJ commitJ w).
Proof.
  intros Hcfg Htree Hcommit. unfold repo.Init. run_m.
  rewrite (for_each_MkdirAll
             (λ dir, "failed to create directory " +:+ dir) id), map_id.
  fold (rdb_dirs (Path r)).
  unfold repo.SaveConfig. run_m. cbn [Path Repo_Config].
  fold (initial_config layout types). rewrite Hcfg. cbn [of_result].
  unfold os_WriteFile. fold (config_file (Path r)).
  unfold os_MkdirAll.
  rewrite (for_each_MkdirAll
             (λ assetID, "failed to create asset directory "
                         +:+ Strconv.Itoa assetID) (asset_dir (Path r))).
  unfold repo.createInitialCommit. run_m.
  rewrite (writeObject_run _ "tree" _ treeJ _ Htree).
  unfold repo.generateID. fold (hash_of (time_String t_id)).
  rewrite slice_to_ok by (rewrite hash_of_length; lia).
  fold (initial_commit t_id t_stamp (hash_of treeJ)).
  rewrite (writeObject_run _ "commit" _ commitJ _ Hcommit).
  unfold os_WriteFile. cbv beta iota.
  unfold initialised, asset_dirs, cmd.ref_path. cbv zeta.
  rewrite made_cons.
  rewrite !(stored_path (repo.NewRepository (Path r))
              {| Path := Path r;
                 Repo_Config := initial_config layout types |})
    by reflexivity.
  unfold written. f_equal.
Qed.

End InitRuns.

(** ** The files of a repository *)

Section Layout.

Lemma forallb_drop (p : ascii → bool) (n : nat) (s : string) :
  Bytes.forallb p s = true → Bytes.forallb p (Bytes.drop n s) = true.
Proof.
  revert s. induction n as [|n IH]; intros [|c s]; try done.
  cbn [Bytes.forallb Bytes.drop]. intros [_ Hs]%andb_true_iff. by apply IH.
Qed.

Lemma hex_name (s : string) :
  s ≠ "" → Bytes.forallb is_hex_digit s = true → name s = true.
Proof.
  intros Hne Hhex.
  assert (Hc : ∀ c, is_hex_digit c = true →
                    negb (Ascii.eqb c "/") = true ∧ c ≠ "."%char).
  { intros c Hd. split.
    - apply negb_true_iff, Ascii.eqb_neq. intros ->. by vm_compute in Hd.
    - intros ->. by vm_compute in Hd. }
  unfold name. apply andb_true_iff. split; [apply andb_true_iff; split|];
    [apply andb_true_iff; split|..].
  - unfold segment. eapply forallb_impl; [|exact Hhex].
    intros c Hd. by destruct (Hc c Hd).
  - by apply negb_true_iff, String.eqb_neq.
  - apply negb_true_iff, String.eqb_neq. intros ->.
    cbn [Bytes.forallb] in Hhex. apply andb_true_iff in Hhex as [Hd _].
    by destruct (Hc _ Hd).
  - apply negb_true_iff, String.eqb_neq. intros ->.
    cbn [Bytes.forallb] in Hhex. apply andb_true_iff in Hhex as [Hd _].
    by destruct (Hc _ Hd).
Qed.

Lemma hash_names (h : string) :
  is_commit_hash h = true →
  name (Bytes.take 2 h) = true ∧ name (Bytes.drop 2 h) = true.
Proof.
  unfold is_commit_hash. intros [Hlen%Nat.eqb_eq Hhex]%andb_true_iff.
  split; apply hex_name.
  - intros Heq. apply (f_equal String.length) in Heq.
    rewrite length_take in Heq by lia. done.
  - by apply forallb_take.
  - intros Heq. apply (f_equal String.length) in Heq.
    rewrite length_drop, Hlen in Heq. done.
  - by apply forallb_drop.
Qed.

Lemma hash_of_is_hash (data : string) : is_commit_hash (hash_of data) = true.
Proof.
  unfold is_commit_hash. rewrite hash_of_length.
  unfold hash_of. by rewrite EncodeToString_hex.
Qed.

Lemma elements_cons (s : string) (l : list string) :
  segment s = true → elements (s :: l) = s :: elements l.
Proof.
  intros Hs. unfold elements. cbn [map concat].
  change Filepath.Separator with "/"%char. by rewrite Split_segment.
Qed.

Lemma elements_name (s : string) (l : list string) :
  name s = true → elements (s :: l) = s :: elements l.
Proof. intros (Hs & _)%name_facts. by apply elements_cons. Qed.

(** The elements of the four kinds of file under [.rdb]. *)
Lemma object_elements (a b : string) :
  name a = true → name b = true →
  elements [".rdb"; "objects"; a; b] = [".rdb"; "objects"; a; b]
  ∧ Forall (λ s, name s = true) (elements [".rdb"; "objects"; a; b]).
Proof.
  intros Ha Hb.
  assert (Heq : elements [".rdb"; "objects"; a; b]
                = [".rdb"; "objects"; a; b]).
  { rewrite !elements_cons; try done; by apply name_facts. }
  split; [done|]. rewrite Heq. by repeat constructor.
Qed.

Lemma ref_elements (branch : string) :
  Forall (λ s, name s = true) (Strings.Split "/" branch) →
  elements [".rdb"; "refs"; "heads"; branch]
  = ".rdb" :: "refs" :: "heads" :: Strings.Split "/" branch
  ∧ Forall (λ s, name s = true) (elements [".rdb"; "refs"; "heads"; branch]).
Proof.
  intros Hb.
  assert (Heq : elements [".rdb"; "refs"; "heads"; branch]
                = ".rdb" :: "refs" :: "heads" :: Strings.Split "/" branch).
  { rewrite !elements_cons by done. unfold elements. cbn [map concat].
    by rewrite app_nil_r. }
  split; [done|]. rewrite Heq. by repeat constructor.
Qed.

Lemma fixed_elements (f : string) :
  name f = true →
  elements [".rdb"; f] = [".rdb"; f]
  ∧ Forall (λ s, name s = true) (elements [".rdb"; f]).
Proof.
  intros Hf.
  assert (Heq : elements [".rdb"; f] = [".rdb"; f]).
  { rewrite !elements_cons; try done; by apply name_facts. }
  split; [done|]. rewrite Heq. by repeat constructor.
Qed.

Lemma plain_branch_names (branch : string) :
  plain_branch branch = true →
  Forall (λ s, name s = true) (Strings.Split "/" branch).
Proof.
  unfold plain_branch. change Filepath.Separator with "/"%char.
  induction (Strings.Split "/" branch) as [|s l IH]; [done|].
  cbn [forallb]. intros [Hs Hl]%andb_true_iff. constructor; auto.
Qed.

(** The configuration, HEAD, the objects and the branch files are
    different files. *)
Lemma paths_apart (r : Repository) (h branch : string) :
  is_commit_hash h = true → plain_branch branch = true →
  config_file (Path r) ≠ head_of (Path r)
  ∧ config_file (Path r) ≠ object_file r h
  ∧ config_file (Path r) ≠ cmd.ref_path r branch
  ∧ head_of (Path r) ≠ object_file r h
  ∧ head_of (Path r) ≠ cmd.ref_path r branch
  ∧ object_file r h ≠ cmd.ref_path r branch.
Proof.
  intros Hh Hb%plain_branch_names. destruct (hash_names h Hh) as [Ha Hd].
  destruct (object_elements _ _ Ha Hd) as [HO HOn].
  destruct (ref_elements branch Hb) as [HR HRn].
  destruct (fixed_elements "config.json" eq_refl) as [HC HCn].
  destruct (fixed_elements "HEAD" eq_refl) as [HH HHn].
  unfold config_file, head_of, object_file, repo.object_path, cmd.ref_path.
  repeat split; intros Heq; apply Join_under_inj in Heq; try done;
    rewrite ?HO, ?HR, ?HC, ?HH in Heq; discriminate.
Qed.

End Layout.

Section RepositoryFiles.

Lemma ref_of_dotted_branch (p : string) :
  Filepath.Join [p; ".rdb"; "refs"; "heads"; "../../HEAD"] = head_of p.
Proof.
  unfold head_of. destruct (String.eqb_spec p "") as [->|Hp]; [done|].
  rewrite !Join_cons by done.
  change (Strings.Join [p; ".rdb"; "refs"; "heads"; "../../HEAD"] "/")
    with (p +:+ String "/" ".rdb/refs/heads/../../HEAD").
  change (Strings.Join [p; ".rdb"; "HEAD"] "/")
    with (p +:+ String "/" ".rdb/HEAD").
  rewrite !Clean_render, !rooted_app, !clean_elems_app by done.
  reflexivity.
Qed.

(** X10: [Init] and [IsRepository] build the paths of HEAD and of the
    configuration in two steps, the other functions in one; both ways
    give the same path, whatever the path of the repository.  The
    configuration, HEAD, an object and the file of a branch whose name
    is made of plain names are four different files; the branch name
    [../../HEAD], however, names HEAD itself. *)
Theorem repository_files_are_apart (r : Repository) (h branch : string) :
  is_commit_hash h = true → plain_branch branch = true →
  Filepath.Join [Filepath.Join [Path r; ".rdb"]; "HEAD"] = head_of (Path r)
  ∧ Filepath.Join [Filepath.Join [Path r; ".rdb"]; "config.json"]
    = config_file (Path r)
  ∧ NoDup [ config_file (Path r); head_of (Path r); object_file r h;
            cmd.ref_path r branch ]
  ∧ cmd.ref_path r "../../HEAD" = head_of (Path r).
Proof.
  intros Hh Hb.
  destruct (paths_apart r h branch Hh Hb)
    as (HCH & HCO & HCR & HHO & HHR & HOR).
  split; [apply Join_nested|]. split; [apply Join_nested|].
  split; [|apply ref_of_dotted_branch].
  repeat (apply NoDup_cons; split); [..|apply NoDup_nil_2];
    rewrite ?not_elem_of_cons; repeat split;
    auto using not_elem_of_nil.
Qed.

End RepositoryFiles.

Section WorldsAfter.

Lemma files_made (dirs : list string) (w : world) :
  files (made dirs w) = files w.
Proof.
  revert w. induction dirs as [|d dirs IH]; intros w; [done|].
  rewrite made_cons, IH. reflexivity.
Qed.

Lemma files_written_ne (p q d : string) (w : world) :
  p ≠ q → files (written p d w) !! q = files w !! q.
Proof.
  intros Hne. unfold written, sys. cbn [files sys_apply].
  by rewrite !lookup_insert_ne.
Qed.

Lemma files_stored (r : Repository) (K data : string) (w : world) :
  files (stored r K data w) !! object_file r (hash_of data)
  = Some (canonical_encoding K data).
Proof. unfold stored. apply files_written. Qed.

Lemma files_stored_ne (r : Repository) (K data q : string) (w : world) :
  object_file r (hash_of data) ≠ q →
  files (stored r K data w) !! q = files w !! q.
Proof. intros Hne. unfold stored. by rewrite files_written_ne. Qed.

Lemma cwd_made (dirs : list string) (w : world) : cwd (made dirs w) = cwd w.
Proof.
  revert w. induction dirs as [|d dirs IH]; intros w; [done|].
  rewrite made_cons, IH. reflexivity.
Qed.

Lemma cwd_written (p d : string) (w : world) :
  cwd (written p d w) = cwd w.
Proof. reflexivity. Qed.

Lemma cwd_stored (r : Repository) (K data : string) (w : world) :
  cwd (stored r K data w) = cwd w.
Proof. reflexivity. Qed.

Lemma cwd_initialised (p cfgJ treeJ commitJ : string) (w : world) :
  cwd (initialised p cfgJ treeJ commitJ w) = cwd w.
Proof.
  unfold initialised. cbv zeta.
  by rewrite cwd_written, !cwd_stored, cwd_made, !cwd_written, cwd_made.
Qed.

Lemma files_with_output (lines : list string) (w : world) :
  files (with_output lines w) = files w.
Proof. reflexivity. Qed.

Lemma cwd_with_output (lines : list string) (w : world) :
  cwd (with_output lines w) = cwd w.
Proof. reflexivity. Qed.

End WorldsAfter.

Section AfterInit.

Context `{JsonMarshal Tree} `{JsonMarshal Commit} `{JsonConfig}.

(** The files a fresh repository holds. *)
Lemma files_initialised (p cfgJ treeJ commitJ : string) (w : world) :
  let w' := initialised p cfgJ treeJ commitJ w in
  let r := repo.NewRepository p in
  files w' !! config_file p = Some cfgJ
  ∧ files w' !! head_of p = Some "ref: refs/heads/main"
  ∧ files w' !! cmd.ref_path r "main" = Some (hash_of commitJ)
  ∧ files w' !! object_file r (hash_of commitJ)
    = Some (canonical_encoding "commit" commitJ).
Proof.
  cbn zeta. set (r := repo.NewRepository p).
  destruct (paths_apart r (hash_of treeJ) "main"
              (hash_of_is_hash _) eq_refl)
    as (HCH & HCO1 & HCR & HHO1 & HHR & HO1R).
  destruct (paths_apart r (hash_of commitJ) "main"
              (hash_of_is_hash _) eq_refl)
    as (_ & HCO2 & _ & HHO2 & _ & HO2R).
  change (Path r) with p in *.
  assert (Hhead : Filepath.Join [Filepath.Join [p; ".rdb"]; "HEAD"]
                  = head_of p) by apply Join_nested.
  unfold initialised. fold r. rewrite Hhead. repeat split.
  - rewrite files_written_ne, !files_stored_ne, files_made by done.
    rewrite files_written_ne by done. apply files_written.
  - rewrite files_written_ne, !files_stored_ne, files_made by done.
    apply files_written.
  - apply files_written.
  - rewrite files_written_ne by done. apply files_stored.
Qed.

End AfterInit.

Section FreshRepository.

Context `{JsonMarshal Tree} `{JsonMarshal Commit} `{JsonConfig}.

(** Opening a repository reads its configuration file and nothing
    else. *)
Lemma OpenRepository_run (p cfgJ : string) (w : world) :
  files w !! config_file p = Some cfgJ →
  repo.IsRepository p w = (Ok true, w)
  ∧ repo.OpenRepository p w
    = (match json_Unmarshal_Config
               cfgJ (Repo_Config (repo.NewRepository p)) with
       | Done cfg => Ok {| Path := p; Repo_Config := cfg |}
       | Failed e =>
           Err (ErrWrap "failed to load repository config"
                  (ErrWrap "failed to unmarshal config" e))
       end, w).
Proof.
  intros Hfile.
  assert (Hisrepo : repo.IsRepository p w = (Ok true, w)).
  { rewrite IsRepository_run, Join_nested. fold (config_file p).
    rewrite Hfile. reflexivity. }
  split; [done|]. unfold repo.OpenRepository. run_m. rewrite Hisrepo.
  cbn [negb]. unfold repo.LoadConfig. run_m. unfold os_ReadFile.
  cbn [Path repo.NewRepository]. fold (config_file p). rewrite Hfile.
  by destruct (json_Unmarshal_Config cfgJ _).
Qed.

(** X11: After [Init] the directory is a repository: [IsRepository] finds
    it, and [OpenRepository] returns what the decoder makes of the
    configuration that [Init] saved. *)
Theorem init_makes_a_repository (r : Repository) (layout : string)
    (types : list string) (t_id t_stamp : Time)
    (cfgJ treeJ commitJ : string) (w : world) :
  json_MarshalIndent_Config (initial_config layout types) = Done cfgJ →
  json_Marshal {| Entries := [] |} = Done treeJ →
  json_Marshal (initial_commit t_id t_stamp (hash_of treeJ)) = Done commitJ →
  let w' := snd (repo.Init r layout types t_id t_stamp w) in
  fst (repo.Init r layout types t_id t_stamp w)
  = Ok {| Path := Path r; Repo_Config := initial_config layout types |}
  ∧ repo.IsRepository (Path r) w' = (Ok true, w')
  ∧ repo.OpenRepository (Path r) w'
    = (match json_Unmarshal_Config
               cfgJ (Repo_Config (repo.NewRepository (Path r))) with
       | Done cfg => Ok {| Path := Path r; Repo_Config := cfg |}
       | Failed e =>
           Err (ErrWrap "failed to load repository config"
                  (ErrWrap "failed to unmarshal config" e))
       end, w').
Proof.
  intros Hcfg Htree Hcommit.
  rewrite (Init_run r layout types t_id t_stamp cfgJ treeJ commitJ w)
    by done.
  cbn [fst snd]. split; [done|].
  apply OpenRepository_run.
  apply (files_initialised (Path r) cfgJ treeJ commitJ w).
Qed.

(** X12: After [Init] HEAD names the branch [main], the branch points at
    the initial commit, and the initial commit reads back from the
    store as the text that was marshalled. *)
Theorem init_points_head_at_the_initial_commit (r : Repository)
    (layout : string) (types : list string) (t_id t_stamp : Time)
    (cfgJ treeJ commitJ : string) (w : world) :
  json_MarshalIndent_Config (initial_config layout types) = Done cfgJ →
  json_Marshal {| Entries := [] |} = Done treeJ →
  json_Marshal (initial_commit t_id t_stamp (hash_of treeJ)) = Done commitJ →
  Bytes.len commitJ ≤ Strconv.maxInt64 →
  let w' := snd (repo.Init r layout types t_id t_stamp w) in
  repo.GetCurrentBranch r w' = (Ok "main", w')
  ∧ repo.GetCurrentCommit r w' = (Ok (hash_of commitJ), w')
  ∧ repo.ReadObject r (hash_of commitJ) w' = (Ok ("commit", commitJ), w').
Proof.
  intros Hcfg Htree Hcommit Hlen.
  rewrite (Init_run r layout types t_id t_stamp cfgJ treeJ commitJ w)
    by done.
  cbn [snd].
  destruct (files_initialised (Path r) cfgJ treeJ commitJ w)
    as (_ & Hhead & Href & Hobj).
  set (w' := initialised _ _ _ _ _) in *.
  assert (Hbranch : repo.GetCurrentBranch r w' = (Ok "main", w')).
  { rewrite (GetCurrentBranch_run r w' _ Hhead). reflexivity. }
  split; [done|]. split.
  - unfold repo.GetCurrentCommit. run_m. rewrite Hbranch.
    unfold os_ReadFile.
    change (Filepath.Join [Path r; ".rdb"; "refs"; "heads"; "main"])
      with (cmd.ref_path (repo.NewRepository (Path r)) "main").
    by rewrite Href.
  - unfold repo.ReadObject.
    rewrite (readObject_stored r (hash_of commitJ) "commit"
               (Bytes.len commitJ) commitJ).
    + by rewrite Z.eqb_refl.
    + rewrite hash_of_length. lia.
    + exact Hobj.
    + done.
    + pose proof (len_nonneg commitJ). lia.
Qed.

End FreshRepository.

(** ** Reading back what a command wrote *)

Section ReadBackCommit.

Context `{JsonMarshal Tree} `{JsonMarshal Commit} `{JsonConfig}.

Lemma OpenRepository_inv (p : string) (r : Repository) (w : world) :
  repo.OpenRepository p w = (Ok r, w) →
  ∃ cfgJ, files w !! config_file p = Some cfgJ
          ∧ json_Unmarshal_Config cfgJ (Repo_Config (repo.NewRepository p))
            = Done (Repo_Config r)
          ∧ Path r = p.
Proof.
  intros Hopen. destruct (files w !! config_file p) as [cfgJ|] eqn:Hfile.
  - exists cfgJ. split; [done|].
    destruct (OpenRepository_run p cfgJ w Hfile) as [_ Hrun].
    rewrite Hrun in Hopen.
    destruct (json_Unmarshal_Config cfgJ _) as [cfg|e]; [|done].
    injection Hopen as <-. done.
  - unfold repo.OpenRepository in Hopen. revert Hopen. run_m.
    rewrite IsRepository_run, Join_nested. fold (config_file p).
    rewrite Hfile. done.
Qed.

(** The files of the world after a commit. *)
Lemma files_committed (r : Repository) (branch treeJ commitJ line : string)
    (w : world) :
  plain_branch branch = true →
  let w' :=
    printed line
      (written (cmd.ref_path r branch) (hash_of commitJ)
         (stored r "commit" commitJ (stored r "tree" treeJ w))) in
  files w' !! config_file (Path r) = files w !! config_file (Path r)
  ∧ files w' !! head_of (Path r) = files w !! head_of (Path r)
  ∧ files w' !! cmd.ref_path r branch = Some (hash_of commitJ)
  ∧ files w' !! object_file r (hash_of commitJ)
    = Some (canonical_encoding "commit" commitJ).
Proof.
  intros Hb. cbn zeta.
  destruct (paths_apart r (hash_of treeJ) branch (hash_of_is_hash _) Hb)
    as (_ & HCO1 & HCR & HHO1 & HHR & _).
  destruct (paths_apart r (hash_of commitJ) branch (hash_of_is_hash _) Hb)
    as (_ & HCO2 & _ & HHO2 & _ & HO2R).
  rewrite !files_printed. repeat split.
  - by rewrite files_written_ne, !files_stored_ne.
  - by rewrite files_written_ne, !files_stored_ne.
  - apply files_written.
  - rewrite files_written_ne by done. apply files_stored.
Qed.

(** X13: After a commit the repository still opens, HEAD still names the
    branch, the branch points at the new commit, and the new commit
    reads back from the store as the text that was marshalled. *)
Theorem commit_is_read_back (flags : cmd.commitFlags)
    (t_id t_stamp : Time) (w : world) (r : Repository)
    (skipped branch parent treeJ commitJ : string) :
  cmd.in_system_directory (repo_root w) = false →
  repo.OpenRepository (repo_root w) w = (Ok r, w) →
  files w !! head_of (Path r) = Some ("ref: " +:+ skipped +:+ branch) →
  String.length skipped = 11%nat →
  plain_branch branch = true →
  (if cmd.amend flags
   then files w !! cmd.ref_path r branch = Some parent
   else parent = "") →
  json_Marshal {| Entries := [] |} = Done treeJ →
  json_Marshal
    (cmd.with_tree
       (cmd.new_commit flags (Bytes.take 16 (hash_of (time_String t_id)))
                       branch parent t_stamp)
       (hash_of treeJ)) = Done commitJ →
  Bytes.len commitJ ≤ Strconv.maxInt64 →
  let w' := snd (cmd.runCommit flags t_id t_stamp w) in
  fst (cmd.runCommit flags t_id t_stamp w) = Ok tt
  ∧ repo.OpenRepository (repo_root w') w' = (Ok r, w')
  ∧ repo.GetCurrentBranch r w' = (Ok branch, w')
  ∧ repo.GetCurrentCommit r w' = (Ok (hash_of commitJ), w')
  ∧ repo.ReadObject r (hash_of commitJ) w' = (Ok ("commit", commitJ), w').
Proof.
  intros Hsys Hopen Hhead Hskip Hb Hparent Htree Hcommit Hlen.
  destruct (head_offsets skipped branch Hskip) as (Hlt & Htake & Hslice).
  set (head := "ref: " +:+ skipped +:+ branch) in *.
  assert (Hlen16 : (16 ≤ String.length head)%nat).
  { unfold head. rewrite !str_length_app, Hskip. simpl. lia. }
  assert (Hdrop : Bytes.drop 16 head = branch).
  { rewrite slice_from_ok in Hslice by done. by injection Hslice. }
  rewrite (runCommit_run flags t_id t_stamp w r head parent treeJ commitJ);
    try done; [|by rewrite Hdrop..].
  rewrite Hdrop. cbn [fst snd]. split; [done|].
  destruct (OpenRepository_inv _ _ _ Hopen) as (cfgJ & Hcfg & Hdec & Hpath).
  match goal with |- context [printed ?l _] => set (line := l) end.
  destruct (files_committed r branch treeJ commitJ line w Hb)
    as (HC & HH & HR & HO).
  set (w' := printed line _) in *.
  assert (Hroot : repo_root w' = repo_root w) by reflexivity.
  assert (Hbranch : repo.GetCurrentBranch r w' = (Ok branch, w')).
  { rewrite (GetCurrentBranch_run r w' head)
      by (fold (head_of (Path r)); by rewrite HH).
    by rewrite Hlt, Htake, Hslice. }
  split; [|split; [done|split]].
  - rewrite Hroot.
    destruct (OpenRepository_run (repo_root w) cfgJ w')
      as [_ ->]; [by rewrite <- Hpath, HC, Hpath|].
    rewrite Hdec. destruct r as [p cfg]. cbn in Hpath. by subst p.
  - unfold repo.GetCurrentCommit. run_m. rewrite Hbranch.
    unfold os_ReadFile. fold (cmd.ref_path r branch). by rewrite HR.
  - unfold repo.ReadObject.
    rewrite (readObject_stored r (hash_of commitJ) "commit"
               (Bytes.len commitJ) commitJ).
    + by rewrite Z.eqb_refl.
    + rewrite hash_of_length. lia.
    + exact HO.
    + done.
    + pose proof (len_nonneg commitJ). lia.
Qed.

End ReadBackCommit.

(** ** The status and init commands *)

Section Printing.

Lemma Printf_run (text : string) (w : world) :
  fmt_Printf text w = (Ok tt, with_output [text] w).
Proof. reflexivity. Qed.

End Printing.

Section StatusRuns.

Context `{JsonConfig}.

Lemma runStatus_run (porcelain : bool) (w : world)
    (r : Repository) (skipped branch tip : string) :
  cmd.in_system_directory (repo_root w) = false →
  repo.OpenRepository (repo_root w) w = (Ok r, w) →
  files w !! head_of (Path r) = Some ("ref: " +:+ skipped +:+ branch) →
  String.length skipped = 11%nat →
  files w !! cmd.ref_path r branch = Some tip →
  cmd.runStatus porcelain w
  = (Ok tt, with_output (status_lines porcelain branch tip) w).
Proof.
  intros Hsys Hopen Hhead Hskip Htip.
  destruct (OpenRepository_cases (repo_root w) w)
    as [(r' & Hopen' & Hpath & Hisrepo)|(e & He)]; [|congruence].
  destruct (head_offsets skipped branch Hskip) as (Hlt & Htake & Hslice).
  assert (Hbranch : repo.GetCurrentBranch r w = (Ok branch, w)).
  { rewrite (GetCurrentBranch_run r w _ Hhead).
    by rewrite Hlt, Htake, Hslice. }
  assert (Hcommit : repo.GetCurrentCommit r w = (Ok tip, w)).
  { unfold repo.GetCurrentCommit. run_m. rewrite Hbranch.
    unfold os_ReadFile. fold (cmd.ref_path r branch). by rewrite Htip. }
  unfold cmd.runStatus. run_m.
  rewrite filepath_Abs_dot, Hsys, Hisrepo. cbn [negb].
  rewrite Hopen, Hbranch, Hcommit.
  destruct porcelain; cbn [status_lines];
    rewrite !Printf_run, !with_output_app; reflexivity.
Qed.

(** X14: [status] prints what HEAD holds after its first sixteen bytes and
    the bytes of the branch file; it looks neither at the commit object
    nor at the working tree, and writes nothing. *)
Theorem status_prints_branch_and_tip (porcelain : bool) (w : world)
    (r : Repository) (skipped branch tip : string) :
  cmd.in_system_directory (repo_root w) = false →
  repo.OpenRepository (repo_root w) w = (Ok r, w) →
  files w !! head_of (Path r) = Some ("ref: " +:+ skipped +:+ branch) →
  String.length skipped = 11%nat →
  files w !! cmd.ref_path r branch = Some tip →
  cmd.runStatus porcelain w
  = (Ok tt, with_output (status_lines porcelain branch tip) w)
  ∧ files (with_output (status_lines porcelain branch tip) w) = files w
  ∧ syscalls (with_output (status_lines porcelain branch tip) w)
    = syscalls w.
Proof.
  intros Hsys Hopen Hhead Hskip Htip. split; [|done].
  by apply (runStatus_run porcelain w r skipped branch tip).
Qed.

End StatusRuns.

Section InitCommandRuns.

Context `{JsonMarshal Tree} `{JsonMarshal Commit} `{JsonConfig}.

Lemma Init_Ok_inv (r r' : Repository) (layout : string)
    (types : list string) (t_id t_stamp : Time) (w : world) :
  fst (repo.Init r layout types t_id t_stamp w) = Ok r' →
  ∃ cfgJ treeJ commitJ,
    json_MarshalIndent_Config (initial_config layout types) = Done cfgJ
    ∧ json_Marshal {| Entries := [] |} = Done treeJ
    ∧ json_Marshal (initial_commit t_id t_stamp (hash_of treeJ))
      = Done commitJ.
Proof.
  destruct (json_MarshalIndent_Config (initial_config layout types))
    as [cfgJ|e] eqn:Hcfg.
  2:{ unfold repo.Init. run_m.
      rewrite (for_each_MkdirAll
                 (λ dir, "failed to create directory " +:+ dir) id).
      unfold repo.SaveConfig. run_m. cbn [Path Repo_Config].
      fold (initial_config layout types). by rewrite Hcfg. }
  destruct (json_Marshal {| Entries := [] |}) as [treeJ|e] eqn:Htree.
  2:{ unfold repo.Init. run_m.
      rewrite (for_each_MkdirAll
                 (λ dir, "failed to create directory " +:+ dir) id).
      unfold repo.SaveConfig. run_m. cbn [Path Repo_Config].
      fold (initial_config layout types). rewrite Hcfg. cbn [of_result].
      unfold os_WriteFile, os_MkdirAll.
      rewrite (for_each_MkdirAll
                 (λ assetID, "failed to create asset directory "
                             +:+ Strconv.Itoa assetID) (asset_dir (Path r))).
      unfold repo.createInitialCommit. run_m.
      by rewrite (writeObject_marshal_error _ "tree" _ e _ Htree). }
  destruct (json_Marshal (initial_commit t_id t_stamp (hash_of treeJ)))
    as [commitJ|e] eqn:Hcommit;
    [intros _; by exists cfgJ, treeJ, commitJ|].
  unfold repo.Init. run_m.
  rewrite (for_each_MkdirAll
             (λ dir, "failed to create directory " +:+ dir) id).
  unfold repo.SaveConfig. run_m. cbn [Path Repo_Config].
  fold (initial_config layout types). rewrite Hcfg. cbn [of_result].
  unfold os_WriteFile, os_MkdirAll.
  rewrite (for_each_MkdirAll
             (λ assetID, "failed to create asset directory "
                         +:+ Strconv.Itoa assetID) (asset_dir (Path r))).
  unfold repo.createInitialCommit. run_m.
  rewrite (writeObject_run _ "tree" _ treeJ _ Htree).
  unfold repo.generateID. fold (hash_of (time_String t_id)).
  rewrite slice_to_ok by (rewrite hash_of_length; lia).
  fold (initial_commit t_id t_stamp (hash_of treeJ)).
  by rewrite (writeObject_marshal_error _ "commit" _ e _ Hcommit).
Qed.

Lemma filepath_Abs_run (path : string) (w : world) :
  filepath_Abs path w = (Ok (abs_path w path), w).
Proof. reflexivity. Qed.

(** What [runInit] does when [Init] succeeds. *)
Lemma runInit_run (flags : cmd.initFlags) (args : list string)
    (t_id t_stamp : Time) (cfgJ treeJ commitJ : string) (w : world) :
  let p := abs_path w (hd "." args) in
  let assetTypes := map Strings.TrimSpace
                        (Strings.Split "," (cmd.types flags)) in
  cmd.in_system_directory p = false →
  files w !! config_file p = None →
  cmd.layout flags = "tree" ∨ cmd.layout flags = "flat" →
  json_MarshalIndent_Config (initial_config (cmd.layout flags) assetTypes)
  = Done cfgJ →
  json_Marshal {| Entries := [] |} = Done treeJ →
  json_Marshal (initial_commit t_id t_stamp (hash_of treeJ)) = Done commitJ →
  cmd.runInit flags args t_id t_stamp w
  = (Ok tt,
     with_output
       [ "Initialized RDB repository at " +:+ p +:+ cmd.newline;
         "Layout: " +:+ cmd.layout flags +:+ cmd.newline;
         "Asset types: " +:+ Strings.Join assetTypes ", " +:+ cmd.newline ]
       (initialised p cfgJ treeJ commitJ (sys (SysMkdirAll p) w))).
Proof.
  intros p assetTypes Hsys Hnone Hlayout Hcfg Htree Hcommit.
  unfold cmd.runInit. run_m.
  rewrite filepath_Abs_run. change (abs_path w _) with p. rewrite Hsys.
  rewrite IsRepository_run, Join_nested. fold (config_file p).
  rewrite Hnone. change (bool_decide (is_Some None)) with false.
  cbv iota. unfold os_MkdirAll.
  assert (negb (String.eqb (cmd.layout flags) "tree")
          && negb (String.eqb (cmd.layout flags) "flat") = false) as ->.
  { by destruct Hlayout as [-> | ->]. }
  fold assetTypes.
  rewrite (Init_run (repo.NewRepository p) (cmd.layout flags) assetTypes
             t_id t_stamp cfgJ treeJ commitJ) by done.
  cbn [Path repo.NewRepository].
  rewrite !Printf_run, !with_output_app. reflexivity.
Qed.

End InitCommandRuns.

Section InitCommandClaims.

Context `{JsonMarshal Tree} `{JsonMarshal Commit} `{JsonConfig}.

Lemma runInit_Ok_inv (flags : cmd.initFlags) (args : list string)
    (t_id t_stamp : Time) (w : world) :
  let p := abs_path w (hd "." args) in
  let assetTypes := map Strings.TrimSpace
                        (Strings.Split "," (cmd.types flags)) in
  fst (cmd.runInit flags args t_id t_stamp w) = Ok tt →
  cmd.in_system_directory p = false
  ∧ files w !! config_file p = None
  ∧ (cmd.layout flags = "tree" ∨ cmd.layout flags = "flat")
  ∧ ∃ cfgJ treeJ commitJ,
      json_MarshalIndent_Config
        (initial_config (cmd.layout flags) assetTypes) = Done cfgJ
      ∧ json_Marshal {| Entries := [] |} = Done treeJ
      ∧ json_Marshal (initial_commit t_id t_stamp (hash_of treeJ))
        = Done commitJ.
Proof.
  intros p assetTypes. unfold cmd.runInit. run_m.
  rewrite filepath_Abs_run. change (abs_path w _) with p.
  destruct (cmd.in_system_directory p); [done|].
  rewrite IsRepository_run, Join_nested. fold (config_file p).
  destruct (files w !! config_file p) as [d|]; [done|].
  change (bool_decide (is_Some None)) with false. cbv iota.
  unfold os_MkdirAll. cbv zeta.
  destruct (String.eqb_spec (cmd.layout flags) "tree") as [Ht|Ht];
    [|destruct (String.eqb_spec (cmd.layout flags) "flat") as [Hf|Hf]];
    cbn [negb andb]; cbv beta iota; [| |done].
  - destruct (repo.Init (repo.NewRepository p) (cmd.layout flags) _
                        t_id t_stamp (sys (SysMkdirAll p) w))
      as [[r'| |] w1] eqn:HInit; [|done..].
    intros _. repeat split; [by left|].
    apply (Init_Ok_inv (repo.NewRepository p) r' _ _ _ _
             (sys (SysMkdirAll p) w)).
    unfold assetTypes. by rewrite HInit.
  - destruct (repo.Init (repo.NewRepository p) (cmd.layout flags) _
                        t_id t_stamp (sys (SysMkdirAll p) w))
      as [[r'| |] w1] eqn:HInit; [|done..].
    intros _. repeat split; [by right|].
    apply (Init_Ok_inv (repo.NewRepository p) r' _ _ _ _
             (sys (SysMkdirAll p) w)).
    unfold assetTypes. by rewrite HInit.
Qed.

(** X15: Whenever [init] has succeeded, another [init] of the same
    directory fails, whatever its flags, and changes nothing. *)
Theorem init_is_not_repeated (flags flags' : cmd.initFlags)
    (args : list string) (t_id t_stamp t_id' t_stamp' : Time) (w : world) :
  fst (cmd.runInit flags args t_id t_stamp w) = Ok tt →
  let w' := snd (cmd.runInit flags args t_id t_stamp w) in
  cmd.runInit flags' args t_id' t_stamp' w'
  = (Err (ErrNew ("RDB repository already exists at "
                  +:+ abs_path w (hd "." args))), w').
Proof.
  intros Hok.
  destruct (runInit_Ok_inv flags args t_id t_stamp w Hok)
    as (Hsys & Hnone & Hlayout & cfgJ & treeJ & commitJ & Hcfg & Htree
        & Hcommit).
  rewrite (runInit_run flags args t_id t_stamp cfgJ treeJ commitJ w)
    by done.
  cbn [snd]. set (p := abs_path w (hd "." args)).
  destruct (files_initialised p cfgJ treeJ commitJ (sys (SysMkdirAll p) w))
    as (Hfile & _).
  set (w0 := initialised _ _ _ _ _) in *.
  match goal with |- context [with_output ?ls w0] =>
    set (w' := with_output ls w0) end.
  assert (Hp : abs_path w' (hd "." args) = p).
  { unfold p, abs_path, w'. rewrite cwd_with_output.
    unfold w0. by rewrite cwd_initialised. }
  assert (Hfile' : files w' !! config_file p = Some cfgJ).
  { unfold w'. by rewrite files_with_output. }
  unfold cmd.runInit. run_m.
  rewrite filepath_Abs_run. change (abs_path w' _) with
    (abs_path w' (hd "." args)). rewrite Hp. fold p in Hsys. rewrite Hsys.
  rewrite IsRepository_run, Join_nested. fold (config_file p).
  rewrite Hfile'. reflexivity.
Qed.

(** X16: The layout is checked after the repository directory was made: an
    [init] with a layout other than [tree] and [flat] fails with the
    directory made and no file written. *)
Theorem init_checks_the_layout_late (flags : cmd.initFlags)
    (args : list string) (t_id t_stamp : Time) (w : world) :
  let p := abs_path w (hd "." args) in
  cmd.in_system_directory p = false →
  files w !! config_file p = None →
  cmd.layout flags ≠ "tree" → cmd.layout flags ≠ "flat" →
  cmd.runInit flags args t_id t_stamp w
  = (Err (ErrNew ("invalid layout: " +:+ cmd.layout flags
                  +:+ " (must be 'tree' or 'flat')")),
     sys (SysMkdirAll p) w)
  ∧ files (sys (SysMkdirAll p) w) = files w.
Proof.
  intros p Hsys Hnone Ht Hf. split; [|done].
  unfold cmd.runInit. run_m.
  rewrite filepath_Abs_run. change (abs_path w _) with p. rewrite Hsys.
  rewrite IsRepository_run, Join_nested. fold (config_file p).
  rewrite Hnone. change (bool_decide (is_Some None)) with false.
  cbv iota. unfold os_MkdirAll.
  apply String.eqb_neq in Ht, Hf. by rewrite Ht, Hf.
Qed.

(** X17: After a successful [init] of the working directory, [status]
    reports the branch [main] at the initial commit, provided the
    decoder reads back the configuration that was saved. *)
Theorem status_after_init (flags : cmd.initFlags) (t_id t_stamp : Time)
    (porcelain : bool) (cfgJ : string) (cfg : Config) (w : world) :
  fst (cmd.runInit flags [] t_id t_stamp w) = Ok tt →
  json_MarshalIndent_Config
    (initial_config (cmd.layout flags)
       (map Strings.TrimSpace (Strings.Split "," (cmd.types flags))))
  = Done cfgJ →
  json_Unmarshal_Config cfgJ (Repo_Config (repo.NewRepository (repo_root w)))
  = Done cfg →
  let w' := snd (cmd.runInit flags [] t_id t_stamp w) in
  ∃ treeJ commitJ,
    json_Marshal {| Entries := [] |} = Done treeJ
    ∧ json_Marshal (initial_commit t_id t_stamp (hash_of treeJ))
      = Done commitJ
    ∧ cmd.runStatus porcelain w'
      = (Ok tt,
         with_output (status_lines porcelain "main" (hash_of commitJ)) w').
Proof.
  intros Hok Hcfg Hdec.
  destruct (runInit_Ok_inv flags [] t_id t_stamp w Hok)
    as (Hsys & Hnone & Hlayout & cfgJ' & treeJ & commitJ & Hcfg' & Htree
        & Hcommit).
  assert (cfgJ' = cfgJ) as -> by congruence.
  rewrite (runInit_run flags [] t_id t_stamp cfgJ treeJ commitJ w) by done.
  cbn [snd]. exists treeJ, commitJ. split; [done|]. split; [done|].
  change (abs_path w (hd "." [])) with (repo_root w) in *.
  set (p := repo_root w) in *.
  destruct (files_initialised p cfgJ treeJ commitJ (sys (SysMkdirAll p) w))
    as (HC & HH & HR & _).
  set (w0 := initialised _ _ _ _ _) in *.
  match goal with |- context [with_output ?ls w0] =>
    set (w' := with_output ls w0) end.
  assert (Hroot : repo_root w' = p).
  { unfold repo_root, w'. rewrite cwd_with_output.
    unfold w0. by rewrite cwd_initialised. }
  apply (runStatus_run porcelain w' {| Path := p; Repo_Config := cfg |}
           "refs/heads/" "main" (hash_of commitJ)).
  - by rewrite Hroot.
  - rewrite Hroot.
    destruct (OpenRepository_run p cfgJ w') as [_ ->];
      [unfold w'; by rewrite files_with_output|].
    by rewrite Hdec.
  - unfold w'. by rewrite files_with_output.
  - reflexivity.
  - unfold w'. by rewrite files_with_output.
Qed.

End InitCommandClaims.

(** ** The guard against system directories *)

Section Guard.

Context `{JsonMarshal Tree} `{JsonMarshal Commit} `{JsonConfig}.

Variable filepath_Rel : string → string → outcome string.
Variable filepath_Glob : string → M (list string).
Variable addPath : Repository → string → cmd.addFlags → M unit.

Lemma ToLower_app (a b : string) :
  Strings.ToLower (a +:+ b) = Strings.ToLower a +:+ Strings.ToLower b.
Proof.
  induction a as [|c a IH]; [done|].
  rewrite str_app_cons. cbn [Strings.ToLower]. by rewrite IH.
Qed.

Lemma HasPrefix_app (p s : string) : Strings.HasPrefix (p +:+ s) p = true.
Proof.
  induction p as [|c p IH]; [by destruct s|].
  rewrite str_app_cons. cbn [Strings.HasPrefix].
  by rewrite Ascii.eqb_refl, IH.
Qed.

Lemma Contains_app (pre sub post : string) :
  Strings.Contains (pre +:+ sub +:+ post) sub = true.
Proof.
  induction pre as [|c pre IH].
  - rewrite str_app_nil_l.
    destruct (sub +:+ post) eqn:Heq; cbn [Strings.Contains];
      rewrite <- Heq, HasPrefix_app; done.
  - rewrite str_app_cons. cbn [Strings.Contains]. rewrite IH.
    apply orb_true_r.
Qed.

(** X18: The guard compares without regard to the case of letters and
    anywhere in the path, and it comes first: in a directory whose path
    contains [c:\windows\system32] in any spelling, commit, status, add
    and init fail before they look for a repository, and change
    nothing. *)
Theorem system_directory_is_refused (w : world) (pre dir post : string) :
  repo_root w = pre +:+ dir +:+ post →
  Strings.ToLower dir = "c:\windows\system32" →
  let refusal :=
    Err (ErrNew ("cannot operate on RDB repository in system directory: "
                 +:+ repo_root w)) in
  (∀ flags t_id t_stamp, cmd.runCommit flags t_id t_stamp w = (refusal, w))
  ∧ (∀ porcelain, cmd.runStatus porcelain w = (refusal, w))
  ∧ (∀ flags arg args,
       cmd.runAdd filepath_Rel filepath_Glob addPath flags (arg :: args) w
       = (refusal, w))
  ∧ (∀ flags t_id t_stamp,
       cmd.runInit flags [] t_id t_stamp w
       = (Err (ErrNew ("cannot create RDB repository in system directory: "
                       +:+ repo_root w)), w)).
Proof.
  intros Hroot Hdir refusal.
  assert (Hsys : cmd.in_system_directory (repo_root w) = true).
  { unfold cmd.in_system_directory.
    rewrite Hroot, !ToLower_app, Hdir. apply Contains_app. }
  split; [|split; [|split]]; intros.
  - unfold cmd.runCommit. run_m. by rewrite filepath_Abs_dot, Hsys.
  - unfold cmd.runStatus. run_m. by rewrite filepath_Abs_dot, Hsys.
  - unfold cmd.runAdd. run_m. by rewrite filepath_Abs_dot, Hsys.
  - unfold cmd.runInit. run_m. by rewrite filepath_Abs_dot, Hsys.
Qed.

End Guard.

(** ** Integers in paths and in asset ids *)

Section Integers.

Lemma Itoa_negative (n : Z) :
  n < 0 →
  Strconv.Itoa n
  = String "-" (Strconv.digits (Z.to_nat (Z.log2 (- n))) (- n)).
Proof.
  intros Hn. unfold Strconv.Itoa. destruct (Z.ltb_spec n 0); [done|lia].
Qed.

(** [ParseInt] and [Atoi] invert [Itoa] on the whole range of [int]. *)
Lemma parse_int_Itoa (fn : string) (n : Z) :
  Strconv.minInt64 ≤ n ≤ Strconv.maxInt64 →
  Strconv.parse_int fn (Strconv.Itoa n) = Ok n.
Proof.
  intros Hn. destruct (Z.ltb_spec n 0) as [Hneg|Hpos].
  - rewrite Itoa_negative by done.
    set (ds := Strconv.digits _ _).
    assert (Hparse : Strconv.parse_uint fn (String "-" ds) 0 ds = Ok (- n)).
    { apply parse_uint_digits; [apply log2_fuel; lia|].
      unfold Strconv.minInt64, Strconv.maxUint64 in *. lia. }
    pose proof (digits_nonempty (Z.to_nat (Z.log2 (- n))) (- n)) as Hne.
    fold ds in Hne. unfold Strconv.parse_int.
    change (Ascii.eqb "-" "-") with true. cbn [orb].
    destruct ds as [|d ds']; [done|]. rewrite Hparse.
    destruct (Z.ltb_spec (- Strconv.minInt64) (- n)); [lia|].
    f_equal. lia.
  - rewrite parse_int_unsigned;
      [|apply Itoa_nonempty; lia|apply Itoa_all_digit; lia].
    rewrite Itoa_nonneg at 2 by lia.
    rewrite parse_uint_digits;
      [|by apply log2_fuel; lia
       |unfold Strconv.maxInt64, Strconv.maxUint64 in *; lia].
    destruct (Z.ltb_spec Strconv.maxInt64 n); [lia|done].
Qed.

Lemma Itoa_shape (n : Z) :
  ∃ sign ds,
    Strconv.Itoa n = sign +:+ ds
    ∧ (sign = "" ∨ sign = "-")
    ∧ ds ≠ "" ∧ Bytes.forallb Strconv.is_digit ds = true.
Proof.
  destruct (Z.ltb_spec n 0) as [Hneg|Hpos].
  - exists "-", (Strconv.digits (Z.to_nat (Z.log2 (- n))) (- n)).
    rewrite Itoa_negative by done. repeat split; [by right| |].
    + apply digits_nonempty.
    + apply digits_all_digit. lia.
  - exists "", (Strconv.Itoa n). repeat split; [by left| |].
    + by apply Itoa_nonempty.
    + by apply Itoa_all_digit.
Qed.

Lemma Itoa_segment (n : Z) : segment (Strconv.Itoa n) = true.
Proof.
  destruct (Itoa_shape n) as (sign & ds & -> & Hsign & _ & Hall).
  unfold segment. rewrite forallb_app. apply andb_true_iff. split.
  - by destruct Hsign as [-> | ->].
  - eapply forallb_impl; [|exact Hall]. intros c Hc.
    apply negb_true_iff, Ascii.eqb_neq. intros ->. by vm_compute in Hc.
Qed.








Variable filepath_Rel : string → string → outcome string.

(** X20: The staging filter accepts a path under [assets/] for every
    integer as the second element, negative or not and whether or not
    an asset type is known for it: so it accepts every asset directory
    that [Init] makes. *)
Theorem every_integer_names_an_asset_directory (repoPath filePath : string)
    (n : Z) (tail : string) :
  Strconv.minInt64 ≤ n ≤ Strconv.maxInt64 →
  tail = "" ∨ (∃ t, tail = String Filepath.Separator t) →
  filepath_Rel repoPath filePath
  = Ok ("assets/" +:+ Strconv.Itoa n +:+ tail) →
  cmd.isAssetPath filepath_Rel repoPath filePath = true.
Proof.
  intros Hn Htail Hrel. apply isAssetPath_relative.
  exists ("assets/" +:+ Strconv.Itoa n +:+ tail). split; [done|].
  exists (Strconv.Itoa n), tail. repeat split; [apply Itoa_segment|done|].
  apply Atoi_numeric. unfold Strconv.Atoi. by rewrite parse_int_Itoa.
Qed.

End Integers.

(** ** The add command *)

Section AddRuns.

Context `{JsonConfig}.

Variable filepath_Rel : string → string → outcome string.
Variable filepath_Glob : string → M (list string).
Variable addPath : Repository → string → cmd.addFlags → M unit.

(** [filepath.Glob] finds the matches [glob] and changes nothing. *)
Variable glob : string → list string.
Hypothesis Glob_run : ∀ pattern w, filepath_Glob pattern w = (Ok (glob pattern), w).

Lemma expand_patterns_run (r : Repository) (args allPaths : list string)
    (w : world) :
  let accepted m := cmd.isAssetPath filepath_Rel (Path r) (abs_path w m) in
  cmd.expand_patterns filepath_Rel filepath_Glob r args allPaths w
  = (Ok (allPaths ++ staged accepted glob args),
     with_output (add_lines accepted glob args) w).
Proof.
  cbn zeta. revert allPaths w.
  induction args as [|pattern args IH]; intros allPaths w.
  - cbn [cmd.expand_patterns]. unfold staged, add_lines. cbn [map concat].
    by rewrite app_nil_r, with_output_nil.
  - cbn [cmd.expand_patterns]. run_m. rewrite Glob_run.
    unfold staged, add_lines. cbn [map concat].
    destruct (glob pattern) as [|m ms] eqn:Hglob.
    + rewrite Printf_run, IH. cbn [List.filter app].
      by rewrite with_output_app.
    + rewrite (filter_matches_run filepath_Rel r (m :: ms) allPaths w).
      rewrite IH. by rewrite with_output_app, <- app_assoc.
Qed.

(** X21: [add] hands to [addPath] the matches that the filter accepts, in
    the order of the patterns, after printing a warning for each
    pattern without a match and a line for each match it skips; when
    nothing is accepted it says so and succeeds.  It writes nothing
    itself. *)
Theorem add_hands_over_the_accepted_paths (flags : cmd.addFlags)
    (arg : string) (args : list string) (w : world) (r : Repository) :
  cmd.in_system_directory (repo_root w) = false →
  repo.OpenRepository (repo_root w) w = (Ok r, w) →
  let accepted m := cmd.isAssetPath filepath_Rel (Path r) (abs_path w m) in
  let w1 := with_output (add_lines accepted glob (arg :: args)) w in
  cmd.runAdd filepath_Rel filepath_Glob addPath flags (arg :: args) w
  = match staged accepted glob (arg :: args) with
    | [] => (Ok tt,
             with_output ["No asset files found to add" +:+ cmd.newline] w1)
    | paths =>
        repo.for_each
          (λ path, wrap ("failed to add " +:+ path) (addPath r path flags))
          paths w1
    end.
Proof.
  intros Hsys Hopen accepted w1.
  destruct (OpenRepository_cases (repo_root w) w)
    as [(r' & Hopen' & Hpath & Hisrepo)|(e & He)]; [|congruence].
  unfold cmd.runAdd. run_m.
  rewrite filepath_Abs_dot, Hsys, Hisrepo. cbn [negb]. rewrite Hopen.
  rewrite expand_patterns_run. cbn [app]. fold accepted. fold w1.
  destruct (staged accepted glob (arg :: args)); [|done].
  by rewrite Printf_run.
Qed.

End AddRuns.

(** ** The system calls of init *)

Section TraceOfInit.

Context `{JsonMarshal Tree} `{JsonMarshal Commit} `{JsonConfig}.

Lemma no_rename_for_each {A} (f : A → M unit) (xs : list A) :
  (∀ x, no_rename (f x)) → no_rename (repo.for_each f xs).
Proof.
  intros Hf. induction xs as [|x xs IH]; cbn [repo.for_each]; [quiet|].
  apply no_rename_bind; [apply Hf|by intros _].
Qed.

Lemma no_rename_SaveConfig (r : Repository) : no_rename (repo.SaveConfig r).
Proof. unfold repo.SaveConfig. quiet. Qed.

Lemma no_rename_createInitialCommit (r : Repository) (t_id t_stamp : Time) :
  no_rename (repo.createInitialCommit r t_id t_stamp).
Proof.
  unfold repo.createInitialCommit.
  apply no_rename_bind;
    [apply no_rename_wrap, no_rename_writeObject|intros treeHash].
  apply no_rename_bind; [quiet|intros id].
  apply no_rename_bind;
    [apply no_rename_wrap, no_rename_writeObject|intros commitHash].
  quiet.
Qed.

Lemma no_rename_Init (r : Repository) (layout : string)
    (types : list string) (t_id t_stamp : Time) :
  no_rename (repo.Init r layout types t_id t_stamp).
Proof.
  unfold repo.Init.
  apply no_rename_bind;
    [apply no_rename_for_each; intros; quiet|intros _].
  apply no_rename_bind;
    [apply no_rename_wrap, no_rename_SaveConfig|intros _].
  apply no_rename_bind; [quiet|intros _].
  apply no_rename_bind; [quiet|intros _].
  apply no_rename_bind;
    [apply no_rename_for_each; intros; quiet|intros _].
  apply no_rename_bind;
    [apply no_rename_wrap, no_rename_createInitialCommit|intros _].
  quiet.
Qed.

(** X22: Like the object store and commit, [init] never renames: the
    configuration, HEAD, the first two objects and the branch file are
    each written in place. *)
Theorem init_writes_in_place :
  (∀ r, no_rename (repo.SaveConfig r))
  ∧ (∀ r layout types t_id t_stamp,
       no_rename (repo.Init r layout types t_id t_stamp))
  ∧ (∀ flags args t_id t_stamp,
       no_rename (cmd.runInit flags args t_id t_stamp)).
Proof.
  split; [apply no_rename_SaveConfig|].
  split; [intros; apply no_rename_Init|].
  intros flags args t_id t_stamp. unfold cmd.runInit.
  apply no_rename_bind; [quiet|intros absPath].
  destruct (cmd.in_system_directory absPath); [quiet|].
  apply no_rename_bind; [apply no_rename_IsRepository|intros b].
  destruct b; [quiet|].
  apply no_rename_bind; [quiet|intros _].
  destruct (_ && _); [quiet|].
  apply no_rename_bind; [apply no_rename_wrap, no_rename_Init|intros _].
  quiet.
Qed.

End TraceOfInit.

(** ** Runs in the example repository *)

Module FurtherRuns.
Import PlainJSON Example Scenarios.

Lemma unreadable_objects_are_errors_witness :
  repo.ReadObject the_repo h_tree empty_world
  = (Err (ErrWrap "failed to open object"
            (ErrNotExist "open" (object_file the_repo h_tree))),
     empty_world)
  ∧ repo.ReadObject the_repo h_tree w_no_null
    = (Err (ErrNew "invalid object format: no null separator found"),
       w_no_null)
  ∧ repo.ReadObject the_repo h_tree w_no_size
    = (Err (ErrWrap "failed to parse object header" ErrEOF), w_no_size).
Proof.
  assert (Hlen : (2 ≤ String.length h_tree)%nat) by (vm_compute; lia).
  split; [|split].
  - apply (proj1 (unreadable_objects_are_errors the_repo h_tree
                    empty_world Hlen)).
    vm_compute. reflexivity.
  - apply (proj1 (proj2 (unreadable_objects_are_errors the_repo h_tree
                           w_no_null Hlen)) "tree 14").
    + vm_compute. reflexivity.
    + vm_compute. reflexivity.
  - apply (proj2 (proj2 (unreadable_objects_are_errors the_repo h_tree
                           w_no_size Hlen)) "tree" "{}").
    + vm_compute. reflexivity.
    + vm_compute. reflexivity.
Defined.

Lemma write_changes_only_its_own_file_witness :
  let w1 := snd (repo.WriteObject the_repo "tree" empty_tree empty_world) in
  (∀ p, p ≠ object_file the_repo (hash_of empty_tree_json) →
        files w1 !! p = files empty_world !! p)
  ∧ files (snd (repo.WriteObject the_repo "tree" empty_tree w1)) = files w1.
Proof.
  apply (write_changes_only_its_own_file the_repo "tree" empty_tree
           empty_tree_json empty_world).
  reflexivity.
Defined.

Lemma second_kind_replaces_the_first_witness :
  let w1 := snd (repo.WriteObject the_repo "tree" empty_tree empty_world) in
  let w2 := snd (repo.WriteObject the_repo "blob" empty_tree w1) in
  fst (repo.WriteObject the_repo "tree" empty_tree empty_world)
  = fst (repo.WriteObject the_repo "blob" empty_tree w1)
  ∧ fst (repo.ReadObject the_repo (hash_of empty_tree_json) w2)
    = Ok ("blob", empty_tree_json).
Proof.
  apply (second_kind_replaces_the_first the_repo "tree" "blob" empty_tree
           empty_tree_json empty_world).
  - reflexivity.
  - reflexivity.
  - vm_compute. discriminate.
Defined.

Lemma hashes_and_ids_are_hexadecimal_witness :
  is_commit_hash (hash_of empty_tree_json) = true.
Proof.
  apply (proj1 hashes_and_ids_are_hexadecimal Tree _ the_repo "tree"
           empty_tree empty_world).
  vm_compute. reflexivity.
Defined.

Lemma branch_is_read_from_offset_16_witness :
  repo.GetCurrentBranch the_repo w_init = (Ok "main", w_init)
  ∧ repo.GetCurrentBranch the_repo w_tag_head = (Ok "1.0", w_tag_head)
  ∧ repo.GetCurrentBranch the_repo w_detached
    = (Err (ErrNew "HEAD is not pointing to a branch"), w_detached).
Proof.
  split; [|split].
  - apply (proj1 (branch_is_read_from_offset_16 the_repo w_init
                    "ref: refs/heads/main" ltac:(vm_compute; reflexivity))
             "refs/heads/" "main"); reflexivity.
  - apply (proj1 (branch_is_read_from_offset_16 the_repo w_tag_head
                    "ref: refs/tags/v1.0" ltac:(vm_compute; reflexivity))
             "refs/tags/v" "1.0"); reflexivity.
  - apply (proj2 (branch_is_read_from_offset_16 the_repo w_detached
                    (tip w_init) ltac:(vm_compute; reflexivity))).
    vm_compute. discriminate.
Defined.

Lemma current_commit_is_the_branch_file_witness :
  repo.GetCurrentCommit the_repo w_init
  = (match files w_init !! cmd.ref_path the_repo "main" with
     | Some tip => Ok tip
     | None => Err (ErrWrap "failed to read branch ref"
                      (ErrNotExist "open" (cmd.ref_path the_repo "main")))
     end, w_init).
Proof.
  apply (current_commit_is_the_branch_file the_repo w_init
           "refs/heads/" "main").
  - vm_compute. reflexivity.
  - reflexivity.
Defined.

Lemma amend_needs_a_branch_file_witness :
  cmd.runCommit (amending "second") t1 t1 w_new_branch
  = (Err (ErrWrap "failed to get current commit"
            (ErrWrap "failed to read branch ref"
               (ErrNotExist "open" (cmd.ref_path the_repo "next")))),
     w_new_branch).
Proof.
  apply (amend_needs_a_branch_file (amending "second") t1 t1 w_new_branch
           the_repo "refs/heads/" "next").
  - reflexivity.
  - vm_compute. reflexivity.
  - vm_compute. reflexivity.
  - vm_compute. reflexivity.
  - reflexivity.
  - vm_compute. reflexivity.
Defined.

Lemma commands_need_a_repository_witness :
  let refusal :=
    Err (ErrNew ("not an RDB repository: " +:+ repo_root empty_world)) in
  (∀ flags t_id t_stamp,
     cmd.runCommit flags t_id t_stamp empty_world = (refusal, empty_world))
  ∧ (∀ porcelain, cmd.runStatus porcelain empty_world
                  = (refusal, empty_world))
  ∧ (∀ flags arg args,
       cmd.runAdd no_rel Glob_literal addPath_nothing flags (arg :: args)
                  empty_world
       = (refusal, empty_world)).
Proof.
  apply (commands_need_a_repository no_rel Glob_literal addPath_nothing
           empty_world).
  - vm_compute. reflexivity.
  - vm_compute. reflexivity.
Defined.

Lemma system_directory_is_refused_witness :
  let refusal :=
    Err (ErrNew ("cannot operate on RDB repository in system directory: "
                 +:+ repo_root w_system)) in
  (∀ flags t_id t_stamp,
     cmd.runCommit flags t_id t_stamp w_system = (refusal, w_system))
  ∧ (∀ porcelain, cmd.runStatus porcelain w_system = (refusal, w_system))
  ∧ (∀ flags arg args,
       cmd.runAdd no_rel Glob_literal addPath_nothing flags (arg :: args)
                  w_system
       = (refusal, w_system))
  ∧ (∀ flags t_id t_stamp,
       cmd.runInit flags [] t_id t_stamp w_system
       = (Err (ErrNew ("cannot create RDB repository in system directory: "
                       +:+ repo_root w_system)), w_system)).
Proof.
  apply (system_directory_is_refused no_rel Glob_literal addPath_nothing
           w_system "/mnt/" "C:\Windows\System32" "/work").
  - vm_compute. reflexivity.
  - vm_compute. reflexivity.
Defined.

Lemma repository_files_are_apart_witness :
  Filepath.Join [Filepath.Join [Path the_repo; ".rdb"]; "HEAD"]
  = head_of (Path the_repo)
  ∧ Filepath.Join [Filepath.Join [Path the_repo; ".rdb"]; "config.json"]
    = config_file (Path the_repo)
  ∧ NoDup [ config_file (Path the_repo); head_of (Path the_repo);
            object_file the_repo h_tree; cmd.ref_path the_repo "main" ]
  ∧ cmd.ref_path the_repo "../../HEAD" = head_of (Path the_repo).
Proof.
  apply (repository_files_are_apart the_repo h_tree "main").
  - vm_compute. reflexivity.
  - reflexivity.
Defined.

Lemma init_makes_a_repository_witness :
  let w' := snd (repo.Init (repo.NewRepository "/repo") "tree"
                           ["text"; "audio"] t0 t0 empty_world) in
  fst (repo.Init (repo.NewRepository "/repo") "tree" ["text"; "audio"]
                 t0 t0 empty_world)
  = Ok {| Path := Path (repo.NewRepository "/repo");
          Repo_Config := initial_config "tree" ["text"; "audio"] |}
  ∧ repo.IsRepository (Path (repo.NewRepository "/repo")) w' = (Ok true, w')
  ∧ repo.OpenRepository (Path (repo.NewRepository "/repo")) w'
    = (match json_Unmarshal_Config
               config_json
               (Repo_Config
                  (repo.NewRepository (Path (repo.NewRepository "/repo"))))
       with
       | Done cfg => Ok {| Path := Path (repo.NewRepository "/repo");
                           Repo_Config := cfg |}
       | Failed e =>
           Err (ErrWrap "failed to load repository config"
                  (ErrWrap "failed to unmarshal config" e))
       end, w').
Proof.
  apply (init_makes_a_repository (repo.NewRepository "/repo") "tree"
           ["text"; "audio"] t0 t0 config_json empty_tree_json initial_json
           empty_world).
  - reflexivity.
  - reflexivity.
  - reflexivity.
Defined.

Lemma init_points_head_at_the_initial_commit_witness :
  let w' := snd (repo.Init (repo.NewRepository "/repo") "tree"
                           ["text"; "audio"] t0 t0 empty_world) in
  repo.GetCurrentBranch (repo.NewRepository "/repo") w' = (Ok "main", w')
  ∧ repo.GetCurrentCommit (repo.NewRepository "/repo") w'
    = (Ok (hash_of initial_json), w')
  ∧ repo.ReadObject (repo.NewRepository "/repo") (hash_of initial_json) w'
    = (Ok ("commit", initial_json), w').
Proof.
  apply (init_points_head_at_the_initial_commit (repo.NewRepository "/repo")
           "tree" ["text"; "audio"] t0 t0 config_json empty_tree_json
           initial_json empty_world).
  - reflexivity.
  - reflexivity.
  - reflexivity.
  - vm_compute. discriminate.
Defined.

Lemma commit_is_read_back_witness :
  let w' := snd (cmd.runCommit (plain "first") t1 t1 w_init) in
  fst (cmd.runCommit (plain "first") t1 t1 w_init) = Ok tt
  ∧ repo.OpenRepository (repo_root w') w' = (Ok the_repo, w')
  ∧ repo.GetCurrentBranch the_repo w' = (Ok "main", w')
  ∧ repo.GetCurrentCommit the_repo w'
    = (Ok (hash_of (PlainJSON.commit commit_first)), w')
  ∧ repo.ReadObject the_repo (hash_of (PlainJSON.commit commit_first)) w'
    = (Ok ("commit", PlainJSON.commit commit_first), w').
Proof.
  apply (commit_is_read_back (plain "first") t1 t1 w_init the_repo
           "refs/heads/" "main" "" empty_tree_json
           (PlainJSON.commit commit_first)).
  - vm_compute. reflexivity.
  - vm_compute. reflexivity.
  - vm_compute. reflexivity.
  - reflexivity.
  - reflexivity.
  - reflexivity.
  - reflexivity.
  - vm_compute. reflexivity.
  - vm_compute. discriminate.
Defined.

Lemma status_prints_branch_and_tip_witness :
  cmd.runStatus true w_init
  = (Ok tt, with_output (status_lines true "main" (tip w_init)) w_init)
  ∧ files (with_output (status_lines true "main" (tip w_init)) w_init)
    = files w_init
  ∧ syscalls (with_output (status_lines true "main" (tip w_init)) w_init)
    = syscalls w_init.
Proof.
  apply (status_prints_branch_and_tip true w_init the_repo "refs/heads/"
           "main" (tip w_init)).
  - vm_compute. reflexivity.
  - vm_compute. reflexivity.
  - vm_compute. reflexivity.
  - reflexivity.
  - vm_compute. reflexivity.
Defined.

Lemma init_is_not_repeated_witness :
  let w' := snd (cmd.runInit tree_flags [] t0 t0 empty_world) in
  cmd.runInit flat_flags [] t1 t1 w'
  = (Err (ErrNew ("RDB repository already exists at "
                  +:+ abs_path empty_world (hd "." []))), w').
Proof.
  apply (init_is_not_repeated tree_flags flat_flags [] t0 t0 t1 t1
           empty_world).
  vm_compute. reflexivity.
Defined.

Lemma status_after_init_witness :
  let w' := snd (cmd.runInit tree_flags [] t0 t0 empty_world) in
  ∃ treeJ commitJ,
    json_Marshal {| Entries := [] |} = Done treeJ
    ∧ json_Marshal (initial_commit t0 t0 (hash_of treeJ)) = Done commitJ
    ∧ cmd.runStatus false w'
      = (Ok tt,
         with_output (status_lines false "main" (hash_of commitJ)) w').
Proof.
  apply (status_after_init tree_flags t0 t0 false config_json
           example_config empty_world).
  - vm_compute. reflexivity.
  - reflexivity.
  - vm_compute. reflexivity.
Defined.

Lemma init_checks_the_layout_late_witness :
  let p := abs_path empty_world (hd "." []) in
  cmd.runInit nested_flags [] t0 t0 empty_world
  = (Err (ErrNew ("invalid layout: " +:+ cmd.layout nested_flags
                  +:+ " (must be 'tree' or 'flat')")),
     sys (SysMkdirAll p) empty_world)
  ∧ files (sys (SysMkdirAll p) empty_world) = files empty_world.
Proof.
  apply (init_checks_the_layout_late nested_flags [] t0 t0 empty_world).
  - vm_compute. reflexivity.
  - vm_compute. reflexivity.
  - vm_compute. discriminate.
  - vm_compute. discriminate.
Defined.


Lemma every_integer_names_an_asset_directory_witness :
  cmd.isAssetPath rel_under_repo "/repo" "/repo/assets/-5/readme.txt" = true.
Proof.
  apply (every_integer_names_an_asset_directory rel_under_repo "/repo"
           "/repo/assets/-5/readme.txt" (-5) "/readme.txt").
  - vm_compute. split; discriminate.
  - right. exists "readme.txt". reflexivity.
  - vm_compute. reflexivity.
Defined.

Lemma add_hands_over_the_accepted_paths_witness :
  let accepted m :=
    cmd.isAssetPath rel_under_repo (Path the_repo) (abs_path w_init m) in
  let w1 :=
    with_output
      (add_lines accepted glob_literal
                 ["assets/1030002/a.txt"; "notes.txt"]) w_init in
  cmd.runAdd rel_under_repo Glob_literal addPath_nothing no_flags
             ["assets/1030002/a.txt"; "notes.txt"] w_init
  = match staged accepted glob_literal
            ["assets/1030002/a.txt"; "notes.txt"] with
    | [] => (Ok tt,
             with_output ["No asset files found to add" +:+ cmd.newline] w1)
    | paths =>
        repo.for_each
          (λ path, wrap ("failed to add " +:+ path)
                        (addPath_nothing the_repo path no_flags))
          paths w1
    end.
Proof.
  apply (add_hands_over_the_accepted_paths rel_under_repo Glob_literal
           addPath_nothing glob_literal (λ _ _, eq_refl) no_flags
           "assets/1030002/a.txt" ["notes.txt"] w_init the_repo).
  - vm_compute. reflexivity.
  - vm_compute. reflexivity.
Defined.

(** What the example run of [add] stages and prints. *)
Lemma add_example_run :
  let accepted m :=
    cmd.isAssetPath rel_under_repo (Path the_repo) (abs_path w_init m) in
  staged accepted glob_literal ["assets/1030002/a.txt"; "notes.txt"]
  = ["assets/1030002/a.txt"]
  ∧ add_lines accepted glob_literal ["assets/1030002/a.txt"; "notes.txt"]
    = [skip_line "notes.txt"].
Proof. split; vm_compute; reflexivity. Qed.

End FurtherRuns.

(** ** Climbing a path by [filepath.Dir] *)

Section Climb.

Lemma Contains_slash_segment (x : string) :
  segment x = true → Strings.Contains x "/" = false.
Proof.
  unfold segment. induction x as [|c x IH]; [done|].
  cbn [Bytes.forallb]. intros [Hc Hx]%andb_true_iff.
  apply negb_true_iff in Hc. change Filepath.Separator with "/"%char in Hc.
  cbn [Strings.Contains Strings.HasPrefix].
  rewrite Ascii.eqb_sym, Hc, (IH Hx). reflexivity.
Qed.

Lemma dir_prefix_segment (x : string) :
  segment x = true → Filepath.dir_prefix x = "".
Proof.
  intros Hx. destruct x as [|c x]; [done|].
  cbn [Filepath.dir_prefix]. by rewrite Contains_slash_segment.
Qed.

Lemma dir_prefix_app (a x : string) :
  segment x = true →
  Filepath.dir_prefix (a +:+ String "/" x) = a +:+ "/".
Proof.
  intros Hx. induction a as [|c a IH].
  - rewrite str_app_nil_l.
    pose proof (Contains_app "" "/" x) as Hin.
    change ("" +:+ "/" +:+ x) with (String "/" x) in Hin.
    cbn [Filepath.dir_prefix]. by rewrite Hin, dir_prefix_segment.
  - rewrite !str_app_cons.
    pose proof (Contains_app (String c a) "/" x) as Hin.
    change (String c a +:+ "/" +:+ x)
      with (String c (a +:+ String "/" x)) in Hin.
    cbn [Filepath.dir_prefix]. cbn [Filepath.dir_prefix] in IH.
    rewrite Hin, IH. reflexivity.
Qed.

Lemma canonical_tail (root : bool) (x : string) (rest : list string) :
  canonical root (x :: rest) →
  canonical root rest ∧ segment x = true ∧ x ≠ "".
Proof.
  intros Hc. pose proof (canonical_elements root _ Hc) as Hel.
  apply Forall_cons in Hel as [[Hseg Hne] _]. split; [|done].
  destruct Hc as (names & k & Heq & Hnames & Hroot).
  destruct names as [|n names].
  - destruct k as [|k]; [done|]. cbn [app repeat] in Heq.
    injection Heq as _ ->. exists [], k. repeat split; [done|].
    intros Hr. by specialize (Hroot Hr).
  - cbn [app] in Heq. injection Heq as _ ->.
    apply Forall_cons in Hnames as [_ Hns]. by exists names, k.
Qed.

Lemma Join_snoc (l : list string) (e x : string) :
  Strings.Join ((e :: l) ++ [x]) "/"
  = Strings.Join (e :: l) "/" +:+ String "/" x.
Proof.
  revert e. induction l as [|e' l IH]; intros e; [done|].
  change (Strings.Join ((e :: e' :: l) ++ [x]) "/")
    with (e +:+ String "/" (Strings.Join ((e' :: l) ++ [x]) "/")).
  change (Strings.Join (e :: e' :: l) "/")
    with (e +:+ String "/" (Strings.Join (e' :: l) "/")).
  by rewrite IH, str_app_assoc.
Qed.

(** On a cleaned path [Dir] drops the last element, and the paths
    without elements are its fixed points. *)
Lemma Dir_render (root : bool) (x : string) (rest : list string) :
  canonical root (x :: rest) →
  Filepath.Dir (render root (x :: rest)) = render root rest.
Proof.
  intros Hc. destruct (canonical_tail root x rest Hc) as (Hrest & Hseg & Hne).
  unfold Filepath.Dir.
  destruct (rev rest) as [|e l] eqn:Hrev.
  - apply (f_equal (@rev string)) in Hrev.
    rewrite rev_involutive in Hrev. subst rest.
    unfold render. cbn [rev app Strings.Join].
    destruct root.
    + change (String Filepath.Separator x) with ("" +:+ String "/" x).
      change (String.eqb ("" +:+ String "/" x) "") with false. cbv iota.
      by rewrite dir_prefix_app.
    + apply String.eqb_neq in Hne. rewrite Hne.
      by rewrite dir_prefix_segment.
  - destruct (render_elems root rest Hrest) as [Hroot Hel].
    assert (Hrender : render root (x :: rest)
                      = render root rest +:+ String "/" x).
    { unfold render. cbn [rev]. rewrite Hrev, Join_snoc.
      pose proof (canonical_elements root rest Hrest) as Hall.
      apply Forall_rev in Hall. rewrite Hrev in Hall.
      apply Forall_cons in Hall as [[_ He] _].
      pose proof (Join_nonempty e l "/" He) as HJ.
      destruct root.
      - reflexivity.
      - apply String.eqb_neq in HJ. rewrite HJ.
        destruct (String.eqb_spec (Strings.Join (e :: l) "/" +:+ String "/" x)
                    "") as [Heq|_]; [|done].
        destruct (Strings.Join (e :: l) "/"); done. }
    rewrite Hrender, dir_prefix_app by done.
    change (render root rest +:+ "/")
      with (render root rest +:+ String "/" "").
    rewrite Clean_render, rooted_app, clean_elems_app
      by apply render_nonempty.
    rewrite Hroot. unfold clean_elems.
    change Filepath.Separator with "/"%char. rewrite Hroot, Hel.
    reflexivity.
Qed.

Lemma Dir_render_nil (root : bool) :
  Filepath.Dir (render root []) = render root [].
Proof. by destruct root. Qed.

Lemma Dir_cleaned (p : string) :
  ∃ root out, Filepath.Dir p = render root out ∧ canonical root out
              ∧ (length out ≤ S (String.length p))%nat.
Proof.
  exists (Filepath.rooted (Filepath.dir_prefix p)),
         (clean_elems (Filepath.dir_prefix p)).
  split; [apply Clean_render|]. split; [apply canonical_clean_elems|].
  assert (Hfold : ∀ root segs out,
            (length (fold_left (Filepath.clean_step root) segs out)
             ≤ length out + length segs)%nat).
  { intros root segs. induction segs as [|s segs IH]; intros out;
      [cbn; lia|].
    cbn [fold_left length]. etrans; [apply IH|].
    assert (length (Filepath.clean_step root out s) ≤ S (length out))%nat;
      [|lia].
    unfold Filepath.clean_step.
    destruct (_ || _); [lia|]. destruct (String.eqb s "..");
      [|cbn; lia].
    destruct out as [|top rest]; [destruct root; cbn; lia|].
    destruct (String.eqb top ".."); cbn; lia. }
  assert (Hsplit : ∀ s, (length (Strings.Split "/" s) ≤ S (String.length s))%nat).
  { intros s. induction s as [|c s IH]; [cbn; lia|].
    cbn [Strings.Split String.length]. destruct (Ascii.eqb c "/");
      [cbn; lia|].
    destruct (Strings.Split "/" s); cbn in *; lia. }
  assert (Hpre : ∀ s, (String.length (Filepath.dir_prefix s)
                       ≤ String.length s)%nat).
  { intros s. induction s as [|c s IH]; [done|].
    cbn [Filepath.dir_prefix]. destruct (Strings.Contains _ _);
      cbn [String.length]; lia. }
  unfold clean_elems. change Filepath.Separator with "/"%char.
  specialize (Hfold (Filepath.rooted (Filepath.dir_prefix p))
                (Strings.Split "/" (Filepath.dir_prefix p)) []).
  specialize (Hsplit (Filepath.dir_prefix p)). specialize (Hpre p).
  cbn [length] in Hfold. lia.
Qed.

End Climb.

(** ** Adding a path *)

Section OnlyPrints.

Lemma only_prints_ret {A} (a : A) : only_prints (ret a).
Proof. intros w _. exists []. by rewrite with_output_nil. Qed.

Lemma only_prints_mret {A} (a : A) : only_prints (mret a).
Proof. apply only_prints_ret. Qed.

Lemma only_prints_lift {A} (o : outcome A) : only_prints (lift o).
Proof. intros w _. exists []. by rewrite with_output_nil. Qed.

Lemma only_prints_fail {A} (e : error) : only_prints (@fail A e).
Proof. intros w _. exists []. by rewrite with_output_nil. Qed.

Lemma only_prints_Printf (text : string) : only_prints (fmt_Printf text).
Proof. intros w _. by exists [text]. Qed.

Lemma only_prints_Abs (path : string) : only_prints (filepath_Abs path).
Proof. intros w _. exists []. by rewrite with_output_nil. Qed.

Lemma only_prints_bind {A B} (m : M A) (k : A → M B) :
  only_prints m → (∀ a, only_prints (k a)) → only_prints (m ≫= k).
Proof.
  intros Hm Hk w Hw. destruct (Hm w Hw) as (l1 & H1).
  unfold mbind, M_bind, bind.
  destruct (m w) as [[a|e|p] w1]; cbn [snd] in *; [|by eauto..].
  subst w1. destruct (Hk a (with_output l1 w) Hw) as (l2 & H2).
  exists (l1 ++ l2). by rewrite H2, with_output_app.
Qed.

Lemma only_prints_wrap {A} (msg : string) (m : M A) :
  only_prints m → only_prints (wrap msg m).
Proof.
  intros Hm w Hw. destruct (Hm w Hw) as (l & Hl). unfold wrap.
  destruct (m w) as [[a|e|p] w1]; cbn [snd] in *; eauto.
Qed.

Lemma only_prints_succeeds {A} (m : M A) :
  only_prints m → only_prints (cmd.succeeds m).
Proof. intros Hm w Hw. exact (Hm w Hw). Qed.

End OnlyPrints.

Ltac printing :=
  repeat first
    [ apply only_prints_bind; [|intros ?]
    | apply only_prints_wrap
    | apply only_prints_ret
    | apply only_prints_mret
    | apply only_prints_lift
    | apply only_prints_fail
    | apply only_prints_Printf
    | apply only_prints_Abs
    | apply only_prints_succeeds
    | progress cbv zeta
    | match goal with
      | |- only_prints (if ?b then _ else _) => destruct b
      | |- only_prints (match ?x with _ => _ end) => destruct x
      end ].

Section AddPathRuns.

Variable filepath_Rel : string → string → outcome string.
Variable os_Stat_any : string → M unit.

(** [os.Stat] looks and changes nothing. *)
Hypothesis Stat_quiet : ∀ path w, snd (os_Stat_any path w) = w.

Lemma only_prints_Stat (path : string) : only_prints (os_Stat_any path).
Proof.
  intros w _. exists []. by rewrite with_output_nil, Stat_quiet.
Qed.

Lemma succeeds_Stat (path : string) (w : world) :
  cmd.succeeds (os_Stat_any path) w
  = (Ok (is_Ok (fst (os_Stat_any path w))), w).
Proof. unfold cmd.succeeds. by rewrite Stat_quiet. Qed.

(** The loops end within the iterations they are given. *)
Lemma findAssetDirectory_loop_ends (root : bool) (out : list string)
    (fuel : nat) (repoPath : string) (w : world) :
  canonical root out → (length out < fuel)%nat →
  ∃ dir, cmd.findAssetDirectory_loop filepath_Rel os_Stat_any fuel repoPath
           (render root out) w = (Ok (Some dir), w).
Proof.
  revert fuel. induction out as [|x rest IH]; intros fuel Hc Hfuel;
    (destruct fuel as [|fuel]; [lia|]);
    cbn [cmd.findAssetDirectory_loop];
    (destruct (String.eqb _ repoPath); [by eexists|]);
    run_m; rewrite succeeds_Stat;
    (destruct (is_Ok _); [by eexists|]);
    match goal with |- context [if ?b then _ else _] =>
      destruct b; [by eexists|] end.
  - rewrite Dir_render_nil, String.eqb_refl. by eexists.
  - rewrite Dir_render by done.
    destruct (String.eqb _ _); [by eexists|].
    apply IH; [by apply (canonical_tail root x rest)|cbn in Hfuel; lia].
Qed.

Lemma metadata_loop_ends (root : bool) (out : list string)
    (fuel : nat) (repoPath assetDir : string) (w : world) :
  canonical root out → (length out < fuel)%nat →
  ∃ dir, cmd.metadata_loop os_Stat_any fuel repoPath assetDir
           (render root out) w = (Ok (Some dir), w)
         ∧ (dir = assetDir
            ∨ (dir ≠ ""
               ∧ fst (os_Stat_any (Filepath.Join [dir; "meta.json"]) w)
                 = Ok tt)).
Proof.
  revert fuel. induction out as [|x rest IH]; intros fuel Hc Hfuel;
    (destruct fuel as [|fuel]; [lia|]);
    cbn [cmd.metadata_loop];
    (destruct (String.eqb _ repoPath); [eexists; split; [done|by left]|]);
    run_m; rewrite succeeds_Stat;
    (destruct (fst (os_Stat_any _ w)) as [[]| |] eqn:Hstat; cbn [is_Ok];
       [eexists; split; [done|right; split;
                                [apply render_nonempty|exact Hstat]]| |]).
  - rewrite Dir_render_nil, String.eqb_refl.
    eexists; split; [done|by left].
  - rewrite Dir_render_nil, String.eqb_refl.
    eexists; split; [done|by left].
  - rewrite Dir_render by done.
    destruct (String.eqb _ _); [eexists; split; [done|by left]|].
    apply IH; [by apply (canonical_tail root x rest)|cbn in Hfuel; lia].
  - rewrite Dir_render by done.
    destruct (String.eqb _ _); [eexists; split; [done|by left]|].
    apply IH; [by apply (canonical_tail root x rest)|cbn in Hfuel; lia].
Qed.

(** The directory the loop of [createOrUpdateMetadata] settles on is
    the one it was given or lies above the one it started from. *)
Lemma metadata_loop_above (fuel : nat) (repoPath assetDir dir : string)
    (w : world) (found : string) :
  fst (cmd.metadata_loop os_Stat_any fuel repoPath assetDir dir w)
  = Ok (Some found) →
  found = assetDir ∨ ∃ k, found = Nat.iter k Filepath.Dir dir.
Proof.
  revert dir. induction fuel as [|fuel IH]; intros dir; [done|].
  cbn [cmd.metadata_loop].
  destruct (String.eqb dir repoPath); [intros [= <-]; by left|].
  run_m. rewrite succeeds_Stat.
  destruct (is_Ok _); [intros [= <-]; right; by exists 0%nat|].
  destruct (String.eqb _ dir); [intros [= <-]; by left|].
  intros Hrun. destruct (IH _ Hrun) as [->|[k ->]]; [by left|].
  right. exists (S k). by rewrite Nat.iter_succ_r.
Qed.

Lemma findAssetDirectory_ends (repoPath filePath : string) (w : world) :
  ∃ dir, cmd.findAssetDirectory filepath_Rel os_Stat_any repoPath filePath w
         = (Ok dir, w).
Proof.
  destruct (Dir_cleaned filePath) as (root & out & Hdir & Hc & Hlen).
  destruct (findAssetDirectory_loop_ends root out (cmd.climb_bound filePath)
              repoPath w Hc) as (dir & Hrun);
    [unfold cmd.climb_bound; lia|].
  exists dir. unfold cmd.findAssetDirectory. run_m.
  by rewrite Hdir, Hrun.
Qed.

Lemma abs_path_nonempty (w : world) (path : string) :
  cwd w ≠ "" → abs_path w path ≠ "".
Proof.
  intros Hw. unfold abs_path. destruct (Filepath.IsAbs path).
  - apply Clean_nonempty.
  - rewrite Join_cons by done. apply Clean_nonempty.
Qed.

(** What [createOrUpdateMetadata] does for a path that exists: it
    announces the metadata file of the directory it settled on, which
    is the path itself or a directory above it that holds a
    [meta.json]. *)
Lemma createOrUpdateMetadata_settles (r : Repository)
    (path assetType assetName rel : string) (assetID : Z) (w : world) :
  path ≠ "" →
  filepath_Rel (Path r) path = Ok rel →
  fst (os_Stat_any path w) = Ok tt →
  ∃ assetDir,
    cmd.createOrUpdateMetadata filepath_Rel os_Stat_any r path assetType
                                assetID assetName w
    = (Ok tt,
       with_output
         [ "Would create/update metadata at "
           +:+ Filepath.Join [assetDir; "meta.json"] +:+ cmd.newline ] w)
    ∧ (assetDir = path
       ∨ (fst (os_Stat_any (Filepath.Join [assetDir; "meta.json"]) w)
          = Ok tt
          ∧ ∃ k, assetDir = Nat.iter (S k) Filepath.Dir path)).
Proof.
  intros Hpath Hrel Hstat.
  destruct (Dir_cleaned path) as (root & out & Hdir & Hc & Hlen).
  destruct (metadata_loop_ends root out (cmd.climb_bound path) (Path r)
              path w Hc) as (dir & Hrun & Hdirne);
    [unfold cmd.climb_bound; lia|].
  assert (Hne : dir ≠ "") by (by destruct Hdirne as [->|[? _]]).
  assert (Habove : dir = path
                   ∨ ∃ k, dir = Nat.iter (S k) Filepath.Dir path).
  { destruct (metadata_loop_above (cmd.climb_bound path) (Path r) path
                (render root out) w dir) as [->|[k ->]];
      [by rewrite Hrun|by left|].
    right. exists k. by rewrite Nat.iter_succ_r, Hdir. }
  exists dir. split.
  - unfold cmd.createOrUpdateMetadata. run_m. rewrite Hrel.
    pose proof (Stat_quiet path w) as Hq.
    destruct (os_Stat_any path w) as [o w1]. cbn [fst snd] in Hstat, Hq.
    subst o w1. rewrite Hdir, Hrun.
    apply String.eqb_neq in Hne. rewrite Hne. apply Printf_run.
  - destruct Hdirne as [->|[_ Hmeta]]; [by left|].
    destruct Habove as [->|Hk]; [by left|by right].
Qed.

Lemma createOrUpdateMetadata_run (r : Repository)
    (path assetType assetName rel : string) (assetID : Z) (w : world) :
  path ≠ "" →
  filepath_Rel (Path r) path = Ok rel →
  fst (os_Stat_any path w) = Ok tt →
  ∃ assetDir,
    cmd.createOrUpdateMetadata filepath_Rel os_Stat_any r path assetType
                                assetID assetName w
    = (Ok tt,
       with_output
         [ "Would create/update metadata at "
           +:+ Filepath.Join [assetDir; "meta.json"] +:+ cmd.newline ] w)
    ∧ (assetDir = path
       ∨ fst (os_Stat_any (Filepath.Join [assetDir; "meta.json"]) w)
         = Ok tt).
Proof.
  intros Hpath Hrel Hstat.
  destruct (createOrUpdateMetadata_settles r path assetType assetName rel
              assetID w Hpath Hrel Hstat) as (assetDir & Hrun & Hwhere).
  exists assetDir. split; [done|].
  destruct Hwhere as [->|[Hmeta _]]; [by left|by right].
Qed.

Lemma id_from_path_nonzero (rel : string) (assetID : Z) :
  assetID ≠ 0 → cmd.id_from_path rel assetID = assetID.
Proof.
  intros Hne. unfold cmd.id_from_path. apply Z.eqb_neq in Hne.
  rewrite Hne. by destruct (_ && _).
Qed.

(** The id that [addPath] reads from a path under [assets/]. *)
Lemma id_from_path_asset (id tail : string) (n : Z) :
  segment id = true →
  tail = "" ∨ (∃ t, tail = String Filepath.Separator t) →
  Strconv.Atoi id = Ok n →
  cmd.id_from_path ("assets/" +:+ id +:+ tail) 0 = n.
Proof.
  intros Hseg Htail Hatoi. unfold cmd.id_from_path.
  change ("assets/" +:+ id +:+ tail)
    with ("assets" +:+ String "/" (id +:+ tail)).
  change Filepath.Separator with "/"%char in *.
  rewrite Split_segment_sep by done.
  destruct Htail as [->|(t & ->)].
  - rewrite str_app_nil_r, Split_segment by done.
    cbn [length Nat.leb nth]. change (String.eqb "assets" "assets") with true.
    cbn [andb]. by rewrite Hatoi.
  - rewrite Split_segment_sep by done.
    cbn [length Nat.leb nth]. change (String.eqb "assets" "assets") with true.
    cbn [andb]. by rewrite Hatoi.
Qed.

Lemma getAssetTypeFromID_nonempty (id : Z) : cmd.getAssetTypeFromID id ≠ "".
Proof.
  unfold cmd.getAssetTypeFromID.
  destruct (cmd.assetTypeMap !! id) as [t|] eqn:Hlook; [|done].
  apply elem_of_list_to_map_2 in Hlook. intros ->.
  revert Hlook. unfold cmd.assetTypeTable.
  rewrite !elem_of_cons. rewrite elem_of_nil.
  intros H. repeat (destruct H as [H|H]; [by inversion H|]). done.
Qed.

(** The last two steps of [addPath], once the type is known. *)
Lemma addPath_settles (r : Repository) (path abs assetType : string)
    (assetID : Z) (assetName rel : string) (w : world) :
  abs ≠ "" →
  filepath_Rel (Path r) abs = Ok rel →
  fst (os_Stat_any abs w) = Ok tt →
  ∃ assetDir,
    (wrap "failed to create/update metadata"
          (cmd.createOrUpdateMetadata filepath_Rel os_Stat_any r abs
             assetType assetID assetName);;
     fmt_Printf ("Added " +:+ path +:+ " (type: " +:+ assetType
                 +:+ ", id: " +:+ Strconv.Itoa assetID +:+ ")"
                 +:+ cmd.newline)) w
    = (Ok tt,
       with_output
         [ "Would create/update metadata at "
           +:+ Filepath.Join [assetDir; "meta.json"] +:+ cmd.newline;
           "Added " +:+ path +:+ " (type: " +:+ assetType
           +:+ ", id: " +:+ Strconv.Itoa assetID +:+ ")" +:+ cmd.newline ]
         w)
    ∧ (assetDir = abs
       ∨ (fst (os_Stat_any (Filepath.Join [assetDir; "meta.json"]) w)
          = Ok tt
          ∧ ∃ k, assetDir = Nat.iter (S k) Filepath.Dir abs)).
Proof.
  intros Habs Hrel Hstat.
  destruct (createOrUpdateMetadata_settles r abs assetType assetName rel
              assetID w Habs Hrel Hstat) as (assetDir & Hrun & Hwhere).
  exists assetDir. split; [|done]. run_m. rewrite Hrun.
  by rewrite Printf_run, with_output_app.
Qed.

Lemma addPath_announces (r : Repository) (path abs assetType : string)
    (assetID : Z) (assetName rel : string) (w : world) :
  abs ≠ "" →
  filepath_Rel (Path r) abs = Ok rel →
  fst (os_Stat_any abs w) = Ok tt →
  ∃ assetDir,
    (wrap "failed to create/update metadata"
          (cmd.createOrUpdateMetadata filepath_Rel os_Stat_any r abs
             assetType assetID assetName);;
     fmt_Printf ("Added " +:+ path +:+ " (type: " +:+ assetType
                 +:+ ", id: " +:+ Strconv.Itoa assetID +:+ ")"
                 +:+ cmd.newline)) w
    = (Ok tt,
       with_output
         [ "Would create/update metadata at "
           +:+ Filepath.Join [assetDir; "meta.json"] +:+ cmd.newline;
           "Added " +:+ path +:+ " (type: " +:+ assetType
           +:+ ", id: " +:+ Strconv.Itoa assetID +:+ ")" +:+ cmd.newline ]
         w)
    ∧ (assetDir = abs
       ∨ fst (os_Stat_any (Filepath.Join [assetDir; "meta.json"]) w)
         = Ok tt).
Proof.
  intros Habs Hrel Hstat.
  destruct (addPath_settles r path abs assetType assetID assetName rel w
              Habs Hrel Hstat) as (assetDir & Hrun & Hwhere).
  exists assetDir. split; [done|].
  destruct Hwhere as [->|[Hmeta _]]; [by left|by right].
Qed.

End AddPathRuns.

Section AddPathClaims.

Context `{JsonConfig}.

Variable filepath_Rel : string → string → outcome string.
Variable filepath_Glob : string → M (list string).
Variable os_Stat_any : string → M unit.

(** [os.Stat] looks and changes nothing, and [filepath.Glob] changes
    nothing either. *)
Hypothesis Stat_quiet : ∀ path w, snd (os_Stat_any path w) = w.
Hypothesis Glob_quiet : ∀ pattern w, snd (filepath_Glob pattern w) = w.

Lemma only_prints_createOrUpdateMetadata (r : Repository)
    (path assetType assetName : string) (assetID : Z) :
  path ≠ "" →
  only_prints (cmd.createOrUpdateMetadata filepath_Rel os_Stat_any r path
                 assetType assetID assetName).
Proof.
  intros Hpath w Hw. unfold cmd.createOrUpdateMetadata. run_m.
  destruct (filepath_Rel (Path r) path) as [rel| |];
    [|exists []; by rewrite with_output_nil..].
  pose proof (Stat_quiet path w) as Hq.
  destruct (os_Stat_any path w) as [[[]| |] w1]; cbn [snd] in Hq; subst w1;
    [|exists []; by rewrite with_output_nil..].
  destruct (Dir_cleaned path) as (root & out & Hdir & Hc & Hlen).
  destruct (metadata_loop_ends os_Stat_any Stat_quiet root out
              (cmd.climb_bound path) (Path r) path w Hc)
    as (dir & Hrun & Hdirne); [unfold cmd.climb_bound; lia|].
  assert (Hne : dir ≠ "") by (by destruct Hdirne as [->|[? _]]).
  rewrite Hdir, Hrun. apply String.eqb_neq in Hne. rewrite Hne.
  eexists. by rewrite Printf_run.
Qed.

Lemma only_prints_findAssetDirectory (repoPath filePath : string) :
  only_prints (cmd.findAssetDirectory filepath_Rel os_Stat_any repoPath
                 filePath).
Proof.
  intros w _.
  destruct (findAssetDirectory_ends filepath_Rel os_Stat_any Stat_quiet
              repoPath filePath w) as (dir & ->).
  exists []. by rewrite with_output_nil.
Qed.

Lemma only_prints_after_Abs {B} (path msg : string) (k : string → M B) :
  (∀ abs, abs ≠ "" → only_prints (k abs)) →
  only_prints (wrap msg (filepath_Abs path) ≫= k).
Proof.
  intros Hk w Hw. run_m. rewrite filepath_Abs_run.
  apply (Hk (abs_path w path)); [by apply abs_path_nonempty|done].
Qed.

Lemma only_prints_addPath (r : Repository) (path : string)
    (flags : cmd.addFlags) :
  only_prints (cmd.addPath filepath_Rel os_Stat_any r path flags).
Proof.
  unfold cmd.addPath. cbv zeta.
  apply only_prints_after_Abs. intros abs Habs.
  apply only_prints_bind;
    [apply only_prints_wrap, only_prints_Stat, Stat_quiet|intros _].
  apply only_prints_bind.
  { destruct (_ || _); [|printing].
    apply only_prints_bind; [printing|intros relPath].
    destruct (_ || _); [|printing].
    apply only_prints_bind; [apply only_prints_findAssetDirectory|].
    intros assetDir. cbv zeta. destruct (negb _); printing. }
  intros assetID. destruct (String.eqb _ ""); [printing|].
  apply only_prints_bind;
    [by apply only_prints_wrap, only_prints_createOrUpdateMetadata|].
  intros _. printing.
Qed.

Lemma only_prints_for_each {A} (f : A → M unit) (xs : list A) :
  (∀ x, only_prints (f x)) → only_prints (repo.for_each f xs).
Proof.
  intros Hf. induction xs as [|x xs IH]; cbn [repo.for_each]; [printing|].
  apply only_prints_bind; [apply Hf|by intros _].
Qed.

Lemma only_prints_unchanged {A} (m : M A) :
  (∀ w, snd (m w) = w) → only_prints m.
Proof. intros Hm w _. exists []. by rewrite with_output_nil, Hm. Qed.

Lemma only_prints_filter_matches (r : Repository)
    (matches allPaths : list string) :
  only_prints (cmd.filter_matches filepath_Rel r matches allPaths).
Proof.
  intros w _. rewrite filter_matches_run. by eexists.
Qed.

Lemma only_prints_expand_patterns (r : Repository)
    (args allPaths : list string) :
  only_prints (cmd.expand_patterns filepath_Rel filepath_Glob r args allPaths).
Proof.
  revert allPaths. induction args as [|pattern args IH]; intros allPaths;
    cbn [cmd.expand_patterns]; [printing|].
  apply only_prints_bind;
    [apply only_prints_wrap, only_prints_unchanged, Glob_quiet|].
  intros [|m ms].
  - apply only_prints_bind; [printing|by intros _].
  - apply only_prints_bind; [apply only_prints_filter_matches|done].
Qed.

(** X23: the add command stages nothing.  [addPath] and the whole of
    [runAdd] leave the files, the record of system calls and the working
    directory as they were; all they do is print, and the metadata file
    is only announced. *)
Theorem add_only_prints :
  (∀ r path flags,
     only_prints (cmd.addPath filepath_Rel os_Stat_any r path flags))
  ∧ (∀ flags args,
       only_prints
         (cmd.runAdd filepath_Rel filepath_Glob
            (cmd.addPath filepath_Rel os_Stat_any) flags args)).
Proof.
  split; [apply only_prints_addPath|].
  intros flags [|arg args]; unfold cmd.runAdd; [printing|].
  apply only_prints_bind; [printing|intros absPath].
  destruct (cmd.in_system_directory absPath); [printing|].
  apply only_prints_bind.
  { apply only_prints_unchanged. intros w. by rewrite IsRepository_run. }
  intros isrepo. destruct (negb isrepo); [printing|].
  apply only_prints_bind.
  { apply only_prints_wrap, only_prints_unchanged. intros w.
    by destruct (OpenRepository_cases absPath w)
      as [(r & -> & _)|(e & ->)]. }
  intros r.
  apply only_prints_bind; [apply only_prints_expand_patterns|].
  intros [|p ps]; [printing|].
  apply only_prints_for_each. intros path.
  apply only_prints_wrap, only_prints_addPath.
Qed.

(** X24: flags given on the command line are taken as they are.  With
    both [--type] and [--id] set, [addPath] never looks at the path for
    a type or an id: for any path that exists it announces the given
    type and id, whatever directory the path lies in.  The metadata file
    it announces lies in a directory above the path that holds a
    [meta.json] (the directory is reached from the path by taking
    [filepath.Dir] one or more times), or else under the path itself,
    be it a file or a directory. *)
Theorem explicit_flags_are_taken_as_given (r : Repository)
    (path rel : string) (flags : cmd.addFlags) (w : world) :
  cmd.addType flags ≠ "" → cmd.addID flags ≠ 0 → cwd w ≠ "" →
  fst (os_Stat_any (abs_path w path) w) = Ok tt →
  filepath_Rel (Path r) (abs_path w path) = Ok rel →
  ∃ assetDir,
    cmd.addPath filepath_Rel os_Stat_any r path flags w
    = (Ok tt,
       with_output
         [ "Would create/update metadata at "
           +:+ Filepath.Join [assetDir; "meta.json"] +:+ cmd.newline;
           "Added " +:+ path +:+ " (type: " +:+ cmd.addType flags
           +:+ ", id: " +:+ Strconv.Itoa (cmd.addID flags) +:+ ")"
           +:+ cmd.newline ] w)
    ∧ (assetDir = abs_path w path
       ∨ (fst (os_Stat_any (Filepath.Join [assetDir; "meta.json"]) w)
          = Ok tt
          ∧ ∃ k, assetDir = Nat.iter (S k) Filepath.Dir (abs_path w path))).
Proof.
  intros Htype Hid Hw Hstat Hrel.
  destruct (addPath_settles filepath_Rel os_Stat_any Stat_quiet r path
              (abs_path w path) (cmd.addType flags) (cmd.addID flags)
              (cmd.addName flags) rel w) as (assetDir & Hrun & Hwhere);
    [by apply abs_path_nonempty|done..|].
  exists assetDir. split; [|done]. rewrite <- Hrun. clear Hrun.
  unfold cmd.addPath. cbv zeta. run_m. rewrite filepath_Abs_run.
  pose proof (Stat_quiet (abs_path w path) w) as Hq.
  destruct (os_Stat_any (abs_path w path) w) as [o w1] eqn:Hs.
  cbn [fst snd] in Hstat, Hq. subst o w1.
  apply String.eqb_neq in Htype. apply Z.eqb_neq in Hid.
  rewrite Htype, Hid. cbn [orb andb]. rewrite Htype.
  reflexivity.
Qed.

(** X25: without [--type], the type comes from the id and the id from
    the path.  For a path that lies under [assets/<id>] relative to the
    repository, [addPath] takes the id given by [--id] or else the one in
    the path, and when that id is not 0 it announces the type that
    [getAssetTypeFromID] gives for it. *)
Theorem type_and_id_come_from_the_path (r : Repository)
    (path id tail : string) (n : Z) (flags : cmd.addFlags) (w : world) :
  cmd.addType flags = "" →
  segment id = true →
  tail = "" ∨ (∃ t, tail = String Filepath.Separator t) →
  Strconv.Atoi id = Ok n →
  filepath_Rel (Path r) (abs_path w path)
  = Ok ("assets/" +:+ id +:+ tail) →
  let assetID := if cmd.addID flags =? 0 then n else cmd.addID flags in
  assetID ≠ 0 → cwd w ≠ "" →
  fst (os_Stat_any (abs_path w path) w) = Ok tt →
  ∃ assetDir,
    cmd.addPath filepath_Rel os_Stat_any r path flags w
    = (Ok tt,
       with_output
         [ "Would create/update metadata at "
           +:+ Filepath.Join [assetDir; "meta.json"] +:+ cmd.newline;
           "Added " +:+ path +:+ " (type: "
           +:+ cmd.getAssetTypeFromID assetID
           +:+ ", id: " +:+ Strconv.Itoa assetID +:+ ")" +:+ cmd.newline ]
         w)
    ∧ (assetDir = abs_path w path
       ∨ fst (os_Stat_any (Filepath.Join [assetDir; "meta.json"]) w)
         = Ok tt).
Proof.
  intros Htype Hseg Htail Hatoi Hrel assetID Hid Hw Hstat.
  destruct (addPath_announces filepath_Rel os_Stat_any Stat_quiet r path
              (abs_path w path) (cmd.getAssetTypeFromID assetID) assetID
              (cmd.addName flags) ("assets/" +:+ id +:+ tail) w)
    as (assetDir & Hrun & Hwhere);
    [by apply abs_path_nonempty|done..|].
  exists assetDir. split; [|done]. rewrite <- Hrun. clear Hrun.
  assert (Hfirst : cmd.id_from_path ("assets/" +:+ id +:+ tail)
                     (cmd.addID flags) = assetID).
  { unfold assetID. destruct (Z.eqb_spec (cmd.addID flags) 0) as [->|Hne].
    - by apply id_from_path_asset.
    - by apply id_from_path_nonzero. }
  unfold cmd.addPath. cbv zeta. run_m. rewrite filepath_Abs_run.
  pose proof (Stat_quiet (abs_path w path) w) as Hq.
  destruct (os_Stat_any (abs_path w path) w) as [o w1] eqn:Hs.
  cbn [fst snd] in Hstat, Hq. subst o w1.
  rewrite Htype. cbn [String.eqb orb]. rewrite Hrel, Hfirst.
  destruct (findAssetDirectory_ends filepath_Rel os_Stat_any Stat_quiet
              (Path r) (abs_path w path) w) as (dir & ->).
  pose proof (getAssetTypeFromID_nonempty assetID) as Hne.
  apply String.eqb_neq in Hne. pose proof Hid as Hid'.
  apply Z.eqb_neq in Hid'.
  destruct (negb (String.eqb dir ""));
    rewrite ?id_from_path_nonzero by done;
    rewrite Hid'; cbn [negb andb]; rewrite Hne; reflexivity.
Qed.

(** X26: a path that passes the filter can still be refused.  When no
    flags are given and neither the path nor the directory that
    [findAssetDirectory] settles on yields an id other than 0, as for
    [assets/0/...], [addPath] fails for want of an asset type and prints
    nothing. *)
Theorem zero_id_is_not_added (r : Repository) (path rel : string)
    (flags : cmd.addFlags) (w : world) :
  cmd.addType flags = "" → cmd.addID flags = 0 → cwd w ≠ "" →
  fst (os_Stat_any (abs_path w path) w) = Ok tt →
  filepath_Rel (Path r) (abs_path w path) = Ok rel →
  cmd.id_from_path rel 0 = 0 →
  (∀ dir,
     cmd.findAssetDirectory filepath_Rel os_Stat_any (Path r)
                             (abs_path w path) w = (Ok dir, w) →
     cmd.id_from_path
       match filepath_Rel (Path r) dir with Ok p => p | _ => "" end 0 = 0) →
  cmd.addPath filepath_Rel os_Stat_any r path flags w
  = (Err (ErrNew "asset type not specified and could not be determined from path"),
     w).
Proof.
  intros Htype Hid Hw Hstat Hrel Hzero Hdir.
  unfold cmd.addPath. cbv zeta. run_m. rewrite filepath_Abs_run.
  pose proof (Stat_quiet (abs_path w path) w) as Hq.
  destruct (os_Stat_any (abs_path w path) w) as [o w1] eqn:Hs.
  cbn [fst snd] in Hstat, Hq. subst o w1.
  rewrite Htype, Hid. cbn [String.eqb orb]. rewrite Hrel, Hzero.
  destruct (findAssetDirectory_ends filepath_Rel os_Stat_any Stat_quiet
              (Path r) (abs_path w path) w) as (dir & Hfind).
  rewrite Hfind. specialize (Hdir dir Hfind).
  destruct (negb (String.eqb dir "")); [rewrite Hdir|]; reflexivity.
Qed.

(** X27: the loop of [findAssetDirectory] ends.  For every repository
    path and file path it returns, with the world as it was: either the
    empty string or a directory. *)
Theorem findAssetDirectory_returns (repoPath filePath : string)
    (w : world) :
  ∃ dir,
    cmd.findAssetDirectory filepath_Rel os_Stat_any repoPath filePath w
    = (Ok dir, w).
Proof.
  apply (findAssetDirectory_ends filepath_Rel os_Stat_any Stat_quiet).
Qed.

End AddPathClaims.

(** ** The list command *)

Section ListRuns.

Context `{JsonConfig}.

Variable os_Stat_any : string → M unit.
Variable os_Chdir : string → M unit.

(** [os.Stat] looks and changes nothing, and what it finds does not
    depend on what was printed. *)
Hypothesis Stat_reads : ∀ path lines w,
  os_Stat_any path (with_output lines w)
  = (fst (os_Stat_any path w), with_output lines w).


Lemma list_folders_run (assetsPath : string) (order : list (Z * string))
    (lines : list string) (w : world) :
  let line e :=
    folder_line
      (is_Ok (fst (os_Stat_any
                     (Filepath.Join [assetsPath; Strconv.Itoa e.1]) w)))
      e.1 e.2 in
  cmd.list_folders os_Stat_any assetsPath order (with_output lines w)
  = (Ok tt, with_output (lines ++ map line order) w).
Proof.
  cbn zeta. revert lines.
  induction order as [|[id name] order IH]; intros lines.
  - cbn [cmd.list_folders map]. by rewrite app_nil_r.
  - cbn [cmd.list_folders map]. run_m. unfold cmd.succeeds.
    rewrite Stat_reads. cbn [fst snd]. rewrite Printf_run, with_output_app.
    fold (folder_line
            (is_Ok (fst (os_Stat_any
                           (Filepath.Join [assetsPath; Strconv.Itoa id]) w)))
            id name).
    rewrite IH. by rewrite <- app_assoc.
Qed.

(** X28: the listing shows every asset type once.  Without [--cd], or
    without an argument, [list] prints two lines of heading, one line
    per entry of its table in the order the iteration yields them, with
    a mark that tells whether [assets/<id>] exists, and three lines of
    usage; it changes nothing else.  Whatever the order, the lines are
    those of the table. *)
Theorem listing_shows_every_asset_type (listCd : bool)
    (args : list string) (order : list (Z * string)) (w : world)
    (r : Repository) :
  repo.OpenRepository (repo_root w) w = (Ok r, w) →
  listCd = false ∨ args = [] →
  let line e :=
    folder_line
      (is_Ok (fst (os_Stat_any
                     (Filepath.Join [Filepath.Join [Path r; "assets"];
                                     Strconv.Itoa e.1]) w)))
      e.1 e.2 in
  cmd.runList os_Stat_any os_Chdir listCd args order w
  = (Ok tt,
     with_output (listing_header ++ map line order ++ listing_usage) w)
  ∧ (order ≡ₚ cmd.assetNameTable →
     map line order ≡ₚ map line cmd.assetNameTable).
Proof.
  intros Hopen Hlist line. split; [|by intros ->].
  destruct (OpenRepository_cases (repo_root w) w)
    as [(r' & Hopen' & Hpath & Hisrepo)|(e & He)]; [|congruence].
  unfold cmd.runList. run_m.
  rewrite filepath_Abs_dot, Hisrepo. cbn [negb]. rewrite Hopen.
  assert (Hrun :
    (fmt_Printf ("Asset Types and Folders:" +:+ cmd.newline);;
     fmt_Printf ("========================" +:+ cmd.newline +:+ cmd.newline);;
     cmd.list_folders os_Stat_any (Filepath.Join [Path r; "assets"]) order;;
     fmt_Printf (cmd.newline +:+ "Usage:" +:+ cmd.newline);;
     fmt_Printf ("  rdb list --cd <id>    # Change to specific asset folder"
                 +:+ cmd.newline);;
     fmt_Printf ("  rdb list --cd 1030002 # Change to Strings folder"
                 +:+ cmd.newline)) w
    = (Ok tt,
       with_output (listing_header ++ map line order ++ listing_usage) w)).
  { run_m. rewrite !Printf_run, with_output_app.
    rewrite list_folders_run. fold line.
    rewrite !Printf_run, !with_output_app.
    unfold listing_header, listing_usage. by rewrite <- !app_assoc. }
  destruct Hlist as [-> | ->]; [exact Hrun|].
  destruct listCd; exact Hrun.
Qed.


End ListRuns.

Section Tables.

(** X30: the three tables of asset ids agree.  [Init] makes a folder for
    exactly the ids that [list] shows and that [getAssetTypeFromID]
    knows, in the same order; the ids are distinct and each has seven
    digits, so that the listing shows it as [Itoa] prints it; and the
    folder that [list --cd] looks for, built in one step, is the folder
    that [Init] built in two. *)
Theorem asset_id_tables_agree :
  map fst cmd.assetNameTable = repo.predefined_asset_ids
  ∧ map fst cmd.assetTypeTable = repo.predefined_asset_ids
  ∧ NoDup repo.predefined_asset_ids
  ∧ Forall (λ id, cmd.Sprintf_07d id = Strconv.Itoa id)
           repo.predefined_asset_ids
  ∧ (∀ p id, Filepath.Join [p; "assets"; Strconv.Itoa id] = asset_dir p id).
Proof.
  split; [reflexivity|]. split; [reflexivity|]. split; [|split].
  - apply (bool_decide_unpack _). vm_compute. exact I.
  - repeat constructor; vm_compute; reflexivity.
  - intros p id. unfold asset_dir. symmetry. apply Join_nested.
Qed.

End Tables.

Section FileStat.

Lemma os_Stat_quiet (path : string) (w : world) : snd (os_Stat path w) = w.
Proof. unfold os_Stat. by destruct (files w !! path). Qed.

Lemma os_Stat_reads (path : string) (lines : list string) (w : world) :
  os_Stat path (with_output lines w)
  = (fst (os_Stat path w), with_output lines w).
Proof.
  unfold os_Stat. rewrite files_with_output.
  by destruct (files w !! path).
Qed.

Lemma Glob_literal_quiet (pattern : string) (w : world) :
  snd (Scenarios.Glob_literal pattern w) = w.
Proof. reflexivity. Qed.

End FileStat.

Module AddRuns.
Import PlainJSON Example Scenarios.

Lemma add_only_prints_witness :
  (∀ r path flags,
     only_prints (cmd.addPath rel_under_repo os_Stat r path flags))
  ∧ (∀ flags args,
       only_prints
         (cmd.runAdd rel_under_repo Glob_literal
            (cmd.addPath rel_under_repo os_Stat) flags args)).
Proof.
  apply (add_only_prints rel_under_repo Glob_literal os_Stat
           os_Stat_quiet Glob_literal_quiet).
Defined.

Lemma explicit_flags_are_taken_as_given_witness :
  ∃ assetDir,
    cmd.addPath rel_under_repo os_Stat the_repo "assets/1030002/a.txt"
                 music_flags w_asset
    = (Ok tt,
       with_output
         [ "Would create/update metadata at "
           +:+ Filepath.Join [assetDir; "meta.json"] +:+ cmd.newline;
           "Added " +:+ "assets/1030002/a.txt" +:+ " (type: "
           +:+ cmd.addType music_flags
           +:+ ", id: " +:+ Strconv.Itoa (cmd.addID music_flags) +:+ ")"
           +:+ cmd.newline ] w_asset)
    ∧ (assetDir = abs_path w_asset "assets/1030002/a.txt"
       ∨ (fst (os_Stat (Filepath.Join [assetDir; "meta.json"]) w_asset)
          = Ok tt
          ∧ ∃ k, assetDir
                 = Nat.iter (S k) Filepath.Dir
                     (abs_path w_asset "assets/1030002/a.txt"))).
Proof.
  apply (explicit_flags_are_taken_as_given rel_under_repo os_Stat
           os_Stat_quiet the_repo "assets/1030002/a.txt"
           "assets/1030002/a.txt" music_flags w_asset).
  - vm_compute. discriminate.
  - vm_compute. discriminate.
  - vm_compute. discriminate.
  - vm_compute. reflexivity.
  - vm_compute. reflexivity.
Defined.

Lemma type_and_id_come_from_the_path_witness :
  let assetID := if cmd.addID no_flags =? 0 then 1030002
                 else cmd.addID no_flags in
  ∃ assetDir,
    cmd.addPath rel_under_repo os_Stat the_repo "assets/1030002/a.txt"
                 no_flags w_asset
    = (Ok tt,
       with_output
         [ "Would create/update metadata at "
           +:+ Filepath.Join [assetDir; "meta.json"] +:+ cmd.newline;
           "Added " +:+ "assets/1030002/a.txt" +:+ " (type: "
           +:+ cmd.getAssetTypeFromID assetID
           +:+ ", id: " +:+ Strconv.Itoa assetID +:+ ")" +:+ cmd.newline ]
         w_asset)
    ∧ (assetDir = abs_path w_asset "assets/1030002/a.txt"
       ∨ fst (os_Stat (Filepath.Join [assetDir; "meta.json"]) w_asset)
         = Ok tt).
Proof.
  apply (type_and_id_come_from_the_path rel_under_repo os_Stat
           os_Stat_quiet the_repo "assets/1030002/a.txt" "1030002" "/a.txt"
           1030002 no_flags w_asset).
  - reflexivity.
  - reflexivity.
  - right. exists "a.txt". reflexivity.
  - vm_compute. reflexivity.
  - vm_compute. reflexivity.
  - vm_compute. discriminate.
  - vm_compute. discriminate.
  - vm_compute. reflexivity.
Defined.

Lemma zero_id_is_not_added_witness :
  cmd.isAssetPath rel_under_repo (Path the_repo)
    (abs_path w_zero "assets/0/a.txt") = true
  ∧ cmd.addPath rel_under_repo os_Stat the_repo "assets/0/a.txt"
                 no_flags w_zero
    = (Err (ErrNew "asset type not specified and could not be determined from path"),
       w_zero).
Proof.
  split; [vm_compute; reflexivity|].
  apply (zero_id_is_not_added rel_under_repo os_Stat os_Stat_quiet the_repo
           "assets/0/a.txt" "assets/0/a.txt" no_flags w_zero).
  - reflexivity.
  - reflexivity.
  - vm_compute. discriminate.
  - vm_compute. reflexivity.
  - vm_compute. reflexivity.
  - vm_compute. reflexivity.
  - intros dir Hfind. vm_compute in Hfind. injection Hfind as <-.
    vm_compute. reflexivity.
Defined.

Lemma findAssetDirectory_returns_witness :
  ∃ dir,
    cmd.findAssetDirectory rel_under_repo os_Stat "/repo"
                            "/repo/assets/1030002/a.txt" w_asset
    = (Ok dir, w_asset).
Proof.
  apply (findAssetDirectory_returns rel_under_repo os_Stat os_Stat_quiet).
Defined.

Lemma listing_shows_every_asset_type_witness :
  let line e :=
    folder_line
      (is_Ok (fst (os_Stat
                     (Filepath.Join [Filepath.Join [Path the_repo; "assets"];
                                     Strconv.Itoa e.1]) w_init)))
      e.1 e.2 in
  cmd.runList os_Stat chdir false [] (rev cmd.assetNameTable) w_init
  = (Ok tt,
     with_output (listing_header ++ map line (rev cmd.assetNameTable)
                  ++ listing_usage) w_init)
  ∧ (rev cmd.assetNameTable ≡ₚ cmd.assetNameTable →
     map line (rev cmd.assetNameTable) ≡ₚ map line cmd.assetNameTable).
Proof.
  apply (listing_shows_every_asset_type os_Stat chdir os_Stat_reads false []
           (rev cmd.assetNameTable) w_init the_repo).
  - vm_compute. reflexivity.
  - by left.
Defined.


End AddRuns.
